(** * reskit.core: the Pipeliner plan builder, prefix cache and
      search-and-evaluate loop, embedded from [src/reskit/core.py].

    Python objects are modelled by value: ordered dictionaries are
    association lists with unique keys kept in insertion order, exceptions
    are an explicit outcome that keeps the state reached when they were
    raised, and every call into scikit-learn is an operation of the
    [Sklearn] interface acting on an abstract world of stage objects. *)

From Stdlib Require Import String Ascii List ZArith Lia Bool Arith.
Import ListNotations.
Open Scope string_scope.
Open Scope list_scope.

Set Implicit Arguments.

(** ** Exceptions and outcomes *)

Inductive exn : Type :=
| NameError (name : string)
| KeyError (key : string)
| IndexError
| ValueError
| AttributeError (attr : string)
| TypeError
| LibraryError (msg : string).

(** The outcome of running a statement from state [S]: a value and the new
    state, or an exception together with the state it left behind. *)
Inductive result (S A : Type) : Type :=
| Ok (a : A) (s : S)
| Raise (e : exn) (s : S).

Arguments Ok {S A} a s.
Arguments Raise {S A} e s.

Definition M (S A : Type) : Type := S -> result S A.

Definition ret {S A} (a : A) : M S A := fun s => Ok a s.

Definition bind {S A B} (m : M S A) (k : A -> M S B) : M S B :=
  fun s => match m s with
           | Ok a s' => k a s'
           | Raise e s' => Raise e s'
           end.

Definition raise {S A} (e : exn) : M S A := fun s => Raise e s.

Definition get {S} : M S S := fun s => Ok s s.

Definition put {S} (s : S) : M S unit := fun _ => Ok tt s.

Declare Scope py_scope.
Delimit Scope py_scope with py.
Notation "x <- m ;; k" := (bind m (fun x => k))
  (at level 100, m at next level, right associativity) : py_scope.
Notation "m ;;; k" := (bind m (fun _ => k))
  (at level 100, right associativity) : py_scope.
Open Scope py_scope.

(** ** Python containers *)

Module PyList.

(** [l[-1]] *)
Definition last_item {A} (l : list A) : option A :=
  match rev l with
  | [] => None
  | x :: _ => Some x
  end.

(** [l[-n:]]; recall that [l[-0:]] is the whole list. *)
Definition last_n {A} (n : nat) (l : list A) : list A :=
  match n with
  | O => l
  | _ => skipn (length l - n) l
  end.

(** [l.remove(x)]: drops the first occurrence, [None] stands for the
    ValueError of an absent element. *)
Fixpoint remove (x : string) (l : list string) : option (list string) :=
  match l with
  | [] => None
  | y :: l' =>
      if String.eqb x y then Some l'
      else match remove x l' with
           | Some r => Some (y :: r)
           | None => None
           end
  end.

Definition mem (x : string) (l : list string) : bool :=
  existsb (String.eqb x) l.

(** [itertools.product] over the lists [ls]: the right-most position
    varies fastest. *)
Fixpoint product {A} (ls : list (list A)) : list (list A) :=
  match ls with
  | [] => [[]]
  | l :: rest => flat_map (fun x => map (cons x) (product rest)) l
  end.

(** [zip] stops at the shorter argument; this is [List.combine]. *)
Definition zip {A B} := @List.combine A B.

End PyList.

Module PySet.

(** A set of names, kept as a duplicate-free list. *)
Fixpoint of_list (l : list string) : list string :=
  match l with
  | [] => []
  | x :: l' => if PyList.mem x l' then of_list l' else x :: of_list l'
  end.

(** [a - b] *)
Definition diff (a b : list string) : list string :=
  filter (fun x => negb (PyList.mem x b)) a.

(** [a == set()] *)
Definition is_empty (a : list string) : bool :=
  match a with [] => true | _ => false end.

End PySet.

Module OrderedDict.

(** Keys in insertion order; assigning to a present key keeps its place. *)
Definition t (V : Type) : Type := list (string * V).

Definition empty {V} : t V := [].

Fixpoint getitem {V} (k : string) (d : t V) : option V :=
  match d with
  | [] => None
  | (k', v) :: d' => if String.eqb k k' then Some v else getitem k d'
  end.

Fixpoint setitem {V} (k : string) (v : V) (d : t V) : t V :=
  match d with
  | [] => [(k, v)]
  | (k', v') :: d' =>
      if String.eqb k k' then (k, v) :: d' else (k', v') :: setitem k v d'
  end.

Fixpoint delitem {V} (k : string) (d : t V) : option (t V) :=
  match d with
  | [] => None
  | (k', v') :: d' =>
      if String.eqb k k' then Some d'
      else match delitem k d' with
           | Some r => Some ((k', v') :: r)
           | None => None
           end
  end.

Definition keys {V} (d : t V) : list string := map fst d.

Definition values {V} (d : t V) : list V := map snd d.

Definition contains {V} (k : string) (d : t V) : bool :=
  PyList.mem k (keys d).

(** [OrderedDict(pairs)] and [dict(pairs)] *)
Definition of_pairs {V} (l : list (string * V)) : t V :=
  fold_left (fun d kv => setitem (fst kv) (snd kv) d) l empty.

Definition map_values {V W} (f : V -> W) (d : t V) : t W :=
  map (fun kv => (fst kv, f (snd kv))) d.

End OrderedDict.

Abbreviation odict := OrderedDict.t.

(** ** pandas frames

    A frame is its column labels and its rows, each row a record from
    label to cell; the index is the row position [0 .. n-1]. *)

Record DataFrame (C : Type) : Type := mkDataFrame {
  columns : list string;
  rows : list (odict C)
}.

Module Frame.

(** [DataFrame().from_dict(records)]: the labels are those of the
    records, none when there is no record. *)
Definition from_dict {C} (records : list (odict C)) : DataFrame C :=
  {| columns := match records with
                | [] => []
                | r :: _ => OrderedDict.keys r
                end;
     rows := records |}.

Definition select_row {C} (cols : list string) (r : odict C) : odict C :=
  flat_map (fun c => match OrderedDict.getitem c r with
                     | Some v => [(c, v)]
                     | None => []
                     end) cols.

(** [frame[cols]]: a label absent from the frame is a KeyError. *)
Definition getitem_columns {C} (cols : list string) (f : DataFrame C)
  : exn + DataFrame C :=
  match filter (fun c => negb (PyList.mem c (columns f))) cols with
  | [] => inr {| columns := cols; rows := map (select_row cols) (rows f) |}
  | c :: _ => inl (KeyError c)
  end.

(** [frame.loc[idx]] *)
Definition loc {C} (idx : nat) (f : DataFrame C) : option (odict C) :=
  nth_error (rows f) idx.

(** [frame.loc[idx][key]] read back: the cell of row [idx] under the
    label [key]. *)
Definition cell {C} (f : DataFrame C) (idx : nat) (key : string)
  : option C :=
  match loc idx f with
  | Some r => OrderedDict.getitem key r
  | None => None
  end.

(** The labels each row record carries. *)
Definition labels {C} (f : DataFrame C) : list (list string) :=
  map (@OrderedDict.keys C) (rows f).

(** [DataFrame(columns=cols)]: labels and no row. *)
Definition with_columns {C} (cols : list string) : DataFrame C :=
  {| columns := cols; rows := [] |}.

Fixpoint set_nth {A} (n : nat) (x : A) (l : list A) : list A :=
  match l, n with
  | [], _ => []
  | _ :: l', O => x :: l'
  | y :: l', S n' => y :: set_nth n' x l'
  end.

(** [frame.loc[idx][key] = value]: the row handed out by [loc] is the
    frame's own row, so the cell under an existing label is overwritten
    in the frame; [None] stands for the KeyError of an absent index. *)
Definition set_cell {C} (idx : nat) (key : string) (value : C)
    (f : DataFrame C) : option (DataFrame C) :=
  match nth_error (rows f) idx with
  | None => None
  | Some r =>
      let r' := if OrderedDict.contains key r
                then OrderedDict.setitem key value r else r in
      Some {| columns := columns f; rows := set_nth idx r' (rows f) |}
  end.

(** [frame[cols] = src] on a frame that has no row yet: the frame takes
    the index of [src], every cell starts out as [blank] and the cells
    under [cols] are copied from [src]. *)
Definition assign_columns {C D} (blank : D) (inj : C -> D)
    (cols : list string) (src : DataFrame C) (dst : DataFrame D)
  : DataFrame D :=
  {| columns := columns dst;
     rows :=
       map (fun r =>
              fold_left
                (fun acc c =>
                   match OrderedDict.getitem c r with
                   | Some v => if OrderedDict.contains c acc
                               then OrderedDict.setitem c (inj v) acc
                               else acc
                   | None => acc
                   end)
                cols
                (OrderedDict.of_pairs (map (fun c => (c, blank)) (columns dst))))
           (rows src) |}.

End Frame.

(** ** The pandas interface

    What [frame.loc[idx]] hands out is decided by pandas, not by the
    source: the frame's own row, so that an assignment to one of its
    labels writes the frame (pandas without copy-on-write, on a frame of
    one dtype), or a copy of the row, so that the assignment is lost
    (copy-on-write). The choice is a parameter of the model. *)

Inductive row_access : Type :=
| SharesFrame
| CopiesRow.

Class Pandas : Type := {
  loc_row : row_access
}.

(** ** The scikit-learn interface *)

(** A cross-validation argument: [None], a fold count or an iterable of
    splits have no [random_state] attribute; a generator object has one,
    holding [None] or an integer. *)
Inductive cv (PlainCv Splitter : Type) : Type :=
| CvPlain (c : PlainCv)
| CvGenerator (g : Splitter) (random_state : option Z).

Arguments CvPlain {PlainCv Splitter} c.
Arguments CvGenerator {PlainCv Splitter} g random_state.

Record GridSearchCV (PyVal Num : Type) : Type := mkGridSearchCV {
  best_params_ : odict PyVal;
  cv_results_params : list (odict PyVal);
  cv_results_mean_test_score : list Num;
  cv_results_std_test_score : list Num
}.

Class Sklearn : Type := {
  Data : Type;
  Labels : Type;
  Predictions : Type;
  Num : Type;
  PyVal : Type;
  Estimator : Type;
  PlainCv : Type;
  Splitter : Type;
  World : Type;
  (** [a == b] on parameter values *)
  pyval_eqb : PyVal -> PyVal -> bool;
  (** [transformer.fit_transform(X)] *)
  fit_transform : Estimator -> Data -> M World Data;
  (** [estimator.set_params] applied to the keyword dict [params] *)
  set_params : Estimator -> odict PyVal -> M World unit;
  (** [GridSearchCV(Pipeline(steps), param_grid, scoring, cv).fit(X, y)] *)
  grid_search_fit :
    list (string * Estimator) -> odict PyVal -> string ->
    cv PlainCv Splitter -> Data -> Labels -> M World (GridSearchCV PyVal Num);
  (** [cross_val_score(Pipeline(steps), X, y, scoring, cv)] *)
  cross_val_score :
    list (string * Estimator) -> Data -> Labels -> string ->
    cv PlainCv Splitter -> M World (list Num);
  (** [cross_val_predict(Pipeline(steps), X, y, cv)] *)
  cross_val_predict :
    list (string * Estimator) -> Data -> Labels ->
    cv PlainCv Splitter -> M World Predictions;
  (** [check_scoring(estimator, scoring).__dict__['_score_func']] *)
  score_func :
    Estimator -> string -> M World (Labels -> Predictions -> M World Num);
  (** numpy's [mean] and [std] *)
  mean : list Num -> Num;
  std : list Num -> Num;
  (** [str] of a parameter dict, of a score array and of a score list *)
  str_params : odict PyVal -> string;
  str_array : list Num -> string;
  str_list : list Num -> string
}.


(** ** Module namespace

    What [import] and [class] statements bind at module level (lines 3-19
    and the three class definitions); a free name of a function body is
    looked up here when the statement using it runs. *)

Inductive binding : Type :=
| PyModule (name : string)
| PyObject (origin : string).

Definition module_globals : odict binding :=
  [ ("copy", PyModule "copy");
    ("Parallel", PyObject "sklearn.externals.joblib");
    ("delayed", PyObject "sklearn.externals.joblib");
    ("cross_val_score", PyObject "sklearn.model_selection");
    ("cross_val_predict", PyObject "sklearn.model_selection");
    ("GridSearchCV", PyObject "sklearn.model_selection");
    ("check_scoring", PyObject "sklearn.metrics.scorer");
    ("Pipeline", PyObject "sklearn.pipeline");
    ("TransformerMixin", PyObject "sklearn.base");
    ("BaseEstimator", PyObject "sklearn.base");
    ("OrderedDict", PyObject "collections");
    ("product", PyObject "itertools");
    ("DataFrame", PyObject "pandas");
    ("dump", PyObject "pickle");
    ("load", PyObject "pickle");
    ("mean", PyObject "numpy");
    ("std", PyObject "numpy");
    ("hstack", PyObject "numpy");
    ("vstack", PyObject "numpy");
    ("zeros", PyObject "numpy");
    ("array", PyObject "numpy");
    ("time", PyObject "time");
    ("os", PyObject "os");
    ("Pipeliner", PyObject "reskit.core");
    ("MatrixTransformer", PyObject "reskit.core");
    ("DataTransformer", PyObject "reskit.core");
    ("__all__", PyObject "reskit.core") ].

(** The namespace the body of [remove_unmatched_caching_X] asks for: the
    module's, with [cp] bound to the [copy] module as well. *)
Definition globals_with_cp : odict binding :=
  OrderedDict.setitem "cp" (PyModule "copy") module_globals.

(** [name.copy(l)] on a list [l]: the name has to be bound, and bound to
    the [copy] module, whose [copy] returns a list with the same items. *)
Definition call_copy {S A} (G : odict binding) (name : string) (l : list A)
  : M S (list A) :=
  match OrderedDict.getitem name G with
  | None => raise (NameError name)
  | Some (PyModule m) =>
      if String.eqb m "copy" then ret l else raise (AttributeError "copy")
  | Some (PyObject _) => raise (AttributeError "copy")
  end.

Module PyStr.

(** [s[n:]] *)
Fixpoint drop (n : nat) (s : string) : string :=
  match n, s with
  | O, _ => s
  | S n', String _ s' => drop n' s'
  | S _, EmptyString => EmptyString
  end.

(** [''.join(l)] *)
Definition join (l : list string) : string := String.concat "" l.

End PyStr.

Section Pipeliner.

Context {SK : Sklearn}.

Definition CV : Type := cv PlainCv Splitter.

(** The attributes of a [Pipeliner] object. The two cross-validation
    attributes are held by value, each with its own seed; the source
    keeps references, so that one object passed for both is one object
    still. *)
Record Pipeliner : Type := mkPipeliner {
  plan_table : DataFrame string;
  named_steps : odict (odict Estimator);
  eval_cv : CV;
  grid_cv : CV;
  param_grid : odict (odict PyVal);
  _cached_X : odict Data;
  best_params : odict (odict PyVal);
  scores : odict PyVal;
  asdf : option (odict PyVal);
  asdfasdf : option (odict PyVal)
}.

(** *** Plan builder: [Pipeliner.__init__] (lines 111-144) *)

(** Lines 118-122, on a combo given as the documented pair of names. *)
Definition accept_from_banned_combos
    (row_keys : list string) (banned_combo : string * string) : bool :=
  if PySet.is_empty
       (PySet.diff (PySet.of_list [fst banned_combo; snd banned_combo])
                   (PySet.of_list row_keys))
  then false else true.

(** [[list(steps[column]) for column in columns]] *)
Definition column_keys_of (steps : odict (odict Estimator))
  : list (list string) :=
  map (fun column =>
         match OrderedDict.getitem column steps with
         | Some d => OrderedDict.keys d
         | None => []
         end) (OrderedDict.keys steps).

(** The loop filling [row_of_plan] (lines 132-134). *)
Definition row_of_plan (cols row_keys : list string) : odict string :=
  fold_left (fun row cr => OrderedDict.setitem (fst cr) (snd cr) row)
            (PyList.zip cols row_keys) OrderedDict.empty.

(** The loop over [product] of [column_keys] (lines 125-135): a row is
    appended when [all(accept)] holds. *)
Definition plan_rows_of
    (cols : list string) (column_keys : list (list string))
    (banned_combos : list (string * string)) : list (odict string) :=
  flat_map
    (fun row_keys =>
       let accept := map (accept_from_banned_combos row_keys) banned_combos in
       if forallb (fun b => b) accept
       then [row_of_plan cols row_keys]
       else [])
    (PyList.product column_keys).

(** [steps = OrderedDict(steps)] followed by the loop that replaces every
    [steps[column]] by [OrderedDict(steps[column])]. *)
Definition ordered_steps (steps : list (string * list (string * Estimator)))
  : odict (odict Estimator) :=
  OrderedDict.map_values (fun l => OrderedDict.of_pairs l)
                         (OrderedDict.of_pairs steps).

Definition __init__
    (steps : list (string * list (string * Estimator)))
    (grid_cv eval_cv : CV)
    (param_grid : odict (odict PyVal))
    (banned_combos : list (string * string)) : exn + Pipeliner :=
  let steps := ordered_steps steps in
  let cols := OrderedDict.keys steps in
  let column_keys := column_keys_of steps in
  let plan_rows := plan_rows_of cols column_keys banned_combos in
  match Frame.getitem_columns cols (Frame.from_dict plan_rows) with
  | inl e => inl e
  | inr table =>
      inr {| plan_table := table;
             named_steps := steps;
             eval_cv := eval_cv;
             grid_cv := grid_cv;
             param_grid := param_grid;
             _cached_X := OrderedDict.empty;
             best_params := OrderedDict.empty;
             scores := OrderedDict.empty;
             asdf := None;
             asdfasdf := None |}
  end.

(** *** Program state: the object and the world of stage objects *)

Record state : Type := mkState {
  self : Pipeliner;
  world : World
}.

Definition lift_world {A} (m : M World A) : M state A :=
  fun s => match m (world s) with
           | Ok a w => Ok a {| self := self s; world := w |}
           | Raise e w => Raise e {| self := self s; world := w |}
           end.

Definition modify_self (f : Pipeliner -> Pipeliner) : M state unit :=
  fun s => Ok tt {| self := f (self s); world := world s |}.

Definition set_cached_X (c : odict Data) (p : Pipeliner) : Pipeliner :=
  {| plan_table := plan_table p; named_steps := named_steps p;
     eval_cv := eval_cv p; grid_cv := grid_cv p; param_grid := param_grid p;
     _cached_X := c;
     best_params := best_params p; scores := scores p;
     asdf := asdf p; asdfasdf := asdfasdf p |}.

Definition set_best_params (b : odict (odict PyVal)) (p : Pipeliner)
  : Pipeliner :=
  {| plan_table := plan_table p; named_steps := named_steps p;
     eval_cv := eval_cv p; grid_cv := grid_cv p; param_grid := param_grid p;
     _cached_X := _cached_X p;
     best_params := b; scores := scores p;
     asdf := asdf p; asdfasdf := asdfasdf p |}.

Definition set_eval_cv (c : CV) (p : Pipeliner) : Pipeliner :=
  {| plan_table := plan_table p; named_steps := named_steps p;
     eval_cv := c; grid_cv := grid_cv p; param_grid := param_grid p;
     _cached_X := _cached_X p;
     best_params := best_params p; scores := scores p;
     asdf := asdf p; asdfasdf := asdfasdf p |}.

Definition set_asdf (a b : odict PyVal) (p : Pipeliner) : Pipeliner :=
  {| plan_table := plan_table p; named_steps := named_steps p;
     eval_cv := eval_cv p; grid_cv := grid_cv p; param_grid := param_grid p;
     _cached_X := _cached_X p;
     best_params := best_params p; scores := scores p;
     asdf := Some a; asdfasdf := Some b |}.

(** [d[k]] with its KeyError *)
Definition subscript {S V} (k : string) (d : odict V) : M S V :=
  match OrderedDict.getitem k d with
  | Some v => ret v
  | None => raise (KeyError k)
  end.

(** [l[-1]] with its IndexError *)
Definition last_of {S A} (l : list A) : M S A :=
  match PyList.last_item l with
  | Some x => ret x
  | None => raise IndexError
  end.

(** [self.named_steps[column][row_key]] *)
Definition named_step (column row_key : string) : M state Estimator :=
  s <- get ;;
  variants <- subscript column (named_steps (self s)) ;;
  subscript row_key variants.

(** *** Prefix cache: [Pipeliner.transform_with_caching] (lines 261-322) *)

Section Caching.

(** The namespace the method body runs in. *)
Variable G : odict binding.

(** First loop of [remove_unmatched_caching_X]: walk the two key lists in
    step and take every matched key out of [unmatched_caching_keys]. *)
Fixpoint strike_matched (pairs : list (string * string))
    (unmatched_caching_keys : list string) : M state (list string) :=
  match pairs with
  | [] => ret unmatched_caching_keys
  | (row_key, cached_key) :: rest =>
      if negb (String.eqb row_key cached_key)
      then ret unmatched_caching_keys
      else match PyList.remove row_key unmatched_caching_keys with
           | Some u => strike_matched rest u
           | None => raise ValueError
           end
  end.

(** Second loop: [del self._cached_X[unmatched_caching_key]]. *)
Fixpoint evict (unmatched_caching_keys : list string) : M state unit :=
  match unmatched_caching_keys with
  | [] => ret tt
  | k :: rest =>
      s <- get ;;
      match OrderedDict.delitem k (_cached_X (self s)) with
      | Some c => modify_self (set_cached_X c) ;;; evict rest
      | None => raise (KeyError k)
      end
  end.

(** Lines 287-296. The copy of the key list is asked of the name [cp]. *)
Definition remove_unmatched_caching_X_in (row_keys : list string)
  : M state unit :=
  s <- get ;;
  let cached_keys := OrderedDict.keys (_cached_X (self s)) in
  unmatched_caching_keys <- call_copy G "cp" cached_keys ;;
  unmatched_caching_keys <-
    strike_matched (PyList.zip row_keys cached_keys) unmatched_caching_keys ;;
  evict unmatched_caching_keys.

(** The loop of [transform_X_from_last_cached]. *)
Fixpoint extend_cache (pairs : list (string * string)) (prev_key : string)
  : M state unit :=
  match pairs with
  | [] => ret tt
  | (row_key, column) :: rest =>
      transformer <- named_step column row_key ;;
      s <- get ;;
      X <- subscript prev_key (_cached_X (self s)) ;;
      X' <- lift_world (fit_transform transformer X) ;;
      modify_self (fun p => set_cached_X
                              (OrderedDict.setitem row_key X' (_cached_X p)) p) ;;;
      extend_cache rest row_key
  end.

(** Lines 298-304. *)
Definition transform_X_from_last_cached (row_keys cols : list string)
  : M state unit :=
  s <- get ;;
  prev_key <- last_of (OrderedDict.keys (_cached_X (self s))) ;;
  extend_cache (PyList.zip row_keys cols) prev_key.

(** [for i in range(n): del row_keys[0]; del columns[0]] *)
Fixpoint del_heads (n : nat) (row_keys cols : list string)
  : M state (list string * list string) :=
  match n with
  | O => ret (row_keys, cols)
  | S n' =>
      match row_keys with
      | [] => raise IndexError
      | _ :: row_keys' =>
          match cols with
          | [] => raise IndexError
          | _ :: cols' => del_heads n' row_keys' cols'
          end
      end
  end.

(** Lines 285 and 306-322. *)
Definition transform_with_caching_in
    (X : Data) (y : Labels) (row_keys : list string)
  : M state (Data * Labels) :=
  s <- get ;;
  let cols := firstn (length row_keys) (columns (plan_table (self s))) in
  (if negb (OrderedDict.contains "init" (_cached_X (self s)))
   then
     modify_self (fun p => set_cached_X
                             (OrderedDict.setitem "init" X (_cached_X p)) p) ;;;
     transform_X_from_last_cached row_keys cols
   else
     let row_keys := "init" :: row_keys in
     let cols := "init" :: cols in
     remove_unmatched_caching_X_in row_keys ;;;
     s <- get ;;
     let cached_keys := OrderedDict.keys (_cached_X (self s)) in
     let cached_keys_length := length cached_keys in
     rc <- del_heads cached_keys_length row_keys cols ;;
     transform_X_from_last_cached (fst rc) (snd rc)) ;;;
  s <- get ;;
  last_cached_key <- last_of (OrderedDict.keys (_cached_X (self s))) ;;
  Xc <- subscript last_cached_key (_cached_X (self s)) ;;
  ret (Xc, y).

End Caching.

(** The methods as they run inside the module. *)
Definition remove_unmatched_caching_X := remove_unmatched_caching_X_in module_globals.
Definition transform_with_caching := transform_with_caching_in module_globals.

(** *** Hyperparameter search: [Pipeliner.get_grid_search_results]
    (lines 324-407) *)

(** A cell of a result table or a value of a result mapping: a string, a
    number, or the NaN of a cell never assigned. *)
Inductive cell : Type :=
| CStr (s : string)
| CNum (x : Num)
| CNaN.

(** [a == b] on two parameter dicts: same keys, equal values. *)
Definition dict_eqb (a b : odict PyVal) : bool :=
  Nat.eqb (length a) (length b) &&
  forallb (fun kv => match OrderedDict.getitem (fst kv) b with
                     | Some v => pyval_eqb (snd kv) v
                     | None => false
                     end) a.

Definition grid_mean_key (scoring : string) : string :=
  "grid_" ++ scoring ++ "_mean".
Definition grid_std_key (scoring : string) : string :=
  "grid_" ++ scoring ++ "_std".
Definition grid_best_params_key (scoring : string) : string :=
  "grid_" ++ scoring ++ "_best_params".
Definition eval_mean_key (scoring : string) : string :=
  "eval_" ++ scoring ++ "_mean".
Definition eval_std_key (scoring : string) : string :=
  "eval_" ++ scoring ++ "_std".
Definition eval_scores_key (scoring : string) : string :=
  "eval_" ++ scoring ++ "_scores".

(** [''.join(row_keys) + str(scoring)] *)
Definition param_key (row_keys : list string) (scoring : string) : string :=
  PyStr.join row_keys ++ scoring.

(** [a[i]] on an array, with its IndexError *)
Definition item {S A} (i : nat) (a : list A) : M S A :=
  match nth_error a i with
  | Some x => ret x
  | None => raise IndexError
  end.

(** The loop that appends [(row_key, self.named_steps[column][row_key])]. *)
Fixpoint build_steps (pairs : list (string * string))
  : M state (list (string * Estimator)) :=
  match pairs with
  | [] => ret []
  | (row_key, column) :: rest =>
      e <- named_step column row_key ;;
      steps <- build_steps rest ;;
      ret ((row_key, e) :: steps)
  end.

(** The loop over [enumerate(grid_clf.cv_results_['params'])]. *)
Fixpoint best_rows (i : nat) (params_list : list (odict PyVal))
    (grid_clf : GridSearchCV PyVal Num) (scoring : string)
    (best : odict PyVal) (results : odict cell) : M state (odict cell) :=
  match params_list with
  | [] => ret results
  | params :: rest =>
      if dict_eqb params (best_params_ grid_clf)
      then
        m <- item i (cv_results_mean_test_score grid_clf) ;;
        let results := OrderedDict.setitem (grid_mean_key scoring) (CNum m) results in
        sd <- item i (cv_results_std_test_score grid_clf) ;;
        let results := OrderedDict.setitem (grid_std_key scoring) (CNum sd) results in
        let results := OrderedDict.setitem (grid_best_params_key scoring)
                                           (CStr (str_params best)) results in
        best_rows (S i) rest grid_clf scoring best results
      else best_rows (S i) rest grid_clf scoring best results
  end.

Definition get_grid_search_results
    (X : Data) (y : Labels) (row_keys : list string) (scoring : string)
  : M state (odict cell) :=
  classifier_key <- last_of row_keys ;;
  s <- get ;;
  if OrderedDict.contains classifier_key (param_grid (self s))
  then
    let cols := PyList.last_n (length row_keys) (columns (plan_table (self s))) in
    steps <- build_steps (PyList.zip row_keys cols) ;;
    declared <- subscript classifier_key (param_grid (self s)) ;;
    let grid :=
      fold_left (fun g kv =>
                   OrderedDict.setitem (classifier_key ++ "__" ++ fst kv) (snd kv) g)
                declared OrderedDict.empty in
    modify_self (set_asdf grid declared) ;;;
    s <- get ;;
    grid_clf <- lift_world (grid_search_fit steps grid scoring (grid_cv (self s)) X y) ;;
    let classifier_key_len := String.length classifier_key in
    let best :=
      fold_left (fun b kv =>
                   OrderedDict.setitem (PyStr.drop (classifier_key_len + 2) (fst kv))
                                       (snd kv) b)
                (best_params_ grid_clf) OrderedDict.empty in
    modify_self (fun p => set_best_params
                            (OrderedDict.setitem (param_key row_keys scoring) best
                                                 (best_params p)) p) ;;;
    best_rows 0 (cv_results_params grid_clf) grid_clf scoring best OrderedDict.empty
  else
    modify_self (fun p => set_best_params
                            (OrderedDict.setitem (param_key row_keys scoring)
                                                 OrderedDict.empty
                                                 (best_params p)) p) ;;;
    let results := OrderedDict.empty in
    let results := OrderedDict.setitem (grid_mean_key scoring) (CStr "NaN") results in
    let results := OrderedDict.setitem (grid_std_key scoring) (CStr "NaN") results in
    let results := OrderedDict.setitem (grid_best_params_key scoring) (CStr "NaN") results in
    ret results.

(** *** Evaluator: [Pipeliner.get_scores] (lines 409-469) *)

(** What [get_scores] returns: the array of [cross_val_score] or the list
    built by the repeat loop. *)
Inductive score_values : Type :=
| ScoreArray (a : list Num)
| ScoreList (l : list Num).

Definition score_items (v : score_values) : list Num :=
  match v with ScoreArray a => a | ScoreList l => l end.

(** [self.eval_cv.random_state] *)
Definition get_random_state : M state (option Z) :=
  s <- get ;;
  match eval_cv (self s) with
  | CvGenerator _ rs => ret rs
  | CvPlain _ => raise (AttributeError "random_state")
  end.

(** [self.eval_cv.random_state = v] *)
Definition set_random_state (v : option Z) : M state unit :=
  s <- get ;;
  match eval_cv (self s) with
  | CvGenerator g _ => modify_self (set_eval_cv (CvGenerator g v))
  | CvPlain _ => raise (AttributeError "random_state")
  end.

(** [self.eval_cv.random_state += 1] *)
Definition bump_random_state : M state unit :=
  rs <- get_random_state ;;
  match rs with
  | Some z => set_random_state (Some (z + 1)%Z)
  | None => raise TypeError
  end.

(** [not collect_n] *)
Definition falsy (collect_n : option Z) : bool :=
  match collect_n with
  | None => true
  | Some n => Z.eqb n 0
  end.

(** The body of [for i in range(collect_n)], run [n] times. *)
Fixpoint repeat_scores (n : nat) (steps : list (string * Estimator))
    (X : Data) (y : Labels) (scoring : string) (scores : list Num)
  : M state (list Num) :=
  match n with
  | O => ret scores
  | S n' =>
      s <- get ;;
      fold_prediction <- lift_world (cross_val_predict steps X y (eval_cv (self s))) ;;
      final <- last_of steps ;;
      metric <- lift_world (score_func (snd final) scoring) ;;
      sc <- lift_world (metric y fold_prediction) ;;
      let scores := scores ++ [sc] in
      bump_random_state ;;;
      repeat_scores n' steps X y scoring scores
  end.

Definition get_scores
    (X : Data) (y : Labels) (row_keys : list string) (scoring : string)
    (collect_n : option Z) : M state score_values :=
  s <- get ;;
  let cols := PyList.last_n (length row_keys) (columns (plan_table (self s))) in
  let param_key := param_key row_keys scoring in
  steps <- build_steps (PyList.zip row_keys cols) ;;
  final <- last_of steps ;;
  params <- subscript param_key (best_params (self s)) ;;
  lift_world (set_params (snd final) params) ;;;
  if falsy collect_n
  then
    s <- get ;;
    a <- lift_world (cross_val_score steps X y scoring (eval_cv (self s))) ;;
    ret (ScoreArray a)
  else
    init_random_state <- get_random_state ;;
    l <- repeat_scores (Z.to_nat (match collect_n with Some n => n | None => 0%Z end))
                       steps X y scoring [] ;;
    set_random_state init_random_state ;;;
    ret (ScoreList l).

(** *** Orchestration and result table: [Pipeliner.get_results]
    (lines 146-259)

    The log file and the timing of each phase are left out: they are
    written and never read back. *)

(** The [scoring] argument: one metric name or a list of names. *)
Inductive scoring_arg : Type :=
| ScoringName (s : string)
| ScoringList (l : list string).

Definition grid_steps (metric : string) : list string :=
  [grid_mean_key metric; grid_std_key metric; grid_best_params_key metric].

Definition eval_steps (metric : string) : list string :=
  [eval_mean_key metric; eval_std_key metric; eval_scores_key metric].

(** [str(scores)] *)
Definition str_scores (v : score_values) : string :=
  match v with
  | ScoreArray a => str_array a
  | ScoreList l => str_list l
  end.

(** [list(row[labels].values)] *)
Fixpoint row_values (labels : list string) (row : odict string)
  : M state (list string) :=
  match labels with
  | [] => ret []
  | c :: rest =>
      v <- subscript c row ;;
      vs <- row_values rest row ;;
      ret (v :: vs)
  end.

Context {PD : Pandas}.

(** [results.loc[idx][key] = value]: [results.loc[idx]] raises KeyError
    for an absent index; the assignment then writes the frame's cell when
    the row is the frame's own, and a temporary when it is a copy. *)
Definition write_cell (idx : nat) (key : string) (value : cell)
    (results : DataFrame cell) : M state (DataFrame cell) :=
  match loc_row with
  | SharesFrame =>
      match Frame.set_cell idx key value results with
      | Some r => ret r
      | None => raise (KeyError "idx")
      end
  | CopiesRow =>
      match Frame.loc idx results with
      | Some _ => ret results
      | None => raise (KeyError "idx")
      end
  end.

(** [for key, value in grid_res.items(): results.loc[idx][key] = value] *)
Fixpoint write_items (idx : nat) (items : list (string * cell))
    (results : DataFrame cell) : M state (DataFrame cell) :=
  match items with
  | [] => ret results
  | (key, value) :: rest =>
      results <- write_cell idx key value results ;;
      write_items idx rest results
  end.

Section Orchestration.

Variable G : odict binding.

(** The body of [for metric in scoring] for the row at [idx]. *)
Fixpoint score_metrics (metrics : list string) (idx : nat) (row : odict string)
    (without_caching : list string) (X_featured : Data) (y : Labels)
    (collect_n : option Z) (results : DataFrame cell)
  : M state (DataFrame cell) :=
  match metrics with
  | [] => ret results
  | metric :: rest =>
      ml_keys <- row_values without_caching row ;;
      grid_res <- get_grid_search_results X_featured y ml_keys metric ;;
      results <- write_items idx grid_res results ;;
      scores <- get_scores X_featured y ml_keys metric collect_n ;;
      results <- write_cell idx (eval_mean_key metric)
                            (CNum (mean (score_items scores))) results ;;
      results <- write_cell idx (eval_std_key metric)
                            (CNum (std (score_items scores))) results ;;
      results <- write_cell idx (eval_scores_key metric)
                            (CStr (str_scores scores)) results ;;
      score_metrics rest idx row without_caching X_featured y collect_n results
  end.

(** The body of [for idx in self.plan_table.index]. *)
Fixpoint run_rows (index : list nat) (X : Data) (y : Labels)
    (caching_steps without_caching scoring : list string)
    (collect_n : option Z) (results : DataFrame cell)
  : M state (DataFrame cell) :=
  match index with
  | [] => ret results
  | idx :: rest =>
      s <- get ;;
      row <- match Frame.loc idx (plan_table (self s)) with
             | Some r => ret r
             | None => raise (KeyError "idx")
             end ;;
      caching_keys <- row_values caching_steps row ;;
      Xy <- transform_with_caching_in G X y caching_keys ;;
      results <- score_metrics scoring idx row without_caching
                               (fst Xy) (snd Xy) collect_n results ;;
      run_rows rest X (snd Xy) caching_steps without_caching scoring
               collect_n results
  end.

Definition get_results_in
    (X : Data) (y : Labels) (caching_steps : list string)
    (scoring : scoring_arg) (collect_n : option Z)
  : M state (DataFrame cell) :=
  let scoring := match scoring with
                 | ScoringName s => [s]
                 | ScoringList l => l
                 end in
  s <- get ;;
  let cols := columns (plan_table (self s)) in
  let without_caching :=
    filter (fun step => negb (PyList.mem step caching_steps)) cols in
  let all_columns :=
    fold_left (fun cs metric => cs ++ (grid_steps metric ++ eval_steps metric))
              scoring cols in
  let results := Frame.with_columns all_columns in
  let results :=
    Frame.assign_columns CNaN CStr cols (plan_table (self s)) results in
  run_rows (seq 0 (length (rows (plan_table (self s))))) X y
           caching_steps without_caching scoring collect_n results.

End Orchestration.

Definition get_results := get_results_in module_globals.

End Pipeliner.

(** ** Notions used to state the properties *)

Section Vocabulary.

Context {SK : Sklearn}.

(** Both names of the banned combo are among the row's names. *)
Definition both_present (row : list string) (bc : string * string) : bool :=
  PyList.mem (fst bc) row && PyList.mem (snd bc) row.

(** Applying the stages of a prefix in order, from scratch. *)
Definition apply_prefix (ft : Estimator -> Data -> Data)
    (stages : list Estimator) (X : Data) : Data :=
  fold_left (fun d e => ft e d) stages X.

(** [fit_transform] is a function of its input alone: it always returns,
    and returns [ft e d] whatever the world is. *)
Definition pure_stages (ft : Estimator -> Data -> Data) : Prop :=
  forall e d w, exists w', fit_transform e d w = Ok (ft e d) w'.

(** One pass of the repeat loop under the generator [c]: a prediction
    pass, the metric's scoring function, and its value on the true and
    predicted labels. *)
Definition prediction_score (steps : list (string * Estimator))
    (final : string * Estimator) (X : Data) (y : Labels) (scoring : string)
    (c : CV) (sc : Num) : Prop :=
  exists w0 pred w1 metric w2 w3,
    cross_val_predict steps X y c w0 = Ok pred w1 /\
    score_func (snd final) scoring w1 = Ok metric w2 /\
    metric y pred w2 = Ok sc w3.

(** The state a search leaves when the final stage declares no grid. *)
Definition after_blank_search (row_keys : list string) (scoring : string)
    (s : state) : state :=
  {| self := set_best_params
               (OrderedDict.setitem (param_key row_keys scoring)
                                    OrderedDict.empty (best_params (self s)))
               (self s);
     world := world s |}.




(** The scikit-learn calls of [get_scores] never raise. *)
Definition evaluation_returns : Prop :=
  (forall e params w, exists w', set_params e params w = Ok tt w') /\
  (forall steps X y scoring c w,
      exists a w', cross_val_score steps X y scoring c w = Ok a w') /\
  (forall steps X y c w,
      exists pred w', cross_val_predict steps X y c w = Ok pred w') /\
  (forall e scoring w,
      exists metric w',
        score_func e scoring w = Ok metric w' /\
        forall y pred w2, exists sc w3, metric y pred w2 = Ok sc w3).

(** The number of leading positions at which two key sequences agree. *)
Fixpoint common_prefix_length (a b : list string) : nat :=
  match a, b with
  | x :: a', y :: b' =>
      if String.eqb x y then S (common_prefix_length a' b') else 0
  | _, _ => 0
  end.

(** The state with the cache replaced. *)
Definition with_cache (c : odict Data) (s : state) : state :=
  {| self := set_cached_X c (self s); world := world s |}.

(** The cache operation as section 4.2 of the specification words it,
    positions counted with the root entry at position 0: [p] is the length
    of the common prefix of the root followed by the target keys and of
    the cached key sequence; the entries at positions [p] and beyond are
    dropped; the stages of the remaining target positions are applied in
    turn from the last surviving entry; the last entry's data is returned
    with [y]. *)
Definition resolve (X : Data) (y : Labels) (target_keys : list string)
  : M state (Data * Labels) :=
  s <- get ;;
  let cols := firstn (length target_keys) (columns (plan_table (self s))) in
  let cached := _cached_X (self s) in
  let p := common_prefix_length ("init" :: target_keys)
                                (OrderedDict.keys cached) in
  put (with_cache (firstn p cached) s) ;;;
  transform_X_from_last_cached (skipn (p - 1) target_keys)
                               (skipn (p - 1) cols) ;;;
  s <- get ;;
  last_cached_key <- last_of (OrderedDict.keys (_cached_X (self s))) ;;
  Xc <- subscript last_cached_key (_cached_X (self s)) ;;
  ret (Xc, y).

(** The data after each stage of a prefix applied from scratch. *)
Fixpoint chain (ft : Estimator -> Data -> Data) (stages : list Estimator)
    (X : Data) : list Data :=
  match stages with
  | [] => []
  | e :: rest => ft e X :: chain ft rest (ft e X)
  end.

(** The cache is the lineage of [steps] over the input [X0]: the root
    entry, then one entry per stage, named after its variant and holding
    the data after that stage; [steps] are the stages the plan's leading
    columns give for these names, which are distinct and not [init]. *)
Definition lineage (ft : Estimator -> Data -> Data) (X0 : Data)
    (steps : list (string * Estimator)) (s : state) : Prop :=
  _cached_X (self s)
  = ("init", X0) :: combine (map fst steps) (chain ft (map snd steps) X0) /\
  build_steps
    (PyList.zip (map fst steps)
       (firstn (length steps) (columns (plan_table (self s))))) s
  = Ok steps s /\
  NoDup ("init" :: map fst steps) /\
  length steps <= length (columns (plan_table (self s))).

(** The result columns of a list of metrics, in table order. *)
Definition metric_columns (metrics : list string) : list string :=
  flat_map (fun metric => grid_steps metric ++ eval_steps metric) metrics.

End Vocabulary.

(** ** A test double of scikit-learn

    Data, labels, predictions, scores and parameter values are integers.
    A stage is a name and a digit; fitting and transforming appends the
    digit to the data. The world is the log of what was done to stages:
    each [fit_transform] and each [set_params]. *)

Module Demo.

Inductive event : Type :=
| Fitted (stage : string)
| ParamsSet (stage : string) (params : odict Z).

Definition sum (l : list Z) : Z := fold_right Z.add 0%Z l.

Definition seed_of (c : cv unit unit) : Z :=
  match c with
  | CvGenerator _ (Some z) => z
  | _ => 0%Z
  end.

Definition append_digit (e : string * Z) (X : Z) : Z := (10 * X + snd e)%Z.

#[export] Instance counting : Sklearn := {|
  Data := Z;
  Labels := Z;
  Predictions := Z;
  Num := Z;
  PyVal := Z;
  Estimator := string * Z;
  PlainCv := unit;
  Splitter := unit;
  World := list event;
  pyval_eqb := Z.eqb;
  fit_transform := fun e X w => Ok (append_digit e X) (w ++ [Fitted (fst e)]);
  set_params := fun e params w => Ok tt (w ++ [ParamsSet (fst e) params]);
  grid_search_fit := fun steps grid scoring c X y w =>
    Ok {| best_params_ := grid;
          cv_results_params := [grid];
          cv_results_mean_test_score := [(X + y)%Z];
          cv_results_std_test_score := [1%Z] |} w;
  cross_val_score := fun steps X y scoring c w => Ok [X; (X + seed_of c)%Z] w;
  cross_val_predict := fun steps X y c w => Ok (X + seed_of c)%Z w;
  score_func := fun e scoring w =>
    Ok (fun (y pred : Z) (w : list event) => Ok (100 * y + pred)%Z w) w;
  mean := sum;
  std := fun l => Z.of_nat (length l);
  str_params := fun d => PyStr.join (OrderedDict.keys d);
  str_array := fun a => "array";
  str_list := fun l => "list"
|}.

(** pandas as the code was written for: rows shared with the frame. *)
#[export] Instance shared_rows : Pandas := {| loc_row := SharesFrame |}.

Definition seeded (z : Z) : cv unit unit := CvGenerator tt (Some z).

Definition blank : Pipeliner :=
  {| plan_table := {| columns := []; rows := [] |};
     named_steps := []; eval_cv := seeded 0; grid_cv := seeded 0;
     param_grid := []; _cached_X := []; best_params := []; scores := [];
     asdf := None; asdfasdf := None |}.

Definition built (r : exn + Pipeliner) : Pipeliner :=
  match r with inr p => p | inl _ => blank end.

Definition fresh (p : Pipeliner) : state := {| self := p; world := [] |}.

Definition scalers : list (string * (string * Z)) :=
  [("minmax", ("minmax", 1%Z)); ("standard", ("standard", 2%Z))].

Definition selectors : list (string * (string * Z)) :=
  [("pca", ("pca", 3%Z)); ("kbest", ("kbest", 4%Z))].

Definition classifiers : list (string * (string * Z)) :=
  [("LR", ("LR", 5%Z)); ("SVC", ("SVC", 6%Z))].

(** Scaler x Classifier, as in the class docstring. *)
Definition two_steps : list (string * list (string * (string * Z))) :=
  [("Scaler", scalers); ("Classifier", classifiers)].

(** Scaler x Selector x Classifier, with a grid declared for LR. *)
Definition three_steps : list (string * list (string * (string * Z))) :=
  [("Scaler", scalers); ("Selector", selectors); ("Classifier", classifiers)].

Definition pipe3 : Pipeliner :=
  built (__init__ three_steps (seeded 0) (seeded 1)
                  [("LR", [("penalty", 7%Z)])] []).

(** One variant per step: a plan of a single row. *)
Definition pipe1 : Pipeliner :=
  built (__init__ [("Scaler", [("minmax", ("minmax", 1%Z))]);
                   ("Classifier", [("LR", ("LR", 5%Z))])]
                  (seeded 0) (seeded 1) [("LR", [("penalty", 7%Z)])] []).

(** The first and the third step both call a variant [a]. *)
Definition pipe_aba : Pipeliner :=
  built (__init__ [("First", [("a", ("first.a", 1%Z))]);
                   ("Second", [("b", ("second.b", 2%Z))]);
                   ("Third", [("a", ("third.a", 3%Z))])]
                  (seeded 0) (seeded 1) [] []).

(** Suffix names [ab], [c] and [a], [bc] concatenate to the same key. *)
Definition pipe_abc : Pipeliner :=
  built (__init__ [("Reducer", [("ab", ("ab", 1%Z)); ("a", ("a", 2%Z))]);
                   ("Classifier", [("c", ("c", 3%Z)); ("bc", ("bc", 4%Z))])]
                  (seeded 0) (seeded 1) [("c", [("C", 9%Z)])] []).

(** The state a run is left in, returned or raised. *)
Definition after {A} (r : result state A) : state :=
  match r with Ok _ s => s | Raise _ s => s end.

(** [pipe1] once the search for its only row and [accuracy] has run. *)
Definition searched : state :=
  after (get_grid_search_results 71%Z 0%Z ["LR"] "accuracy" (fresh pipe1)).

(** [pipe3] once the cacheable prefix [minmax], [pca] has been resolved. *)
Definition resolved : state :=
  after (transform_with_caching 7%Z 0%Z ["minmax"; "pca"] (fresh pipe3)).

End Demo.

(** ** The function transformers (lines 472-576)

    [MatrixTransformer] and [DataTransformer] wrap a user function. The
    function may raise and may act on the world; the data handed to
    [transform] is a sequence of items for the first class and any value
    for the second. [X.copy()] yields an equal value, and [array(new_X)]
    is the sequence of the results. *)

Module MatrixTransformer.

Section Class.

Variables Item Out Params W : Type.

(** The attributes set by [__init__]: [self.func] and [self.params]. *)
Record t : Type := Build {
  func : Item -> Params -> M W Out;
  params : Params
}.

Definition __init__ (func : Item -> Params -> M W Out) (params : Params) : t :=
  {| func := func; params := params |}.

(** [fit] (lines 493-505): returns [self]. *)
Definition fit (self : t) (X : list Item) : M W t := ret self.

(** The loop of [transform] (lines 522-523), [new_X] being the list
    built so far. *)
Fixpoint transform_items (self : t) (X : list Item) (new_X : list Out)
  : M W (list Out) :=
  match X with
  | [] => ret new_X
  | x :: rest =>
      o <- func self x (params self) ;;
      transform_items self rest (new_X ++ [o])
  end.

(** numpy's [array] on the list of results: it may refuse the list
    (results of different shapes raise ValueError in recent versions) or
    convert its items to one type; what it does is numpy's, and a
    parameter here. *)
Variable Arr : Type.
Variable array : list Out -> exn + Arr.

(** [transform] (lines 507-524). *)
Definition transform (self : t) (X : list Item) : M W Arr :=
  let X := X in
  new_X <- transform_items self X [] ;;
  match array new_X with
  | inr a => ret a
  | inl e => raise e
  end.

(** One call of the function on the item [x] returned [o]. *)
Definition applied (self : t) (x : Item) (o : Out) : Prop :=
  exists w1 w2, func self x (params self) w1 = Ok o w2.

End Class.

End MatrixTransformer.

Module DataTransformer.

Section Class.

Variables Data Out Params W : Type.

Record t : Type := Build {
  func : Data -> Params -> M W Out;
  params : Params
}.

Definition __init__ (func : Data -> Params -> M W Out) (params : Params) : t :=
  {| func := func; params := params |}.

(** [fit] (lines 547-560): returns [self]. *)
Definition fit (self : t) (X : Data) : M W t := ret self.

(** [transform] (lines 562-576). *)
Definition transform (self : t) (X : Data) : M W Out :=
  let X := X in
  func self X (params self).

End Class.

End DataTransformer.

(** ** Outcomes and frames of a run *)

(** The state a run ends in, whether it returned or raised. *)
Definition final_state {S A} (r : result S A) : S :=
  match r with
  | Ok _ s => s
  | Raise _ s => s
  end.

(** [m] keeps [I]: started in [I] it ends in [I], returned or raised. *)
Definition preserves {S A} (I : S -> Prop) (m : M S A) : Prop :=
  forall s, I s -> I (final_state (m s)).

(** [m] leaves the state as it found it, returned or raised. *)
Definition reads_only {S A} (m : M S A) : Prop :=
  forall s, final_state (m s) = s.

Section Frames.

Context {SK : Sklearn}.

(** [p'] is [p] but for the cache. *)
Definition cache_only (p p' : Pipeliner) : Prop :=
  p' = set_cached_X (_cached_X p') p.

(** [p'] is [p] but for the best parameters and the two recorded grids. *)
Definition search_only (p p' : Pipeliner) : Prop :=
  p' = {| plan_table := plan_table p; named_steps := named_steps p;
          eval_cv := eval_cv p; grid_cv := grid_cv p;
          param_grid := param_grid p; _cached_X := _cached_X p;
          best_params := best_params p'; scores := scores p;
          asdf := asdf p'; asdfasdf := asdfasdf p' |}.

(** [p'] is [p] but for the two cross-validation objects. The object
    keeps references to them: when one object was passed for both, what
    is done to the one is done to the other, so this relation leaves both
    open. *)
Definition cvs_only (p p' : Pipeliner) : Prop :=
  p' = {| plan_table := plan_table p; named_steps := named_steps p;
          eval_cv := eval_cv p'; grid_cv := grid_cv p';
          param_grid := param_grid p; _cached_X := _cached_X p;
          best_params := best_params p; scores := scores p;
          asdf := asdf p; asdfasdf := asdfasdf p |}.

(** The grid handed to the search: every declared name behind the final
    stage's name and two underscores. *)
Definition prefixed (classifier_key : string) (declared : odict PyVal)
  : odict PyVal :=
  fold_left (fun g kv =>
               OrderedDict.setitem (classifier_key ++ "__" ++ fst kv) (snd kv) g)
            declared OrderedDict.empty.

(** The best parameters as recorded: every name of [best_params_] cut by
    the length of the final stage's name and two more characters. *)
Definition stripped (classifier_key : string) (best : odict PyVal)
  : odict PyVal :=
  fold_left (fun b kv =>
               OrderedDict.setitem
                 (PyStr.drop (String.length classifier_key + 2) (fst kv))
                 (snd kv) b)
            best OrderedDict.empty.

(** The position, counted from [i], of the last candidate of the search
    that equals [best]. *)
Fixpoint last_best_index (i : nat) (params_list : list (odict PyVal))
    (best : odict PyVal) : option nat :=
  match params_list with
  | [] => None
  | params :: rest =>
      match last_best_index (S i) rest best with
      | Some j => Some j
      | None => if dict_eqb params best then Some i else None
      end
  end.

(** The three entries of a result mapping of the search. *)
Definition three_entries (scoring : string) (m sd : Num) (b : string)
  : odict cell :=
  [(grid_mean_key scoring, CNum m); (grid_std_key scoring, CNum sd);
   (grid_best_params_key scoring, CStr b)].

(** The state a search with a declared grid leaves: both grids and the
    best parameters recorded, the world as the search left it. *)
Definition after_search (row_keys : list string) (scoring : string)
    (classifier_key : string) (declared best : odict PyVal) (w : World)
    (s : state) : state :=
  {| self := set_best_params
               (OrderedDict.setitem (param_key row_keys scoring)
                                    (stripped classifier_key best)
                                    (best_params (self s)))
               (set_asdf (prefixed classifier_key declared) declared (self s));
     world := w |}.

(** A sequence of calls of the cache on one object: the outcomes of the
    calls in order, and the state after the last. *)
Fixpoint call_sequence (G : odict binding) (y : Labels)
    (calls : list (Data * list string)) (s : state)
  : list (result state (Data * Labels)) * state :=
  match calls with
  | [] => ([], s)
  | (X, row_keys) :: rest =>
      let r := transform_with_caching_in G X y row_keys s in
      let (rs, s') := call_sequence G y rest (final_state r) in
      (r :: rs, s')
  end.

(** The names [row_keys] can be asked of the cache of [s]: they are
    distinct, none is [init], there are no more of them than plan
    columns, and each is a variant of the step of its column. *)
Definition resolvable (s : state) (row_keys : list string) : Prop :=
  NoDup ("init" :: row_keys) /\
  length row_keys <= length (columns (plan_table (self s))) /\
  exists steps,
    build_steps
      (PyList.zip row_keys
         (firstn (length row_keys) (columns (plan_table (self s))))) s
    = Ok steps s.

(** The outcome [r] of a call is the return of the call's stages applied
    in order to [X0], with the labels [y]. *)
Definition from_scratch (ft : Estimator -> Data -> Data) (s : state)
    (X0 : Data) (y : Labels) (call : Data * list string)
    (r : result state (Data * Labels)) : Prop :=
  exists steps s',
    build_steps
      (PyList.zip (snd call)
         (firstn (length (snd call)) (columns (plan_table (self s))))) s
    = Ok steps s /\
    r = Ok (apply_prefix ft (map snd steps) X0, y) s'.

End Frames.

(** ** A second test double, whose prediction pass fails at seed 2 *)

Module Flaky.

Definition seed_of (c : cv unit unit) : Z :=
  match c with
  | CvGenerator _ (Some z) => z
  | _ => 0%Z
  end.

#[export] Instance flaky : Sklearn := {|
  Data := Z;
  Labels := Z;
  Predictions := Z;
  Num := Z;
  PyVal := Z;
  Estimator := string * Z;
  PlainCv := unit;
  Splitter := unit;
  World := list string;
  pyval_eqb := Z.eqb;
  fit_transform := fun e X w => Ok (10 * X + snd e)%Z (w ++ [("fit " ++ fst e)%string]);
  set_params := fun e params w => Ok tt (w ++ [("set_params " ++ fst e)%string]);
  grid_search_fit := fun steps grid scoring c X y w =>
    Ok {| best_params_ := grid;
          cv_results_params := [grid];
          cv_results_mean_test_score := [(X + y)%Z];
          cv_results_std_test_score := [1%Z] |} w;
  cross_val_score := fun steps X y scoring c w => Ok [X; (X + seed_of c)%Z] w;
  cross_val_predict := fun steps X y c w =>
    if Z.eqb (seed_of c) 2
    then Raise (LibraryError "fold") w
    else Ok (X + seed_of c)%Z (w ++ ["predict"]);
  score_func := fun e scoring w =>
    Ok (fun (y pred : Z) (w : list string) => Ok (100 * y + pred)%Z w) w;
  mean := fun l => fold_right Z.add 0%Z l;
  std := fun l => Z.of_nat (length l);
  str_params := fun d => PyStr.join (OrderedDict.keys d);
  str_array := fun a => "array";
  str_list := fun l => "list"
|}.

(** One scaler, one classifier, evaluation seeded at 1, and the best
    parameters of the row already recorded. *)
Definition ready : state :=
  {| self :=
       {| plan_table := {| columns := ["Scaler"; "Classifier"];
                           rows := [[("Scaler", "minmax"); ("Classifier", "LR")]] |};
          named_steps := [("Scaler", [("minmax", ("minmax", 1%Z))]);
                          ("Classifier", [("LR", ("LR", 5%Z))])];
          eval_cv := CvGenerator tt (Some 1%Z);
          grid_cv := CvGenerator tt (Some 0%Z);
          param_grid := [];
          _cached_X := [];
          best_params := [("LRaccuracy", [])];
          scores := [];
          asdf := None;
          asdfasdf := None |};
     world := [] |}.

End Flaky.

(** * Facts about the containers *)

Lemma mem_In (x : string) (l : list string) :
  PyList.mem x l = true <-> In x l.
Proof.
  unfold PyList.mem. rewrite existsb_exists. split.
  - intros [y [Hy Heq]]. apply String.eqb_eq in Heq. now subst.
  - intros H. exists x. split; [assumption | apply String.eqb_refl].
Qed.

Lemma mem_false (x : string) (l : list string) :
  PyList.mem x l = false <-> ~ In x l.
Proof.
  rewrite <- mem_In. destruct (PyList.mem x l); split; congruence.
Qed.

Lemma mem_of_list (x : string) (l : list string) :
  PyList.mem x (PySet.of_list l) = PyList.mem x l.
Proof.
  induction l as [|y l IH]; simpl; [reflexivity|].
  destruct (PyList.mem y l) eqn:Hy; simpl.
  - rewrite IH. destruct (String.eqb x y) eqn:Hxy; [|reflexivity].
    apply String.eqb_eq in Hxy. subst. now rewrite Hy.
  - now rewrite IH.
Qed.

Lemma flat_map_select {A B} (f : A -> bool) (g : A -> B) (l : list A) :
  flat_map (fun x => if f x then [g x] else []) l = map g (filter f l).
Proof.
  induction l as [|x l IH]; simpl; [reflexivity|].
  destruct (f x); simpl; now rewrite IH.
Qed.

Lemma filter_length_all {A} (f : A -> bool) (l : list A) :
  length (filter f l) = length l <-> forall x, In x l -> f x = true.
Proof.
  induction l as [|x l IH]; simpl.
  - split; [intros _ y [] | reflexivity].
  - pose proof (filter_length_le f l) as Hle.
    destruct (f x) eqn:Hfx; simpl.
    + split.
      * intros H y [<- | Hy]; [assumption|]. apply IH; [lia | assumption].
      * intros H. f_equal. apply IH. intros y Hy. apply H. now right.
    + split.
      * intros H. lia.
      * intros H. specialize (H x (or_introl eq_refl)). congruence.
Qed.

Lemma product_length {A} (ls : list (list A)) :
  length (PyList.product ls) = fold_right Nat.mul 1 (map (@length A) ls).
Proof.
  induction ls as [|l ls IH]; simpl; [reflexivity|].
  rewrite <- IH. clear IH.
  induction l as [|x l IHl]; simpl; [reflexivity|].
  rewrite length_app, length_map, IHl. reflexivity.
Qed.

Lemma product_In {A} (ls : list (list A)) (r : list A) :
  In r (PyList.product ls) <-> Forall2 (@In A) r ls.
Proof.
  revert r. induction ls as [|l ls IH]; intros r; simpl.
  - split.
    + intros [<- | []]. constructor.
    + intros H. inversion H. now left.
  - rewrite in_flat_map. split.
    + intros [x [Hx Hr]]. apply in_map_iff in Hr. destruct Hr as [r' [<- Hr']].
      constructor; [assumption | now apply IH].
    + intros H. inversion H as [|x r' l' ls' Hx Hr']; subst.
      exists x. split; [assumption|]. apply in_map. now apply IH.
Qed.

Lemma product_row_length {A} (ls : list (list A)) (r : list A) :
  In r (PyList.product ls) -> length r = length ls.
Proof.
  rewrite product_In. induction 1; simpl; congruence.
Qed.

Module OrderedDictFacts.
Import OrderedDict.

Lemma contains_In {V} (k : string) (d : t V) :
  contains k d = true <-> In k (keys d).
Proof. apply mem_In. Qed.

Lemma getitem_None {V} (k : string) (d : t V) :
  getitem k d = None <-> ~ In k (keys d).
Proof.
  induction d as [|[k' v] d IH]; simpl.
  - split; [intros _ [] | reflexivity].
  - destruct (String.eqb_spec k k') as [->|Hne].
    + split; [discriminate | intros H; exfalso; apply H; now left].
    + rewrite IH. split.
      * intros H [Heq | Hin]; [congruence | auto].
      * intros H Hin. apply H. now right.
Qed.

Lemma getitem_Some_In {V} (k : string) (d : t V) (v : V) :
  getitem k d = Some v -> In k (keys d).
Proof.
  intros H. destruct (in_dec string_dec k (keys d)) as [Hin|Hnin]; [assumption|].
  apply getitem_None in Hnin. congruence.
Qed.

Lemma In_getitem {V} (k : string) (d : t V) :
  In k (keys d) -> exists v, getitem k d = Some v.
Proof.
  intros H. destruct (getitem k d) eqn:E; [eauto|].
  apply getitem_None in E. contradiction.
Qed.

Lemma getitem_setitem_eq {V} (k : string) (v : V) (d : t V) :
  getitem k (setitem k v d) = Some v.
Proof.
  induction d as [|[k' v'] d IH]; simpl.
  - now rewrite String.eqb_refl.
  - destruct (String.eqb k k') eqn:E; simpl.
    + now rewrite String.eqb_refl.
    + now rewrite E.
Qed.

Lemma getitem_setitem_neq {V} (k k' : string) (v : V) (d : t V) :
  k <> k' -> getitem k (setitem k' v d) = getitem k d.
Proof.
  intros Hne. induction d as [|[k2 v2] d IH]; simpl.
  - destruct (String.eqb_spec k k'); congruence.
  - destruct (String.eqb_spec k' k2) as [->|Hne2]; simpl.
    + destruct (String.eqb_spec k k2); congruence.
    + now rewrite IH.
Qed.

Lemma keys_setitem_In {V} (k : string) (v : V) (d : t V) :
  In k (keys d) -> keys (setitem k v d) = keys d.
Proof.
  induction d as [|[k' v'] d IH]; simpl; [intros []|].
  intros H. destruct (String.eqb_spec k k') as [->|Hne]; simpl; [reflexivity|].
  f_equal. apply IH. destruct H; congruence.
Qed.

Lemma setitem_fresh {V} (k : string) (v : V) (d : t V) :
  ~ In k (keys d) -> setitem k v d = d ++ [(k, v)].
Proof.
  induction d as [|[k' v'] d IH]; simpl; [reflexivity|].
  intros H. destruct (String.eqb_spec k k') as [->|Hne].
  - exfalso. apply H. now left.
  - f_equal. apply IH. intros Hin. apply H. now right.
Qed.

Lemma keys_setitem {V} (k : string) (v : V) (d : t V) :
  keys (setitem k v d) = if contains k d then keys d else keys d ++ [k].
Proof.
  destruct (contains k d) eqn:E.
  - apply keys_setitem_In. now apply contains_In.
  - rewrite setitem_fresh.
    + unfold keys. now rewrite map_app.
    + intros H. apply contains_In in H. congruence.
Qed.

Lemma In_keys_setitem {V} (k k' : string) (v : V) (d : t V) :
  In k (keys (setitem k' v d)) <-> k = k' \/ In k (keys d).
Proof.
  rewrite keys_setitem. destruct (contains k' d) eqn:E.
  - apply contains_In in E. split; [auto | intros [->|H]; assumption].
  - rewrite in_app_iff. simpl. intuition congruence.
Qed.

Lemma NoDup_keys_setitem {V} (k : string) (v : V) (d : t V) :
  NoDup (keys d) -> NoDup (keys (setitem k v d)).
Proof.
  intros H. rewrite keys_setitem. destruct (contains k d) eqn:E; [assumption|].
  apply NoDup_app; [assumption | constructor; [intros [] | constructor] |].
  intros x Hx [<- | []]. apply contains_In in Hx. congruence.
Qed.

Lemma fold_setitem_NoDup {V A} (f : A -> string) (g : A -> V)
    (l : list A) (d : t V) :
  NoDup (keys d) ->
  NoDup (keys (fold_left (fun acc x => setitem (f x) (g x) acc) l d)).
Proof.
  revert d. induction l as [|x l IH]; intros d H; simpl; [assumption|].
  apply IH. now apply NoDup_keys_setitem.
Qed.

Lemma NoDup_keys_of_pairs {V} (l : list (string * V)) :
  NoDup (keys (of_pairs l)).
Proof. apply fold_setitem_NoDup. constructor. Qed.

Lemma fold_setitem_fresh {V} (l : list (string * V)) (d : t V) :
  NoDup (keys d ++ map fst l) ->
  fold_left (fun acc kv => setitem (fst kv) (snd kv) acc) l d = d ++ l.
Proof.
  revert d. induction l as [|[k v] l IH]; intros d H; simpl.
  - now rewrite app_nil_r.
  - rewrite setitem_fresh.
    + rewrite IH.
      * now rewrite <- app_assoc.
      * unfold keys. rewrite map_app. simpl. rewrite <- app_assoc. exact H.
    + intros Hin. simpl in H. apply NoDup_remove_2 in H.
      apply H. apply in_or_app. now left.
Qed.

Lemma of_pairs_NoDup {V} (l : list (string * V)) :
  NoDup (map fst l) -> of_pairs l = l.
Proof. intros H. unfold of_pairs. now rewrite fold_setitem_fresh. Qed.

Lemma keys_map_values {V W} (f : V -> W) (d : t V) :
  keys (map_values f d) = keys d.
Proof. unfold keys, map_values. rewrite map_map. reflexivity. Qed.

Lemma getitem_map_values {V W} (f : V -> W) (k : string) (d : t V) :
  getitem k (map_values f d) = option_map f (getitem k d).
Proof.
  induction d as [|[k' v] d IH]; simpl; [reflexivity|].
  destruct (String.eqb k k'); [reflexivity | exact IH].
Qed.

End OrderedDictFacts.

(** * The plan builder *)

Section PlanBuilderFacts.

Context {SK : Sklearn}.
Import OrderedDictFacts.


Lemma accept_from_banned_combos_spec (row : list string) (bc : string * string) :
  accept_from_banned_combos row bc = negb (both_present row bc).
Proof.
  destruct bc as [a b]. unfold accept_from_banned_combos, both_present. simpl.
  rewrite orb_false_r.
  destruct (String.eqb_spec a b) as [->|Hne]; unfold PySet.diff; simpl;
    rewrite ?mem_of_list.
  - destruct (PyList.mem b row); reflexivity.
  - destruct (PyList.mem a row), (PyList.mem b row); reflexivity.
Qed.

Lemma all_accept_spec (row : list string) (banned : list (string * string)) :
  forallb (fun b => b) (map (accept_from_banned_combos row) banned)
  = negb (existsb (both_present row) banned).
Proof.
  induction banned as [|bc banned IH]; simpl; [reflexivity|].
  rewrite IH, accept_from_banned_combos_spec, negb_orb. reflexivity.
Qed.

Lemma plan_rows_of_spec (cols : list string) (ck : list (list string))
    (banned : list (string * string)) :
  plan_rows_of cols ck banned
  = map (row_of_plan cols)
        (filter (fun r => negb (existsb (both_present r) banned))
                (PyList.product ck)).
Proof.
  unfold plan_rows_of.
  rewrite <- flat_map_select. apply flat_map_ext. intros r.
  now rewrite all_accept_spec.
Qed.

Lemma row_of_plan_zip (cols row_keys : list string) :
  NoDup cols -> row_of_plan cols row_keys = combine cols row_keys.
Proof.
  intros H. unfold row_of_plan, PyList.zip.
  rewrite fold_setitem_fresh; [reflexivity|]. simpl.
  revert row_keys. induction H as [|c cols Hc Hnd IH]; intros [|r rk]; simpl;
    try constructor.
  - intros Hin. apply Hc. clear - Hin. revert rk Hin.
    induction cols as [|c' cols IH]; intros [|r' rk]; simpl; try tauto.
    intros [-> | H]; [now left | right; eauto].
  - apply IH.
Qed.

Lemma select_row_self {C} (pre r : odict C) :
  NoDup (OrderedDict.keys (pre ++ r)) ->
  flat_map (fun c => match OrderedDict.getitem c (pre ++ r) with
                     | Some v => [(c, v)]
                     | None => []
                     end) (OrderedDict.keys r) = r.
Proof.
  revert pre. induction r as [|[k v] r IH]; intros pre H; simpl; [reflexivity|].
  assert (Hget : OrderedDict.getitem k (pre ++ (k, v) :: r) = Some v).
  { unfold OrderedDict.keys in H. rewrite map_app in H. simpl in H.
    apply NoDup_remove_2 in H.
    assert (Hpre : ~ In k (map fst pre)).
    { intros Hin. apply H. apply in_or_app. now left. }
    clear - Hpre. induction pre as [|[k' v'] pre IHp]; simpl.
    - now rewrite String.eqb_refl.
    - destruct (String.eqb_spec k k') as [->|Hne].
      + exfalso. apply Hpre. now left.
      + apply IHp. intros Hin. apply Hpre. now right. }
  rewrite Hget. simpl. f_equal.
  specialize (IH (pre ++ [(k, v)])). rewrite <- app_assoc in IH. simpl in IH.
  apply IH. exact H.
Qed.

Lemma keys_combine (cols row_keys : list string) :
  length cols = length row_keys ->
  OrderedDict.keys (combine cols row_keys) = cols.
Proof.
  revert row_keys. induction cols as [|c cols IH]; intros [|r rk]; simpl;
    try discriminate; [reflexivity|].
  intros H. f_equal. apply IH. lia.
Qed.

Lemma values_combine (cols row_keys : list string) :
  length cols = length row_keys ->
  OrderedDict.values (combine cols row_keys) = row_keys.
Proof.
  revert row_keys. induction cols as [|c cols IH]; intros [|r rk]; simpl;
    try discriminate; [reflexivity|].
  intros H. f_equal. apply IH. lia.
Qed.

Lemma select_row_zip (cols row_keys : list string) :
  NoDup cols -> length cols = length row_keys ->
  Frame.select_row cols (combine cols row_keys) = combine cols row_keys.
Proof.
  intros Hnd Hlen. unfold Frame.select_row.
  pose proof (@select_row_self string [] (combine cols row_keys)) as H.
  simpl in H. rewrite keys_combine in H by assumption. apply H. assumption.
Qed.

Lemma NoDup_step_names (steps : list (string * list (string * Estimator))) :
  NoDup (OrderedDict.keys (ordered_steps steps)).
Proof.
  unfold ordered_steps. rewrite keys_map_values. apply NoDup_keys_of_pairs.
Qed.

Lemma column_keys_length (steps : odict (odict Estimator)) :
  length (column_keys_of steps) = length (OrderedDict.keys steps).
Proof. unfold column_keys_of. apply length_map. Qed.

(** With step names and, inside each step, variant names given once, the
    variant-name lists are the ones written in the [steps] argument. *)
Lemma column_keys_of_input (steps : list (string * list (string * Estimator))) :
  NoDup (map fst steps) ->
  Forall (fun st => NoDup (map fst (snd st))) steps ->
  OrderedDict.keys (ordered_steps steps) = map fst steps /\
  column_keys_of (ordered_steps steps) = map (fun st => map fst (snd st)) steps.
Proof.
  intros Hnd Hvar. unfold ordered_steps. rewrite (of_pairs_NoDup _ Hnd).
  split; [apply keys_map_values|].
  unfold column_keys_of. rewrite keys_map_values. unfold OrderedDict.keys.
  rewrite map_map. apply map_ext_in. intros [c l] Hin. simpl.
  rewrite getitem_map_values.
  assert (Hget : OrderedDict.getitem c steps = Some l).
  { clear Hvar. induction steps as [|[c' l'] steps IH]; [destruct Hin|].
    simpl in *. inversion Hnd as [|? ? Hc Hnd']; subst.
    destruct Hin as [Heq | Hin].
    - inversion Heq; subst. now rewrite String.eqb_refl.
    - destruct (String.eqb_spec c c') as [->|Hne].
      + exfalso. apply Hc. apply in_map_iff. exists (c', l). split; auto.
      + apply IH; assumption. }
  rewrite Hget. simpl. rewrite Forall_forall in Hvar.
  specialize (Hvar _ Hin). simpl in Hvar. now rewrite (of_pairs_NoDup _ Hvar).
Qed.

Lemma init_plan_table (steps : list (string * list (string * Estimator)))
    (gcv ecv : CV) (pg : odict (odict PyVal))
    (banned : list (string * string)) (p : Pipeliner) :
  __init__ steps gcv ecv pg banned = inr p ->
  named_steps p = ordered_steps steps /\
  columns (plan_table p) = OrderedDict.keys (named_steps p) /\
  rows (plan_table p)
  = map (combine (OrderedDict.keys (named_steps p)))
        (filter (fun r => negb (existsb (both_present r) banned))
                (PyList.product (column_keys_of (named_steps p)))).
Proof.
  unfold __init__. rewrite plan_rows_of_spec.
  set (st := ordered_steps steps).
  set (kept := filter _ _).
  unfold Frame.getitem_columns.
  destruct (filter _ (OrderedDict.keys st)) as [|c rest]; [|discriminate].
  intros H. inversion H; subst p; clear H. simpl.
  split; [reflexivity|]. split; [reflexivity|].
  rewrite map_map. apply map_ext_in. intros r Hr.
  assert (Hlen : length (OrderedDict.keys st) = length r).
  { apply filter_In in Hr. destruct Hr as [Hr _].
    apply product_row_length in Hr. now rewrite Hr, column_keys_length. }
  pose proof (NoDup_step_names steps) as Hnd. fold st in Hnd.
  rewrite row_of_plan_zip by assumption. now apply select_row_zip.
Qed.

End PlanBuilderFacts.

(** * Result keys and strings *)

Lemma list_ascii_append (a b : string) :
  list_ascii_of_string (a ++ b) = list_ascii_of_string a ++ list_ascii_of_string b.
Proof. induction a as [|c a IH]; simpl; [reflexivity | now rewrite IH]. Qed.


Lemma append_last_char (a b t u : string) (c d : ascii) :
  (a ++ (t ++ String c ""))%string = (b ++ (u ++ String d ""))%string -> c = d.
Proof.
  intros H. apply (f_equal list_ascii_of_string) in H.
  rewrite !list_ascii_append in H. simpl in H.
  rewrite !app_assoc in H. now apply app_inj_tail in H.
Qed.

Lemma mean_not_std (a b : string) : (a ++ "_mean")%string <> (b ++ "_std")%string.
Proof.
  intros H. change "_mean" with ("_mea" ++ "n")%string in H.
  change "_std" with ("_st" ++ "d")%string in H.
  apply append_last_char in H. discriminate.
Qed.

Lemma mean_not_best_params (a b : string) :
  (a ++ "_mean")%string <> (b ++ "_best_params")%string.
Proof.
  intros H. change "_mean" with ("_mea" ++ "n")%string in H.
  change "_best_params" with ("_best_param" ++ "s")%string in H.
  apply append_last_char in H. discriminate.
Qed.

Lemma std_not_best_params (a b : string) :
  (a ++ "_std")%string <> (b ++ "_best_params")%string.
Proof.
  intros H. change "_std" with ("_st" ++ "d")%string in H.
  change "_best_params" with ("_best_param" ++ "s")%string in H.
  apply append_last_char in H. discriminate.
Qed.

Lemma mean_not_scores (a b : string) :
  (a ++ "_mean")%string <> (b ++ "_scores")%string.
Proof.
  intros H. change "_mean" with ("_mea" ++ "n")%string in H.
  change "_scores" with ("_score" ++ "s")%string in H.
  apply append_last_char in H. discriminate.
Qed.

Lemma std_not_scores (a b : string) :
  (a ++ "_std")%string <> (b ++ "_scores")%string.
Proof.
  intros H. change "_std" with ("_st" ++ "d")%string in H.
  change "_scores" with ("_score" ++ "s")%string in H.
  apply append_last_char in H. discriminate.
Qed.

Section ResultKeys.

Context {SK : Sklearn}.


Ltac key_clash H :=
  unfold grid_mean_key, grid_std_key, grid_best_params_key,
         eval_mean_key, eval_std_key, eval_scores_key in H;
  simpl in H; try discriminate H;
  injection H as H;
  first [ now apply mean_not_std in H
        | now apply mean_not_best_params in H
        | now apply std_not_best_params in H
        | now apply mean_not_scores in H
        | now apply std_not_scores in H
        | symmetry in H;
          first [ now apply mean_not_std in H
                | now apply mean_not_best_params in H
                | now apply std_not_best_params in H
                | now apply mean_not_scores in H
                | now apply std_not_scores in H ] ].

Lemma grid_mean_std (m m' : string) : grid_mean_key m <> grid_std_key m'.
Proof. intros H. key_clash H. Qed.
Lemma grid_mean_best (m m' : string) : grid_mean_key m <> grid_best_params_key m'.
Proof. intros H. key_clash H. Qed.
Lemma grid_std_best (m m' : string) : grid_std_key m <> grid_best_params_key m'.
Proof. intros H. key_clash H. Qed.



End ResultKeys.

(** * Running statements *)

Lemma bind_Ok {S A B} (m : M S A) (k : A -> M S B) (s s' : S) (b : B) :
  bind m k s = Ok b s' ->
  exists a s1, m s = Ok a s1 /\ k a s1 = Ok b s'.
Proof.
  unfold bind. destruct (m s) as [a s1|e s1]; [eauto | discriminate].
Qed.

Tactic Notation "bind_inv" hyp(H) "as" ident(a) ident(s) ident(E) :=
  apply bind_Ok in H; destruct H as (a & s & E & H).

Tactic Notation "bind_inv" hyp(H) :=
  let a := fresh "a" in
  let s := fresh "s" in
  let E := fresh "E" in
  apply bind_Ok in H; destruct H as (a & s & E & H).

Lemma ret_Ok {S A} (a b : A) (s s' : S) : ret a s = Ok b s' -> b = a /\ s' = s.
Proof. unfold ret. intros H. now inversion H. Qed.

Lemma get_Ok {S} (a s s' : S) : get s = Ok a s' -> a = s /\ s' = s.
Proof. unfold get. intros H. now inversion H. Qed.

Lemma subscript_Ok {S V} (k : string) (d : odict V) (v : V) (s s' : S) :
  subscript k d s = Ok v s' -> OrderedDict.getitem k d = Some v /\ s' = s.
Proof.
  unfold subscript. destruct (OrderedDict.getitem k d); unfold ret, raise;
    intros H; inversion H; auto.
Qed.

Lemma last_of_Ok {S A} (l : list A) (x : A) (s s' : S) :
  last_of l s = Ok x s' -> PyList.last_item l = Some x /\ s' = s.
Proof.
  unfold last_of. destruct (PyList.last_item l); unfold ret, raise;
    intros H; inversion H; auto.
Qed.

Lemma item_Ok {S A} (i : nat) (l : list A) (x : A) (s s' : S) :
  item i l s = Ok x s' -> nth_error l i = Some x /\ s' = s.
Proof.
  unfold item. destruct (nth_error l i); unfold ret, raise;
    intros H; inversion H; auto.
Qed.

Section Statements.

Context {SK : Sklearn}.

Lemma lift_world_Ok {A} (m : M World A) (a : A) (s s' : state) :
  lift_world m s = Ok a s' ->
  m (world s) = Ok a (world s') /\ self s' = self s.
Proof.
  unfold lift_world. destruct (m (world s)) as [a' w|e w]; intros H;
    inversion H; subst; simpl; auto.
Qed.

Lemma modify_self_Ok (f : Pipeliner -> Pipeliner) (u : unit) (s s' : state) :
  modify_self f s = Ok u s' -> self s' = f (self s) /\ world s' = world s.
Proof. unfold modify_self. intros H. inversion H; subst. auto. Qed.

Lemma named_step_Ok (column row_key : string) (e : Estimator) (s s' : state) :
  named_step column row_key s = Ok e s' ->
  s' = s /\
  exists variants,
    OrderedDict.getitem column (named_steps (self s)) = Some variants /\
    OrderedDict.getitem row_key variants = Some e.
Proof.
  unfold named_step. intros H. bind_inv H. apply get_Ok in E as [-> ->].
  bind_inv H. apply subscript_Ok in E as [E ->].
  apply subscript_Ok in H as [H ->]. eauto.
Qed.

Lemma build_steps_Ok (pairs : list (string * string))
    (steps : list (string * Estimator)) (s s' : state) :
  build_steps pairs s = Ok steps s' -> s' = s.
Proof.
  revert steps s'. induction pairs as [|[rk c] pairs IH]; intros steps s' H;
    simpl in H.
  - now apply ret_Ok in H.
  - bind_inv H. apply named_step_Ok in E as [-> _].
    bind_inv H. apply IH in E. subst.
    now apply ret_Ok in H.
Qed.

Lemma row_values_Ok (labels : list string) (row : odict string)
    (vs : list string) (s s' : state) :
  row_values labels row s = Ok vs s' -> s' = s.
Proof.
  revert vs s'. induction labels as [|c labels IH]; intros vs s' H; simpl in H.
  - now apply ret_Ok in H.
  - bind_inv H. apply subscript_Ok in E as [_ ->].
    bind_inv H. apply IH in E. subst. now apply ret_Ok in H.
Qed.

Lemma set_eval_cv_same (p : Pipeliner) : set_eval_cv (eval_cv p) p = p.
Proof. now destruct p. Qed.

Lemma set_eval_cv_twice (c c' : CV) (p : Pipeliner) :
  set_eval_cv c (set_eval_cv c' p) = set_eval_cv c p.
Proof. reflexivity. Qed.

Lemma get_random_state_Ok (rs : option Z) (s s' : state) :
  get_random_state s = Ok rs s' ->
  s' = s /\ exists g, eval_cv (self s) = CvGenerator g rs.
Proof.
  unfold get_random_state. intros H. bind_inv H. apply get_Ok in E as [-> ->].
  destruct (eval_cv (self s)) as [c|g rs'] eqn:Ecv.
  - discriminate.
  - apply ret_Ok in H as [-> ->]. eauto.
Qed.

Lemma set_random_state_Ok (v : option Z) (u : unit) (s s' : state) :
  set_random_state v s = Ok u s' ->
  world s' = world s /\
  exists g rs, eval_cv (self s) = CvGenerator g rs /\
               self s' = set_eval_cv (CvGenerator g v) (self s).
Proof.
  unfold set_random_state. intros H. bind_inv H. apply get_Ok in E as [-> ->].
  destruct (eval_cv (self s)) as [c|g rs'] eqn:Ecv.
  - discriminate.
  - apply modify_self_Ok in H as [H1 H2]. eauto.
Qed.

Lemma bump_random_state_Ok (u : unit) (s s' : state) :
  bump_random_state s = Ok u s' ->
  world s' = world s /\
  exists g z, eval_cv (self s) = CvGenerator g (Some z) /\
              self s' = set_eval_cv (CvGenerator g (Some (z + 1)%Z)) (self s).
Proof.
  unfold bump_random_state. intros H. bind_inv H.
  apply get_random_state_Ok in E as [-> [g Hg]].
  destruct a as [z|]; [|discriminate].
  apply set_random_state_Ok in H as [Hw (g' & rs & Hg' & Hs)].
  rewrite Hg in Hg'. inversion Hg'; subst. eauto.
Qed.

Lemma bind_intro {A B} (m : M state A) (k : A -> M state B)
    (a : A) (s s1 : state) :
  m s = Ok a s1 -> bind m k s = k a s1.
Proof. intros H. unfold bind. now rewrite H. Qed.

Lemma lift_world_intro {A} (m : M World A) (a : A) (w : World) (s : state) :
  m (world s) = Ok a w ->
  lift_world m s = Ok a {| self := self s; world := w |}.
Proof. intros H. unfold lift_world. now rewrite H. Qed.

Lemma get_random_state_intro (g : Splitter) (rs : option Z) (s : state) :
  eval_cv (self s) = CvGenerator g rs -> get_random_state s = Ok rs s.
Proof. intros H. unfold get_random_state, bind, get. now rewrite H. Qed.

Lemma set_random_state_intro (g : Splitter) (rs v : option Z) (s : state) :
  eval_cv (self s) = CvGenerator g rs ->
  set_random_state v s
  = Ok tt {| self := set_eval_cv (CvGenerator g v) (self s);
             world := world s |}.
Proof. intros H. unfold set_random_state, bind, get. now rewrite H. Qed.

Lemma bump_random_state_intro (g : Splitter) (z : Z) (s : state) :
  eval_cv (self s) = CvGenerator g (Some z) ->
  bump_random_state s
  = Ok tt {| self := set_eval_cv (CvGenerator g (Some (z + 1)%Z)) (self s);
             world := world s |}.
Proof.
  intros H. unfold bump_random_state.
  erewrite bind_intro by (eapply get_random_state_intro; exact H).
  now apply set_random_state_intro with (rs := Some z).
Qed.

End Statements.

(** Run the first statement of a sequence whose outcome is known. *)
Ltac run_with H := erewrite bind_intro by exact H.
Ltac run_pure := erewrite bind_intro by reflexivity.
Ltac run_lifted E := erewrite bind_intro by (apply lift_world_intro; exact E).

(** * The evaluator *)

Section EvaluatorFacts.

Context {SK : Sklearn}.


Lemma repeat_scores_Ok (n : nat) (steps : list (string * Estimator))
    (X : Data) (y : Labels) (scoring : string) :
  forall (acc : list Num) (s s' : state) (l : list Num)
         (g : Splitter) (rs : option Z),
    eval_cv (self s) = CvGenerator g rs ->
    repeat_scores n steps X y scoring acc s = Ok l s' ->
    exists l',
      l = acc ++ l' /\ length l' = n /\
      self s' = set_eval_cv
                  (CvGenerator g (option_map (fun z => (z + Z.of_nat n)%Z) rs))
                  (self s) /\
      forall i, i < n ->
        exists z final sc,
          rs = Some z /\ PyList.last_item steps = Some final /\
          nth_error l' i = Some sc /\
          prediction_score steps final X y scoring
                           (CvGenerator g (Some (z + Z.of_nat i)%Z)) sc.
Proof.
  induction n as [|n IH]; intros acc s s' l g rs Hcv H; simpl in H.
  - apply ret_Ok in H as [-> ->]. exists []. rewrite app_nil_r.
    split; [reflexivity|]. split; [reflexivity|]. split.
    + destruct rs as [z|]; simpl; rewrite ?Z.add_0_r; rewrite <- Hcv;
        symmetry; apply set_eval_cv_same.
    + intros i Hi. lia.
  - bind_inv H as s0 sa E. apply get_Ok in E as [-> ->].
    bind_inv H as pred sb Epred. apply lift_world_Ok in Epred as [Epred Esb].
    bind_inv H as final sc E. apply last_of_Ok in E as [Efinal ->].
    bind_inv H as metric sd Emetric.
    apply lift_world_Ok in Emetric as [Emetric Esd].
    bind_inv H as x se Ex. apply lift_world_Ok in Ex as [Ex Ese].
    bind_inv H as u sf Ebump.
    apply bump_random_state_Ok in Ebump as [Ew (g' & z & Hcv' & Esf)].
    assert (Hself : self se = self s) by congruence.
    rewrite Hself in Hcv', Esf. rewrite Hcv in Hcv'.
    inversion Hcv'; subst g' rs. clear Hcv'.
    assert (Hcvf : eval_cv (self sf) = CvGenerator g (Some (z + 1)%Z)).
    { rewrite Esf. reflexivity. }
    destruct (IH _ _ _ _ _ _ Hcvf H) as (l' & -> & Hlen & Hs' & Hi).
    exists (x :: l'). rewrite <- app_assoc. simpl.
    split; [reflexivity|]. split; [now rewrite Hlen|]. split.
    + rewrite Hs', Esf. simpl. rewrite set_eval_cv_twice.
      do 3 f_equal. lia.
    + intros [|i] Hlt.
      * exists z, final, x. repeat split; try assumption.
        exists (world s), pred, (world sb), metric, (world sd), (world se).
        rewrite Z.add_0_r. rewrite <- Hcv.
        repeat split; assumption.
      * destruct (Hi i ltac:(lia)) as (z' & final' & x' & Hz & Hf & Hn & Hp).
        inversion Hz; subst z'. exists z, final', x'.
        repeat split; try assumption.
        replace (z + Z.of_nat (S i))%Z with (z + 1 + Z.of_nat i)%Z by lia.
        exact Hp.
Qed.

(** What a successful [get_scores] call with a repeat count did. *)
Lemma get_scores_repeat_Ok (X : Data) (y : Labels) (row_keys : list string)
    (scoring : string) (N : Z) (s s' : state) (v : score_values) :
  (N <> 0)%Z ->
  get_scores X y row_keys scoring (Some N) s = Ok v s' ->
  exists steps final g rs l,
    build_steps
      (PyList.zip row_keys
         (PyList.last_n (length row_keys) (columns (plan_table (self s))))) s
    = Ok steps s /\
    PyList.last_item steps = Some final /\
    eval_cv (self s) = CvGenerator g rs /\
    v = ScoreList l /\ length l = Z.to_nat N /\
    self s' = self s /\
    forall i, i < Z.to_nat N ->
      exists z sc,
        rs = Some z /\ nth_error l i = Some sc /\
        prediction_score steps final X y scoring
                         (CvGenerator g (Some (z + Z.of_nat i)%Z)) sc.
Proof.
  intros HN H. unfold get_scores in H.
  bind_inv H as s0 sa E. apply get_Ok in E as [-> ->].
  bind_inv H as steps sb Esteps. pose proof (build_steps_Ok _ _ Esteps) as ->.
  bind_inv H as final sc E. apply last_of_Ok in E as [Efinal ->].
  bind_inv H as params sd E. apply subscript_Ok in E as [Eparams ->].
  bind_inv H as u se Eset. apply lift_world_Ok in Eset as [Eset Ese].
  unfold falsy in H. destruct (Z.eqb_spec N 0) as [|_]; [contradiction|].
  bind_inv H as rs sf E. apply get_random_state_Ok in E as [-> [g Hg]].
  bind_inv H as l sg Eloop.
  destruct (repeat_scores_Ok _ _ _ _ _ _ _ Hg Eloop)
    as (l' & -> & Hlen & Hsg & Hi).
  bind_inv H as u' sh Erestore.
  apply set_random_state_Ok in Erestore as [Ew (g' & rs' & Hg' & Hsh)].
  apply ret_Ok in H as [-> ->].
  exists steps, final, g, rs, l'. rewrite Ese in Hg, Hsg.
  repeat split; try assumption.
  - rewrite Hsg in Hg'. simpl in Hg'. inversion Hg'; subst g' rs'.
    rewrite Hsh, Hsg. rewrite set_eval_cv_twice.
    rewrite <- Hg. apply set_eval_cv_same.
  - intros i Hlt. destruct (Hi i Hlt) as (z & final' & x & Hz & Hf & Hn & Hp).
    rewrite Efinal in Hf. inversion Hf; subst final'.
    exists z, x. auto.
Qed.

(** What a successful [get_scores] call did when [not collect_n] holds. *)
Lemma get_scores_single_Ok (X : Data) (y : Labels) (row_keys : list string)
    (scoring : string) (collect_n : option Z) (s s' : state) (v : score_values) :
  falsy collect_n = true ->
  get_scores X y row_keys scoring collect_n s = Ok v s' ->
  exists steps a w w',
    build_steps
      (PyList.zip row_keys
         (PyList.last_n (length row_keys) (columns (plan_table (self s))))) s
    = Ok steps s /\
    cross_val_score steps X y scoring (eval_cv (self s)) w = Ok a w' /\
    v = ScoreArray a /\ self s' = self s.
Proof.
  intros Hf H. unfold get_scores in H. rewrite Hf in H.
  bind_inv H as s0 sa E. apply get_Ok in E as [-> ->].
  bind_inv H as steps sb Esteps. pose proof (build_steps_Ok _ _ Esteps) as ->.
  bind_inv H as final sc E. apply last_of_Ok in E as [Efinal ->].
  bind_inv H as params sd E. apply subscript_Ok in E as [Eparams ->].
  bind_inv H as u se Eset. apply lift_world_Ok in Eset as [Eset Ese].
  bind_inv H as s1 sf E. apply get_Ok in E as [-> ->].
  bind_inv H as a sg Ecv. apply lift_world_Ok in Ecv as [Ecv Esg].
  apply ret_Ok in H as [-> ->].
  exists steps, a, (world se), (world sg).
  rewrite Ese in Ecv. repeat split; try assumption. congruence.
Qed.

Lemma repeat_scores_returns (steps : list (string * Estimator))
    (final : string * Estimator) (X : Data) (y : Labels) (scoring : string) :
  evaluation_returns ->
  PyList.last_item steps = Some final ->
  forall (n : nat) (acc : list Num) (s : state) (g : Splitter) (z : Z),
    eval_cv (self s) = CvGenerator g (Some z) ->
    exists l s', repeat_scores n steps X y scoring acc s = Ok l s'.
Proof.
  intros (_ & _ & Hpred & Hmetric) Hfinal.
  induction n as [|n IH]; intros acc s g z Hcv; simpl.
  - eexists. eexists. reflexivity.
  - destruct (Hpred steps X y (eval_cv (self s)) (world s)) as (pred & w1 & E1).
    destruct (Hmetric (snd final) scoring w1) as (metric & w2 & E2 & Hcall).
    destruct (Hcall y pred w2) as (sc & w3 & E3).
    set (s3 := {| self := self s; world := w3 |}).
    set (s4 := {| self := set_eval_cv (CvGenerator g (Some (z + 1)%Z)) (self s3);
                  world := world s3 |}).
    destruct (IH (acc ++ [sc]) s4 g (z + 1)%Z eq_refl) as (l & s' & Hrun).
    exists l, s'. rewrite <- Hrun.
    run_pure. run_lifted E1.
    unfold last_of. rewrite Hfinal. run_pure.
    run_lifted E2. run_lifted E3. fold s3.
    erewrite bind_intro by (eapply bump_random_state_intro; exact Hcv).
    reflexivity.
Qed.

(** With well-behaved scikit-learn calls, [get_scores] returns whenever
    the suffix names resolve to at least one stage, the best parameters
    for the key are in the store and, for a repeat count, the evaluation
    generator carries an integer seed. *)
Lemma get_scores_returns (X : Data) (y : Labels) (row_keys : list string)
    (scoring : string) (collect_n : option Z) (s : state)
    (steps : list (string * Estimator)) (final : string * Estimator)
    (params : odict PyVal) :
  evaluation_returns ->
  build_steps
    (PyList.zip row_keys
       (PyList.last_n (length row_keys) (columns (plan_table (self s))))) s
  = Ok steps s ->
  PyList.last_item steps = Some final ->
  OrderedDict.getitem (param_key row_keys scoring) (best_params (self s))
  = Some params ->
  (falsy collect_n = true \/
   exists g z, eval_cv (self s) = CvGenerator g (Some z)) ->
  exists v s', get_scores X y row_keys scoring collect_n s = Ok v s'.
Proof.
  intros Hret Hsteps Hfinal Hparams Hmode.
  pose proof Hret as (Hset & Hscore & _ & _).
  destruct (Hset (snd final) params (world s)) as (w1 & E1).
  set (s1 := {| self := self s; world := w1 |}).
  unfold get_scores.
  run_pure. run_with Hsteps.
  unfold last_of at 1. rewrite Hfinal. run_pure.
  unfold subscript at 1. rewrite Hparams. run_pure.
  run_lifted E1. fold s1.
  destruct (falsy collect_n) eqn:Hf.
  - destruct (Hscore steps X y scoring (eval_cv (self s1)) (world s1))
      as (a & w2 & E2).
    eexists. eexists.
    run_pure. run_lifted E2. reflexivity.
  - destruct Hmode as [Hm | (g & z & Hcv)]; [discriminate|].
    change (eval_cv (self s)) with (eval_cv (self s1)) in Hcv.
    set (n := Z.to_nat match collect_n with Some n => n | None => 0%Z end).
    destruct (@repeat_scores_returns steps final X y scoring Hret Hfinal
                n [] s1 g z Hcv) as (l & s2 & Hrun).
    pose proof Hrun as Hshape.
    eapply repeat_scores_Ok in Hshape; [|exact Hcv].
    destruct Hshape as (l' & _ & _ & Hs2 & _).
    eexists. eexists.
    erewrite bind_intro by (eapply get_random_state_intro; exact Hcv).
    run_with Hrun.
    erewrite bind_intro
      by (eapply set_random_state_intro; rewrite Hs2; reflexivity).
    reflexivity.
Qed.

End EvaluatorFacts.

(** * The hyperparameter search *)

Section SearchFacts.

Context {SK : Sklearn}.
Import OrderedDictFacts.

Lemma best_rows_Ok (params_list : list (odict PyVal))
    (grid_clf : GridSearchCV PyVal Num) (scoring : string) (best : odict PyVal) :
  forall (i : nat) (results r : odict cell) (s s' : state),
    best_rows i params_list grid_clf scoring best results s = Ok r s' ->
    s' = s /\
    forall k, In k (OrderedDict.keys r) ->
              In k (OrderedDict.keys results) \/ In k (grid_steps scoring).
Proof.
  induction params_list as [|params rest IH]; intros i results r s s' H;
    simpl in H.
  - apply ret_Ok in H as [-> ->]. auto.
  - destruct (dict_eqb params (best_params_ grid_clf)).
    + bind_inv H as m sa E. apply item_Ok in E as [_ ->].
      bind_inv H as sd sb E. apply item_Ok in E as [_ ->].
      apply IH in H as [-> Hk]. split; [reflexivity|].
      intros k Hin. destruct (Hk k Hin) as [Hin' | Hin']; [|now right].
      rewrite !In_keys_setitem in Hin'. simpl.
      intuition.
    + now apply IH in H.
Qed.

(** Every successful search stores an entry under the key built from the
    suffix names and the metric, and reports only grid columns. *)
Lemma get_grid_search_results_Ok (X : Data) (y : Labels)
    (row_keys : list string) (scoring : string) (r : odict cell)
    (s s' : state) :
  get_grid_search_results X y row_keys scoring s = Ok r s' ->
  (forall k, In k (OrderedDict.keys r) -> In k (grid_steps scoring)) /\
  exists found,
    best_params (self s')
    = OrderedDict.setitem (param_key row_keys scoring) found
                          (best_params (self s)).
Proof.
  unfold get_grid_search_results. intros H.
  bind_inv H as ck sa E. apply last_of_Ok in E as [Eck ->].
  bind_inv H as s0 sb E. apply get_Ok in E as [-> ->].
  destruct (OrderedDict.contains ck (param_grid (self s))).
  - bind_inv H as steps sc E. apply build_steps_Ok in E as ->.
    bind_inv H as declared sd E. apply subscript_Ok in E as [Edecl ->].
    bind_inv H as u se E. apply modify_self_Ok in E as [Ese Ewe].
    bind_inv H as s1 sf E. apply get_Ok in E as [-> ->].
    bind_inv H as grid_clf sg E. apply lift_world_Ok in E as [Efit Esg].
    bind_inv H as u' sh E. apply modify_self_Ok in E as [Esh Ewh].
    apply best_rows_Ok in H as [-> Hk]. split.
    + intros k Hin. destruct (Hk k Hin) as [[] | Hin']. exact Hin'.
    + eexists. rewrite Esh. simpl. rewrite Esg, Ese. reflexivity.
  - bind_inv H as u sc E. apply modify_self_Ok in E as [Ese Ewe].
    apply ret_Ok in H as [-> ->]. split.
    + intros k Hin. rewrite !In_keys_setitem in Hin. simpl in *. intuition.
    + eexists. rewrite Ese. reflexivity.
Qed.


Lemma get_grid_search_results_blank (X : Data) (y : Labels)
    (row_keys : list string) (scoring : string) (classifier_key : string)
    (s : state) :
  PyList.last_item row_keys = Some classifier_key ->
  OrderedDict.contains classifier_key (param_grid (self s)) = false ->
  get_grid_search_results X y row_keys scoring s
  = Ok (map (fun k => (k, CStr "NaN")) (grid_steps scoring))
       (after_blank_search row_keys scoring s).
Proof.
  intros Hlast Hgrid. unfold get_grid_search_results, bind, last_of, get.
  rewrite Hlast. unfold ret at 1. rewrite Hgrid.
  unfold modify_self, ret, after_blank_search. f_equal.
  cbn [OrderedDict.setitem OrderedDict.empty map grid_steps].
  destruct (String.eqb_spec (grid_std_key scoring) (grid_mean_key scoring))
    as [E|_]; [symmetry in E; now apply grid_mean_std in E|].
  cbn [OrderedDict.setitem].
  destruct (String.eqb_spec (grid_best_params_key scoring) (grid_mean_key scoring))
    as [E|_]; [symmetry in E; now apply grid_mean_best in E|].
  destruct (String.eqb_spec (grid_best_params_key scoring) (grid_std_key scoring))
    as [E|_]; [symmetry in E; now apply grid_std_best in E|].
  reflexivity.
Qed.

End SearchFacts.

(** * The prefix cache *)

Section CacheFacts.

Context {SK : Sklearn}.
Import OrderedDictFacts.



(** Inside the module [cp] is not bound. *)
Lemma cp_unbound : OrderedDict.getitem "cp" module_globals = None.
Proof. reflexivity. Qed.

Lemma remove_unmatched_raises (row_keys : list string) (s : state) :
  remove_unmatched_caching_X row_keys s = Raise (NameError "cp") s.
Proof.
  unfold remove_unmatched_caching_X, remove_unmatched_caching_X_in.
  unfold bind, get, call_copy. rewrite cp_unbound. reflexivity.
Qed.

(** Once the root entry is cached, the call stops at [cp.copy] with the
    object and the world as they were. *)
Lemma transform_with_caching_raises (X : Data) (y : Labels)
    (row_keys : list string) (s : state) :
  OrderedDict.contains "init" (_cached_X (self s)) = true ->
  transform_with_caching X y row_keys s = Raise (NameError "cp") s.
Proof.
  intros Hinit.
  unfold transform_with_caching, transform_with_caching_in.
  unfold bind at 1. unfold get at 1. rewrite Hinit. simpl negb. cbv iota.
  unfold bind at 1. unfold bind at 1.
  fold (remove_unmatched_caching_X ("init" :: row_keys)).
  now rewrite remove_unmatched_raises.
Qed.

Lemma named_step_frame (column row_key : string) (e : Estimator)
    (s s1 : state) :
  named_steps (self s1) = named_steps (self s) ->
  named_step column row_key s = Ok e s ->
  named_step column row_key s1 = Ok e s1.
Proof.
  intros Hns H. apply named_step_Ok in H as [_ (variants & Hv & He)].
  unfold named_step, bind, get, subscript. rewrite Hns, Hv. unfold ret.
  now rewrite He.
Qed.

Lemma build_steps_cons (row_key column : string) (rest : list (string * string))
    (steps : list (string * Estimator)) (s : state) :
  build_steps ((row_key, column) :: rest) s = Ok steps s ->
  exists e steps',
    steps = (row_key, e) :: steps' /\
    named_step column row_key s = Ok e s /\
    build_steps rest s = Ok steps' s.
Proof.
  simpl. intros H. bind_inv H as e sa E.
  pose proof E as Es. apply named_step_Ok in Es as [-> _].
  bind_inv H as steps' sb E'.
  pose proof E' as Es. apply build_steps_Ok in Es as ->.
  apply ret_Ok in H as [-> _]. eauto.
Qed.

Lemma build_steps_frame (pairs : list (string * string))
    (steps : list (string * Estimator)) (s s1 : state) :
  named_steps (self s1) = named_steps (self s) ->
  build_steps pairs s = Ok steps s ->
  build_steps pairs s1 = Ok steps s1.
Proof.
  intros Hns. revert steps.
  induction pairs as [|[rk c] pairs IH]; intros steps H.
  - simpl in *. apply ret_Ok in H as [-> _]. reflexivity.
  - apply build_steps_cons in H as (e & steps' & -> & He & Hrest).
    simpl. unfold bind.
    erewrite named_step_frame by eassumption.
    erewrite IH by eassumption. reflexivity.
Qed.

Lemma last_item_app {A} (l : list A) (x : A) :
  PyList.last_item (l ++ [x]) = Some x.
Proof. unfold PyList.last_item. now rewrite rev_app_distr. Qed.

Lemma getitem_app_fresh {V} (d : odict V) (k : string) (v : V) :
  ~ In k (OrderedDict.keys d) ->
  OrderedDict.getitem k (d ++ [(k, v)]) = Some v.
Proof.
  intros H. rewrite <- (setitem_fresh _ v _ H). apply getitem_setitem_eq.
Qed.

(** Extending the chain by stages whose names are new to the cache: each
    is applied to the data of the entry before it and appended. *)
Lemma extend_cache_fresh (ft : Estimator -> Data -> Data) :
  pure_stages ft ->
  forall (pairs : list (string * string)) (steps : list (string * Estimator))
         (prev : string) (v : Data) (s : state),
    build_steps pairs s = Ok steps s ->
    OrderedDict.getitem prev (_cached_X (self s)) = Some v ->
    PyList.last_item (OrderedDict.keys (_cached_X (self s))) = Some prev ->
    NoDup (OrderedDict.keys (_cached_X (self s)) ++ map fst pairs) ->
    exists s' last,
      extend_cache pairs prev s = Ok tt s' /\
      PyList.last_item (OrderedDict.keys (_cached_X (self s'))) = Some last /\
      OrderedDict.getitem last (_cached_X (self s'))
      = Some (apply_prefix ft (map snd steps) v) /\
      OrderedDict.keys (_cached_X (self s'))
      = OrderedDict.keys (_cached_X (self s)) ++ map fst pairs /\
      named_steps (self s') = named_steps (self s) /\
      plan_table (self s') = plan_table (self s).
Proof.
  intros Hpure pairs.
  induction pairs as [|[rk c] pairs IH]; intros steps prev v s Hsteps Hv Hlast Hnd.
  - simpl in Hsteps. apply ret_Ok in Hsteps as [-> _].
    exists s, prev. simpl. rewrite app_nil_r. repeat split; assumption.
  - apply build_steps_cons in Hsteps as (e & steps' & -> & He & Hrest).
    destruct (Hpure e v (world s)) as [w' Hft].
    set (c1 := OrderedDict.setitem rk (ft e v) (_cached_X (self s))).
    set (s1 := {| self := set_cached_X c1 (self s); world := w' |}).
    assert (Hfresh : ~ In rk (OrderedDict.keys (_cached_X (self s)))).
    { simpl in Hnd. apply NoDup_remove_2 in Hnd. intros Hin. apply Hnd.
      apply in_or_app. now left. }
    assert (Hc1 : c1 = _cached_X (self s) ++ [(rk, ft e v)]).
    { unfold c1. now apply setitem_fresh. }
    assert (Hstep : extend_cache ((rk, c) :: pairs) prev s
                    = extend_cache pairs rk s1).
    { simpl. unfold bind at 1. rewrite He.
      unfold bind at 1. unfold get at 1.
      unfold bind at 1. unfold subscript. rewrite Hv. unfold ret at 1.
      unfold bind at 1. unfold lift_world. rewrite Hft.
      unfold bind at 1. unfold modify_self. reflexivity. }
    destruct (IH steps' rk (ft e v) s1) as (s' & last & Hrun & Hl & Hg & Hk & Hns & Hpt).
    + eapply build_steps_frame; [|eassumption]. reflexivity.
    + simpl. rewrite Hc1. now apply getitem_app_fresh.
    + simpl. rewrite Hc1. unfold OrderedDict.keys. rewrite map_app. simpl.
      apply last_item_app.
    + simpl. rewrite Hc1. unfold OrderedDict.keys. rewrite map_app. simpl.
      rewrite <- app_assoc. exact Hnd.
    + exists s', last. rewrite Hstep. split; [exact Hrun|].
      split; [exact Hl|]. split; [exact Hg|]. split.
      * rewrite Hk. simpl. rewrite Hc1. unfold OrderedDict.keys.
        rewrite map_app. simpl. now rewrite <- app_assoc.
      * split; [exact Hns | exact Hpt].
Qed.

End CacheFacts.

(** * Properties of the plan builder, the search and the evaluator *)

Section Properties.

Context {SK : Sklearn}.
Import OrderedDictFacts.

(** C5. The plan table built by the constructor holds, in product order,
    the rows of the Cartesian product of the steps' variant-name lists,
    minus exactly the rows in which both names of some banned combo
    appear. Hence no row of the table contains both names of a banned
    combo, and the number of rows is at most the product of the variant
    counts, with equality exactly when no banned combo matches any
    candidate row. *)
Theorem plan_table_is_filtered_product
    (steps : list (string * list (string * Estimator)))
    (gcv ecv : CV) (pg : odict (odict PyVal))
    (banned : list (string * string)) (p : Pipeliner) :
  __init__ steps gcv ecv pg banned = inr p ->
  let variant_names := column_keys_of (named_steps p) in
  let candidates := PyList.product variant_names in
  let table := map (@OrderedDict.values string) (rows (plan_table p)) in
  let capacity := fold_right Nat.mul 1 (map (@length string) variant_names) in
  named_steps p = ordered_steps steps /\
  columns (plan_table p) = OrderedDict.keys (named_steps p) /\
  Forall (fun r => OrderedDict.keys r = columns (plan_table p))
         (rows (plan_table p)) /\
  table = filter (fun r => negb (existsb (both_present r) banned)) candidates /\
  (forall r bc, In r table -> In bc banned ->
                ~ (In (fst bc) r /\ In (snd bc) r)) /\
  length table <= capacity /\
  (length table = capacity <->
   forall r bc, In r candidates -> In bc banned ->
                ~ (In (fst bc) r /\ In (snd bc) r)).
Proof.
  intros Hinit variant_names candidates table capacity.
  destruct (init_plan_table _ _ _ _ _ Hinit) as (Hns & Hcols & Hrows).
  fold variant_names candidates in Hrows.
  set (keep := fun r => negb (existsb (both_present r) banned)) in *.
  assert (Hlen : forall r, In r (filter keep candidates) ->
                           length (OrderedDict.keys (named_steps p)) = length r).
  { intros r Hr. apply filter_In in Hr as [Hr _].
    apply product_row_length in Hr. unfold variant_names in Hr.
    now rewrite Hr, column_keys_length. }
  assert (Htable : table = filter keep candidates).
  { unfold table. rewrite Hrows, map_map.
    rewrite <- (map_id (filter keep candidates)) at 2.
    apply map_ext_in. intros r Hr. apply values_combine. now apply Hlen. }
  assert (Hkeep : forall r, keep r = true <->
                            forall bc, In bc banned ->
                                       ~ (In (fst bc) r /\ In (snd bc) r)).
  { intros r. unfold keep. rewrite negb_true_iff. split.
    - intros Hex bc Hbc [Ha Hb].
      assert (Ht : existsb (both_present r) banned = true).
      { apply existsb_exists. exists bc. split; [assumption|].
        unfold both_present. apply andb_true_intro. split; now apply mem_In. }
      congruence.
    - intros Hno. destruct (existsb (both_present r) banned) eqn:Hex;
        [|reflexivity].
      apply existsb_exists in Hex as (bc & Hbc & Hboth).
      unfold both_present in Hboth. apply andb_prop in Hboth as [Ha Hb].
      exfalso. apply (Hno bc Hbc). split; now apply mem_In. }
  split; [exact Hns|]. split; [exact Hcols|]. split.
  { rewrite Hrows, Hcols. apply Forall_forall. intros r Hr.
    apply in_map_iff in Hr as (rk & <- & Hrk). apply keys_combine.
    now apply Hlen. }
  split; [exact Htable|]. split.
  { intros r bc Hr. rewrite Htable in Hr. apply filter_In in Hr as [_ Hr].
    now apply Hkeep. }
  assert (Hcap : capacity = length candidates).
  { unfold capacity, candidates. now rewrite product_length. }
  split.
  { rewrite Htable, Hcap. apply filter_length_le. }
  rewrite Htable, Hcap, filter_length_all. split.
  - intros H r bc Hr. now apply Hkeep, H.
  - intros H r Hr. apply Hkeep. intros bc. now apply H.
Qed.

(** C6. When the final-stage variant name has no entry in [param_grid],
    the search returns the mapping that gives the string 'NaN' to each of
    grid_<metric>_mean, grid_<metric>_std and grid_<metric>_best_params,
    and leaves an empty parameter assignment in the best-params store
    under the key of that suffix and metric. *)
Theorem grid_search_sentinel (X : Data) (y : Labels)
    (row_keys : list string) (scoring : string) (classifier_key : string)
    (s : state) :
  PyList.last_item row_keys = Some classifier_key ->
  OrderedDict.contains classifier_key (param_grid (self s)) = false ->
  exists results s',
    get_grid_search_results X y row_keys scoring s = Ok results s' /\
    results = [(grid_mean_key scoring, CStr "NaN");
               (grid_std_key scoring, CStr "NaN");
               (grid_best_params_key scoring, CStr "NaN")] /\
    (forall k, In k (grid_steps scoring) ->
               OrderedDict.getitem k results = Some (CStr "NaN")) /\
    OrderedDict.getitem (param_key row_keys scoring) (best_params (self s'))
    = Some OrderedDict.empty /\
    world s' = world s.
Proof.
  intros Hlast Hgrid.
  exists (map (fun k => (k, CStr "NaN")) (grid_steps scoring)),
         (after_blank_search row_keys scoring s).
  split; [now apply get_grid_search_results_blank with classifier_key|].
  split; [reflexivity|]. split.
  - intros k Hk. cbn [map grid_steps OrderedDict.getitem].
    simpl in Hk. destruct Hk as [<- | [<- | [<- | []]]].
    + now rewrite String.eqb_refl.
    + destruct (String.eqb_spec (grid_std_key scoring) (grid_mean_key scoring))
        as [E|_]; [symmetry in E; now apply grid_mean_std in E|].
      now rewrite String.eqb_refl.
    + destruct (String.eqb_spec (grid_best_params_key scoring)
                                (grid_mean_key scoring))
        as [E|_]; [symmetry in E; now apply grid_mean_best in E|].
      destruct (String.eqb_spec (grid_best_params_key scoring)
                                (grid_std_key scoring))
        as [E|_]; [symmetry in E; now apply grid_std_best in E|].
      now rewrite String.eqb_refl.
  - split; [|reflexivity]. simpl. apply getitem_setitem_eq.
Qed.

(** C7. After a call to [get_scores] with a repeat count N > 0 returns,
    the evaluation generator's [random_state] is what it was before the
    call: the loop has raised it by one N times and the method has put
    the saved value back. *)
Theorem get_scores_restores_seed (X : Data) (y : Labels)
    (row_keys : list string) (scoring : string) (N : Z)
    (s s' : state) (v : score_values) :
  (0 < N)%Z ->
  get_scores X y row_keys scoring (Some N) s = Ok v s' ->
  eval_cv (self s') = eval_cv (self s) /\
  exists g z, eval_cv (self s) = CvGenerator g (Some z).
Proof.
  intros HN H.
  apply get_scores_repeat_Ok in H as
      (steps & final & g & rs & l & _ & _ & Hg & _ & _ & Hself & Hi); [|lia].
  split; [now rewrite Hself|].
  destruct (Hi 0%nat ltac:(lia)) as (z & _ & -> & _). eauto.
Qed.

(** C8. A call to [get_scores] with a repeat count N > 0 that returns
    gives a list of exactly N scores; the score at position i comes from
    a cross-validated prediction pass run with seed base + i, followed by
    the metric's scoring function applied to the true and the predicted
    labels. *)
Theorem get_scores_repeat_scores (X : Data) (y : Labels)
    (row_keys : list string) (scoring : string) (N : Z)
    (s s' : state) (v : score_values) :
  (0 < N)%Z ->
  get_scores X y row_keys scoring (Some N) s = Ok v s' ->
  exists l steps final g base,
    v = ScoreList l /\
    length l = Z.to_nat N /\
    build_steps
      (PyList.zip row_keys
         (PyList.last_n (length row_keys) (columns (plan_table (self s))))) s
    = Ok steps s /\
    PyList.last_item steps = Some final /\
    eval_cv (self s) = CvGenerator g (Some base) /\
    forall i, i < Z.to_nat N ->
      exists sc,
        nth_error l i = Some sc /\
        prediction_score steps final X y scoring
                         (CvGenerator g (Some (base + Z.of_nat i)%Z)) sc.
Proof.
  intros HN H.
  apply get_scores_repeat_Ok in H as
      (steps & final & g & rs & l & Hsteps & Hfinal & Hg & -> & Hlen & _ & Hi);
    [|lia].
  destruct (Hi 0%nat ltac:(lia)) as (base & _ & -> & _).
  exists l, steps, final, g, base. repeat split; try assumption.
  intros i Hlt. destruct (Hi i Hlt) as (z & sc & Hz & Hn & Hp).
  inversion Hz; subst z. eauto.
Qed.

(** C10. With [collect_n = 0] the call is the call with [collect_n = None]:
    the single-evaluation branch runs one cross-validated scoring pass and
    returns its score array; it never returns the empty list of the repeat
    loop. *)
Theorem get_scores_zero_is_single (X : Data) (y : Labels)
    (row_keys : list string) (scoring : string) (s : state) :
  get_scores X y row_keys scoring (Some 0%Z) s
  = get_scores X y row_keys scoring None s /\
  forall v s',
    get_scores X y row_keys scoring (Some 0%Z) s = Ok v s' ->
    v <> ScoreList [] /\
    exists steps a w w',
      build_steps
        (PyList.zip row_keys
           (PyList.last_n (length row_keys) (columns (plan_table (self s))))) s
      = Ok steps s /\
      cross_val_score steps X y scoring (eval_cv (self s)) w = Ok a w' /\
      v = ScoreArray a.
Proof.
  split; [reflexivity|].
  intros v s' H.
  apply get_scores_single_Ok in H as (steps & a & w & w' & Hs & Hcv & -> & _);
    [|reflexivity].
  split; [discriminate|]. eauto 8.
Qed.

End Properties.

(** * Keys of the best-params store *)

Section ParamKeys.

Context {SK : Sklearn}.
Import OrderedDictFacts.

(** [get_scores] hands to the final stage the parameters it finds in the
    store under the key of its suffix and metric. *)
Lemma get_scores_reads (X : Data) (y : Labels) (row_keys : list string)
    (scoring : string) (collect_n : option Z) (v : score_values)
    (s s' : state) :
  get_scores X y row_keys scoring collect_n s = Ok v s' ->
  exists steps final params w',
    build_steps
      (PyList.zip row_keys
         (PyList.last_n (length row_keys) (columns (plan_table (self s))))) s
    = Ok steps s /\
    PyList.last_item steps = Some final /\
    OrderedDict.getitem (param_key row_keys scoring) (best_params (self s))
    = Some params /\
    set_params (snd final) params (world s) = Ok tt w'.
Proof.
  unfold get_scores. intros H.
  bind_inv H as s0 sa E. apply get_Ok in E as [-> ->].
  bind_inv H as steps sb Esteps.
  pose proof Esteps as Es. apply build_steps_Ok in Es as ->.
  bind_inv H as final sc E. apply last_of_Ok in E as [Efinal ->].
  bind_inv H as params sd E. apply subscript_Ok in E as [Eparams ->].
  bind_inv H as u se Eset. apply lift_world_Ok in Eset as [Eset _].
  destruct u. eauto 8.
Qed.

(** C9. The store is keyed by the concatenation of the suffix names
    followed by the metric name: a search leaves its entry under that
    string and [get_scores] reads under that string. The keying is not
    injective: the suffixes [ab],[c] and [a],[bc] get the same key for
    every metric. So for two suffixes with the same concatenation, the
    entry a search stored for the first is the one [get_scores] applies
    for the second, and a later search for the second replaces it in
    place. *)
Theorem param_key_not_injective :
  (forall X y row_keys scoring r s s',
     get_grid_search_results X y row_keys scoring s = Ok r s' ->
     exists found,
       best_params (self s')
       = OrderedDict.setitem (PyStr.join row_keys ++ scoring)%string found
                             (best_params (self s))) /\
  (forall X y row_keys scoring collect_n v s s',
     get_scores X y row_keys scoring collect_n s = Ok v s' ->
     exists params,
       OrderedDict.getitem (PyStr.join row_keys ++ scoring)%string
                           (best_params (self s)) = Some params) /\
  (["ab"; "c"] <> ["a"; "bc"] /\
   forall scoring, param_key ["ab"; "c"] scoring = param_key ["a"; "bc"] scoring) /\
  (forall X y rk1 rk2 scoring r s s1,
     PyStr.join rk1 = PyStr.join rk2 ->
     get_grid_search_results X y rk1 scoring s = Ok r s1 ->
     exists found,
       OrderedDict.getitem (param_key rk1 scoring) (best_params (self s1))
       = Some found /\
       (forall X' y' collect_n v s2,
          get_scores X' y' rk2 scoring collect_n s1 = Ok v s2 ->
          exists steps final w',
            build_steps
              (PyList.zip rk2
                 (PyList.last_n (length rk2) (columns (plan_table (self s1)))))
              s1 = Ok steps s1 /\
            PyList.last_item steps = Some final /\
            set_params (snd final) found (world s1) = Ok tt w') /\
       (forall X' y' r' s2,
          get_grid_search_results X' y' rk2 scoring s1 = Ok r' s2 ->
          exists found',
            OrderedDict.getitem (param_key rk1 scoring) (best_params (self s2))
            = Some found' /\
            OrderedDict.keys (best_params (self s2))
            = OrderedDict.keys (best_params (self s1)))).
Proof.
  split; [|split; [|split]].
  - intros X y row_keys scoring r s s' H.
    apply get_grid_search_results_Ok in H as [_ H]. exact H.
  - intros X y row_keys scoring collect_n v s s' H.
    apply get_scores_reads in H as (steps & final & params & w' & _ & _ & H & _).
    eauto.
  - split; [discriminate | reflexivity].
  - intros X y rk1 rk2 scoring r s s1 Hjoin H.
    assert (Hkey : param_key rk2 scoring = param_key rk1 scoring).
    { unfold param_key. now rewrite Hjoin. }
    apply get_grid_search_results_Ok in H as [_ [found Hstore]].
    exists found. split; [rewrite Hstore; apply getitem_setitem_eq|]. split.
    + intros X' y' collect_n v s2 H2.
      apply get_scores_reads in H2
        as (steps & final & params & w' & Hsteps & Hfinal & Hget & Hset).
      rewrite Hkey, Hstore, getitem_setitem_eq in Hget.
      inversion Hget; subst params. exists steps, final, w'. auto.
    + intros X' y' r' s2 H2.
      apply get_grid_search_results_Ok in H2 as [_ [found' Hstore']].
      exists found'. rewrite Hstore', Hkey. split.
      * apply getitem_setitem_eq.
      * apply keys_setitem_In. rewrite Hstore.
        apply In_keys_setitem. now left.
Qed.

End ParamKeys.

(** * Properties of the prefix cache *)

Section CacheProperties.

Context {SK : Sklearn}.
Import OrderedDictFacts.

Lemma extend_cache_keeps (k : string) (pairs : list (string * string)) :
  forall (prev : string) (u : unit) (s s' : state),
    OrderedDict.contains k (_cached_X (self s)) = true ->
    extend_cache pairs prev s = Ok u s' ->
    OrderedDict.contains k (_cached_X (self s')) = true.
Proof.
  induction pairs as [|[rk c] pairs IH]; intros prev u s s' Hk H; simpl in H.
  - apply ret_Ok in H as [_ ->]. exact Hk.
  - bind_inv H as e sa E. apply named_step_Ok in E as [-> _].
    bind_inv H as s0 sb E. apply get_Ok in E as [-> ->].
    bind_inv H as X sc E. apply subscript_Ok in E as [_ ->].
    bind_inv H as X' sd E. apply lift_world_Ok in E as [_ Esd].
    bind_inv H as u' se E. apply modify_self_Ok in E as [Ese _].
    apply IH in H; [exact H|]. rewrite Ese. simpl.
    apply contains_In, In_keys_setitem. right.
    apply contains_In. now rewrite Esd.
Qed.

(** A call that returns has gone through the branch that creates the
    root entry, and leaves it in the cache. *)
Lemma transform_with_caching_Ok (X : Data) (y : Labels)
    (row_keys : list string) (r : Data * Labels) (s s' : state) :
  transform_with_caching X y row_keys s = Ok r s' ->
  OrderedDict.contains "init" (_cached_X (self s)) = false /\
  OrderedDict.contains "init" (_cached_X (self s')) = true /\
  snd r = y.
Proof.
  intros H.
  destruct (OrderedDict.contains "init" (_cached_X (self s))) eqn:Hinit.
  { rewrite transform_with_caching_raises in H by assumption. discriminate. }
  split; [reflexivity|].
  unfold transform_with_caching, transform_with_caching_in in H.
  bind_inv H as s0 sa E. apply get_Ok in E as [-> ->].
  rewrite Hinit in H. simpl negb in H. cbv iota in H.
  bind_inv H as u sb E.
  bind_inv E as u' sc E'. apply modify_self_Ok in E' as [Esc _].
  unfold transform_X_from_last_cached in E.
  bind_inv E as s1 sd E'. apply get_Ok in E' as [-> ->].
  bind_inv E as prev se E'. apply last_of_Ok in E' as [_ ->].
  apply extend_cache_keeps with (k := "init") in E.
  - bind_inv H as s2 sf E'. apply get_Ok in E' as [-> ->].
    bind_inv H as lk sg E'. apply last_of_Ok in E' as [_ ->].
    bind_inv H as Xc sh E'. apply subscript_Ok in E' as [_ ->].
    apply ret_Ok in H as [-> ->]. auto.
  - rewrite Esc. simpl. apply contains_In, In_keys_setitem. now left.
Qed.

(** C1. The cache update described for calls after the first is never
    carried out: once a first call has returned, every later call stops
    at [cp.copy] with a NameError, before any entry is evicted or
    recomputed, and returns nothing. *)
Theorem calls_after_the_first_raise (X : Data) (y : Labels)
    (row_keys : list string) (r : Data * Labels) (s s1 : state) :
  transform_with_caching X y row_keys s = Ok r s1 ->
  forall X' y' row_keys',
    transform_with_caching X' y' row_keys' s1 = Raise (NameError "cp") s1.
Proof.
  intros H X' y' row_keys'.
  apply transform_with_caching_Ok in H as (_ & Hinit & _).
  now apply transform_with_caching_raises.
Qed.

Lemma fst_combine_firstn {A B} (a : list A) (b : list B) :
  map fst (combine a b) = firstn (length b) a.
Proof.
  revert b. induction a as [|x a IH]; intros [|y b]; simpl; try reflexivity.
  now rewrite IH.
Qed.

Lemma In_firstn {A} (n : nat) (l : list A) (x : A) :
  In x (firstn n l) -> In x l.
Proof.
  revert n. induction l as [|y l IH]; intros [|n]; simpl; try tauto.
  intros [-> | H]; [now left | right; eauto].
Qed.

Lemma NoDup_firstn {A} (n : nat) (l : list A) : NoDup l -> NoDup (firstn n l).
Proof.
  intros H. revert n. induction H as [|x l Hx Hnd IH]; intros [|n]; simpl;
    try constructor; [|apply IH].
  intros Hin. apply Hx. eapply In_firstn. exact Hin.
Qed.

(** C3, amended. On a cache that holds nothing yet, for a row whose
    cacheable variant names are pairwise distinct and none of which is
    [init], the call returns the data obtained by applying the stages the
    row names, in order, to the input [X], together with [y], provided
    [fit_transform] is a function of its input alone. *)
Theorem first_call_equals_from_scratch
    (ft : Estimator -> Data -> Data) (X : Data) (y : Labels)
    (row_keys : list string) (steps : list (string * Estimator)) (s : state) :
  pure_stages ft ->
  _cached_X (self s) = OrderedDict.empty ->
  NoDup row_keys ->
  ~ In "init" row_keys ->
  build_steps
    (PyList.zip row_keys
       (firstn (length row_keys) (columns (plan_table (self s))))) s
  = Ok steps s ->
  exists s',
    transform_with_caching X y row_keys s
    = Ok (apply_prefix ft (map snd steps) X, y) s'.
Proof.
  intros Hpure Hempty Hnd Hinit Hsteps.
  set (cols := firstn (length row_keys) (columns (plan_table (self s)))) in *.
  set (s1 := {| self := set_cached_X [("init", X)] (self s); world := world s |}).
  destruct (@extend_cache_fresh _ ft Hpure (PyList.zip row_keys cols) steps
                                "init" X s1)
    as (s' & last & Hrun & Hlast & Hget & _).
  - eapply build_steps_frame; [|exact Hsteps]. reflexivity.
  - reflexivity.
  - reflexivity.
  - simpl. unfold PyList.zip. rewrite fst_combine_firstn. constructor.
    + intros Hin. apply Hinit. eapply In_firstn. exact Hin.
    + now apply NoDup_firstn.
  - exists s'.
    unfold transform_with_caching, transform_with_caching_in.
    unfold bind at 1. unfold get at 1. rewrite Hempty. simpl negb. cbv iota.
    fold cols. unfold bind at 1. unfold bind at 1.
    unfold modify_self at 1. rewrite Hempty.
    change (OrderedDict.setitem "init" X OrderedDict.empty) with [("init", X)].
    fold s1. unfold transform_X_from_last_cached.
    unfold bind at 1. unfold get at 1.
    unfold bind at 1. unfold last_of at 1.
    change (PyList.last_item (OrderedDict.keys (_cached_X (self s1))))
      with (Some "init").
    unfold ret at 1. rewrite Hrun.
    unfold bind at 1. unfold get at 1.
    unfold bind at 1. unfold last_of. rewrite Hlast. unfold ret at 1.
    unfold bind, subscript. rewrite Hget. reflexivity.
Qed.

End CacheProperties.

(** * The result table *)



Section FrameFacts.

Context {C : Type}.
Import OrderedDictFacts.



End FrameFacts.

Section PlanIsReadOnly.

Context {SK : Sklearn}.

Lemma get_scores_self (X : Data) (y : Labels) (row_keys : list string)
    (scoring : string) (collect_n : option Z) (v : score_values)
    (s s' : state) :
  get_scores X y row_keys scoring collect_n s = Ok v s' -> self s' = self s.
Proof.
  intros H. destruct (falsy collect_n) eqn:Hf.
  - apply get_scores_single_Ok in H as (_ & _ & _ & _ & _ & _ & _ & H);
      assumption.
  - destruct collect_n as [N|]; [|discriminate]. simpl in Hf.
    apply Z.eqb_neq in Hf.
    apply get_scores_repeat_Ok in H
      as (_ & _ & _ & _ & _ & _ & _ & _ & _ & _ & H & _); assumption.
Qed.



Lemma extend_cache_plan (pairs : list (string * string)) :
  forall (prev : string) (u : unit) (s s' : state),
    extend_cache pairs prev s = Ok u s' ->
    plan_table (self s') = plan_table (self s).
Proof.
  induction pairs as [|[rk c] pairs IH]; intros prev u s s' H; simpl in H.
  - apply ret_Ok in H as [_ ->]. reflexivity.
  - bind_inv H as e sa E. apply named_step_Ok in E as [-> _].
    bind_inv H as s0 sb E. apply get_Ok in E as [-> ->].
    bind_inv H as X sc E. apply subscript_Ok in E as [_ ->].
    bind_inv H as X' sd E. apply lift_world_Ok in E as [_ Esd].
    bind_inv H as u' se E. apply modify_self_Ok in E as [Ese _].
    apply IH in H. rewrite H, Ese. simpl. now rewrite Esd.
Qed.

Lemma transform_with_caching_plan (X : Data) (y : Labels)
    (row_keys : list string) (r : Data * Labels) (s s' : state) :
  transform_with_caching X y row_keys s = Ok r s' ->
  plan_table (self s') = plan_table (self s).
Proof.
  intros H. pose proof H as H0.
  apply transform_with_caching_Ok in H0 as (Hinit & _ & _).
  unfold transform_with_caching, transform_with_caching_in in H.
  bind_inv H as s0 sa E. apply get_Ok in E as [-> ->].
  rewrite Hinit in H. simpl negb in H. cbv iota in H.
  bind_inv H as u sb E.
  bind_inv E as u' sc E'. apply modify_self_Ok in E' as [Esc _].
  unfold transform_X_from_last_cached in E.
  bind_inv E as s1 sd E'. apply get_Ok in E' as [-> ->].
  bind_inv E as prev se E'. apply last_of_Ok in E' as [_ ->].
  apply extend_cache_plan in E.
  bind_inv H as s2 sf E'. apply get_Ok in E' as [-> ->].
  bind_inv H as lk sg E'. apply last_of_Ok in E' as [_ ->].
  bind_inv H as Xc sh E'. apply subscript_Ok in E' as [_ ->].
  apply ret_Ok in H as [_ ->]. rewrite E, Esc. reflexivity.
Qed.

End PlanIsReadOnly.

Section TableFacts.

Context {SK : Sklearn} {PD : Pandas}.
Import OrderedDictFacts.

(** The row that [loc] hands out is the frame's own. *)
Hypothesis shares_frame : loc_row = SharesFrame.






End TableFacts.

Section ResultTable.

Context {SK : Sklearn}.
Import OrderedDictFacts.

Lemma all_columns_app (metrics cols : list string) :
  fold_left (fun cs metric => cs ++ (grid_steps metric ++ eval_steps metric))
            metrics cols
  = cols ++ metric_columns metrics.
Proof.
  revert cols. induction metrics as [|m rest IH]; intros cols; simpl.
  - now rewrite app_nil_r.
  - rewrite IH. unfold metric_columns. simpl. now rewrite <- !app_assoc.
Qed.



End ResultTable.

(** * The cache when [cp] is bound

    What the body of [transform_with_caching] does in a namespace that
    binds [cp] to the [copy] module: the operation of the specification. *)

Section CacheWithCopy.

Context {SK : Sklearn}.
Import OrderedDictFacts.

Variable G : odict binding.
Hypothesis cp_bound : OrderedDict.getitem "cp" G = Some (PyModule "copy").

Lemma call_copy_bound {A} (l : list A) (s : state) :
  call_copy G "cp" l s = Ok l s.
Proof. unfold call_copy. rewrite cp_bound. reflexivity. Qed.

Lemma common_prefix_length_le (a b : list string) :
  common_prefix_length a b <= length a /\
  common_prefix_length a b <= length b.
Proof.
  revert b. induction a as [|x a IH]; intros [|y b]; simpl; try lia.
  destruct (String.eqb x y); simpl; [|lia].
  destruct (IH b). lia.
Qed.

Lemma strike_matched_spec (a b : list string) (s : state) :
  strike_matched (PyList.zip a b) b s
  = Ok (skipn (common_prefix_length a b) b) s.
Proof.
  revert b. induction a as [|x a IH]; intros [|y b]; simpl; try reflexivity.
  destruct (String.eqb x y); simpl; [apply IH | reflexivity].
Qed.

Lemma delitem_middle {V} (c1 c2 : odict V) (k : string) (v : V) :
  ~ In k (OrderedDict.keys c1) ->
  OrderedDict.delitem k (c1 ++ (k, v) :: c2) = Some (c1 ++ c2).
Proof.
  induction c1 as [|[k' v'] c1 IH]; intros Hk; simpl.
  - now rewrite String.eqb_refl.
  - destruct (String.eqb_spec k k') as [->|Hne].
    + exfalso. apply Hk. now left.
    + rewrite IH; [reflexivity|]. intros Hin. apply Hk. now right.
Qed.

Lemma evict_suffix (c2 : odict Data) :
  forall (c1 : odict Data) (s : state),
    _cached_X (self s) = c1 ++ c2 ->
    NoDup (OrderedDict.keys (c1 ++ c2)) ->
    evict (OrderedDict.keys c2) s = Ok tt (with_cache c1 s).
Proof.
  induction c2 as [|[k v] c2 IH]; intros c1 s Hc Hnd; simpl.
  - unfold ret, with_cache. rewrite app_nil_r in Hc. rewrite <- Hc.
    destruct s as [p w]. simpl. f_equal. f_equal. now destruct p.
  - unfold bind at 1. unfold get at 1. rewrite Hc.
    assert (Hk : ~ In k (OrderedDict.keys c1)).
    { unfold OrderedDict.keys in Hnd. rewrite map_app in Hnd. simpl in Hnd.
      apply NoDup_remove_2 in Hnd. intros Hin. apply Hnd.
      apply in_or_app. now left. }
    rewrite delitem_middle by assumption.
    unfold bind, modify_self.
    rewrite (IH c1); [reflexivity | reflexivity |].
    unfold OrderedDict.keys in *. rewrite map_app in *. simpl in Hnd.
    now apply NoDup_remove_1 in Hnd.
Qed.

Lemma remove_unmatched_spec (row_keys : list string) (s : state) :
  NoDup (OrderedDict.keys (_cached_X (self s))) ->
  let cached := _cached_X (self s) in
  let p := common_prefix_length row_keys (OrderedDict.keys cached) in
  remove_unmatched_caching_X_in G row_keys s
  = Ok tt (with_cache (firstn p cached) s).
Proof.
  intros Hnd cached p. unfold remove_unmatched_caching_X_in.
  unfold bind at 1. unfold get at 1.
  unfold bind at 1. rewrite call_copy_bound.
  unfold bind. rewrite strike_matched_spec. fold cached p.
  unfold OrderedDict.keys at 1. rewrite skipn_map.
  apply evict_suffix.
  - fold cached. now rewrite firstn_skipn.
  - rewrite firstn_skipn. exact Hnd.
Qed.

Lemma del_heads_spec (n : nat) :
  forall (a b : list string) (s : state),
    n <= length a -> n <= length b ->
    del_heads n a b s = Ok (skipn n a, skipn n b) s.
Proof.
  induction n as [|n IH]; intros a b s Ha Hb; simpl; [reflexivity|].
  destruct a as [|x a]; [simpl in Ha; lia|].
  destruct b as [|y b]; [simpl in Hb; lia|].
  apply IH; simpl in *; lia.
Qed.

(** In a namespace that binds [cp], a call on a cache that starts with
    the root entry is the specification's [resolve]. *)
Theorem transform_with_caching_resolves (X : Data) (y : Labels)
    (row_keys : list string) (s : state) (X0 : Data) (rest : odict Data) :
  _cached_X (self s) = ("init", X0) :: rest ->
  NoDup (OrderedDict.keys (_cached_X (self s))) ->
  length row_keys <= length (columns (plan_table (self s))) ->
  transform_with_caching_in G X y row_keys s = resolve X y row_keys s.
Proof.
  intros Hc Hnd Hlen.
  unfold resolve.
  unfold bind at 1. unfold get at 1. cbv beta zeta.
  unfold bind at 1. unfold put at 1.
  unfold bind at 1.
  set (cols := firstn (length row_keys) (columns (plan_table (self s)))).
  set (p := common_prefix_length ("init" :: row_keys)
                                 (OrderedDict.keys (_cached_X (self s)))).
  set (q := common_prefix_length row_keys (OrderedDict.keys rest)).
  assert (Hinit : OrderedDict.contains "init" (_cached_X (self s)) = true).
  { rewrite Hc. reflexivity. }
  assert (Hp : p = S q).
  { unfold p, q. rewrite Hc. reflexivity. }
  assert (Hp1 : p <= length ("init" :: row_keys)).
  { apply common_prefix_length_le. }
  assert (Hp2 : p <= length (_cached_X (self s))).
  { pose proof (common_prefix_length_le ("init" :: row_keys)
                  (OrderedDict.keys (_cached_X (self s)))) as [_ H].
    unfold OrderedDict.keys in H. rewrite length_map in H. exact H. }
  assert (Hcols : length cols = length row_keys).
  { unfold cols. rewrite length_firstn. lia. }
  replace (p - 1) with q by lia.
  unfold transform_with_caching_in.
  unfold bind at 1. unfold get at 1. fold cols.
  rewrite Hinit. simpl negb. cbv iota.
  unfold bind at 1. unfold bind at 1.
  rewrite (remove_unmatched_spec ("init" :: row_keys) s Hnd). fold p.
  unfold bind at 1. unfold get at 1.
  replace (length (OrderedDict.keys
                     (_cached_X (self (with_cache
                                         (firstn p (_cached_X (self s))) s)))))
    with p.
  2:{ simpl. unfold OrderedDict.keys. rewrite length_map, length_firstn. lia. }
  unfold bind at 1.
  rewrite del_heads_spec; [| exact Hp1 | simpl in *; lia].
  rewrite Hp. rewrite !skipn_cons. cbn [fst snd].
  reflexivity.
Qed.

End CacheWithCopy.

(** ** Lists of stages *)

Lemma combine_app {A B} (a1 a2 : list A) (b1 b2 : list B) :
  length a1 = length b1 ->
  combine (a1 ++ a2) (b1 ++ b2) = combine a1 b1 ++ combine a2 b2.
Proof.
  revert b1. induction a1 as [|x a1 IH]; intros [|y b1]; simpl;
    try discriminate; [reflexivity|].
  intros H. f_equal. apply IH. lia.
Qed.

Lemma combine_skipn {A B} (n : nat) (a : list A) (b : list B) :
  skipn n (combine a b) = combine (skipn n a) (skipn n b).
Proof.
  revert a b. induction n as [|n IH]; intros [|x a] [|y b]; simpl;
    try reflexivity.
  - now destruct (skipn n a).
  - apply IH.
Qed.

Lemma common_prefix_firstn (a b : list string) :
  firstn (common_prefix_length a b) a = firstn (common_prefix_length a b) b.
Proof.
  revert b. induction a as [|x a IH]; intros [|y b]; simpl; try reflexivity.
  destruct (String.eqb_spec x y) as [->|Hne]; simpl; [|reflexivity].
  now rewrite IH.
Qed.

Section StageLists.

Context {SK : Sklearn}.
Variable ft : Estimator -> Data -> Data.

Lemma length_chain (stages : list Estimator) (X : Data) :
  length (chain ft stages X) = length stages.
Proof.
  revert X. induction stages as [|e l IH]; intros X; simpl;
    [reflexivity | now rewrite IH].
Qed.

Lemma chain_app (a b : list Estimator) (X : Data) :
  chain ft (a ++ b) X = chain ft a X ++ chain ft b (apply_prefix ft a X).
Proof.
  revert X. induction a as [|e a IH]; intros X; simpl; [reflexivity|].
  now rewrite IH.
Qed.

Lemma chain_firstn (n : nat) (stages : list Estimator) (X : Data) :
  firstn n (chain ft stages X) = chain ft (firstn n stages) X.
Proof.
  revert n X. induction stages as [|e l IH]; intros [|n] X; simpl;
    try reflexivity.
  now rewrite IH.
Qed.

Lemma apply_prefix_app (a b : list Estimator) (X : Data) :
  apply_prefix ft (a ++ b) X = apply_prefix ft b (apply_prefix ft a X).
Proof. unfold apply_prefix. apply fold_left_app. Qed.

End StageLists.

(** ** The lineage invariant *)

Section CacheLineage.

Context {SK : Sklearn}.
Import OrderedDictFacts.

Variable ft : Estimator -> Data -> Data.
Hypothesis stages_pure : pure_stages ft.

Lemma build_steps_intro (row_key column : string) (e : Estimator)
    (rest : list (string * string)) (steps : list (string * Estimator))
    (s : state) :
  named_step column row_key s = Ok e s ->
  build_steps rest s = Ok steps s ->
  build_steps ((row_key, column) :: rest) s = Ok ((row_key, e) :: steps) s.
Proof. intros He Hrest. simpl. unfold bind. now rewrite He, Hrest. Qed.

Lemma build_steps_keys (pairs : list (string * string)) :
  forall (steps : list (string * Estimator)) (s : state),
    build_steps pairs s = Ok steps s -> map fst steps = map fst pairs.
Proof.
  induction pairs as [|[rk c] pairs IH]; intros steps s H.
  - simpl in H. apply ret_Ok in H as [-> _]. reflexivity.
  - apply build_steps_cons in H as (e & steps' & -> & _ & Hrest).
    simpl. f_equal. eapply IH. exact Hrest.
Qed.

Lemma build_steps_firstn (n : nat) (pairs : list (string * string)) :
  forall (steps : list (string * Estimator)) (s : state),
    build_steps pairs s = Ok steps s ->
    build_steps (firstn n pairs) s = Ok (firstn n steps) s.
Proof.
  revert n. induction pairs as [|[rk c] pairs IH]; intros n steps s H.
  - simpl in H. apply ret_Ok in H as [-> _]. now rewrite !firstn_nil.
  - apply build_steps_cons in H as (e & steps' & -> & He & Hrest).
    destruct n as [|n]; [reflexivity|].
    rewrite !firstn_cons. apply build_steps_intro; [exact He|].
    now apply IH.
Qed.

Lemma build_steps_skipn (n : nat) (pairs : list (string * string)) :
  forall (steps : list (string * Estimator)) (s : state),
    build_steps pairs s = Ok steps s ->
    build_steps (skipn n pairs) s = Ok (skipn n steps) s.
Proof.
  revert n. induction pairs as [|[rk c] pairs IH]; intros n steps s H.
  - simpl in H. apply ret_Ok in H as [-> _]. now rewrite !skipn_nil.
  - pose proof H as H0.
    apply build_steps_cons in H0 as (e & steps' & -> & He & Hrest).
    destruct n as [|n]; [exact H|].
    rewrite !skipn_cons. now apply IH.
Qed.

Lemma set_cached_X_same (p : Pipeliner) : set_cached_X (_cached_X p) p = p.
Proof. now destruct p. Qed.

(** The whole cache after the loop of [transform_X_from_last_cached], for
    stage names new to the cache. *)
Lemma extend_cache_lineage (pairs : list (string * string)) :
  forall (steps : list (string * Estimator)) (prev : string) (v : Data)
         (s : state),
    build_steps pairs s = Ok steps s ->
    OrderedDict.getitem prev (_cached_X (self s)) = Some v ->
    NoDup (OrderedDict.keys (_cached_X (self s)) ++ map fst pairs) ->
    exists w',
      extend_cache pairs prev s
      = Ok tt {| self := set_cached_X
                           (_cached_X (self s)
                            ++ combine (map fst pairs)
                                       (chain ft (map snd steps) v))
                           (self s);
                 world := w' |}.
Proof.
  induction pairs as [|[rk c] pairs IH]; intros steps prev v s Hsteps Hv Hnd.
  - simpl in Hsteps. apply ret_Ok in Hsteps as [-> _].
    exists (world s). simpl. rewrite app_nil_r, set_cached_X_same.
    now destruct s.
  - apply build_steps_cons in Hsteps as (e & steps' & -> & He & Hrest).
    destruct (stages_pure e v (world s)) as [w1 Hft].
    set (c1 := OrderedDict.setitem rk (ft e v) (_cached_X (self s))).
    set (s1 := {| self := set_cached_X c1 (self s); world := w1 |}).
    assert (Hfresh : ~ In rk (OrderedDict.keys (_cached_X (self s)))).
    { simpl in Hnd. apply NoDup_remove_2 in Hnd. intros Hin. apply Hnd.
      apply in_or_app. now left. }
    assert (Hc1 : c1 = _cached_X (self s) ++ [(rk, ft e v)]).
    { unfold c1. now apply setitem_fresh. }
    assert (Hstep : extend_cache ((rk, c) :: pairs) prev s
                    = extend_cache pairs rk s1).
    { simpl. unfold bind at 1. rewrite He.
      unfold bind at 1. unfold get at 1.
      unfold bind at 1. unfold subscript. rewrite Hv. unfold ret at 1.
      unfold bind at 1. unfold lift_world. rewrite Hft.
      unfold bind at 1. unfold modify_self. reflexivity. }
    destruct (IH steps' rk (ft e v) s1) as [w' Hrun].
    + eapply build_steps_frame; [|exact Hrest]. reflexivity.
    + simpl. rewrite Hc1. now apply getitem_app_fresh.
    + simpl. rewrite Hc1. unfold OrderedDict.keys. rewrite map_app. simpl.
      rewrite <- app_assoc. exact Hnd.
    + exists w'. rewrite Hstep, Hrun. simpl. rewrite Hc1.
      rewrite <- app_assoc. reflexivity.
Qed.

(** The last entry of a lineage holds the prefix applied from scratch. *)
Lemma lineage_last (X0 : Data) (steps : list (string * Estimator)) :
  NoDup ("init" :: map fst steps) ->
  let c := ("init", X0)
           :: combine (map fst steps) (chain ft (map snd steps) X0) in
  exists k,
    PyList.last_item (OrderedDict.keys c) = Some k /\
    OrderedDict.getitem k c = Some (apply_prefix ft (map snd steps) X0).
Proof.
  induction steps as [|[k e] steps' IH] using rev_ind; intros Hnd c.
  - exists "init". split; reflexivity.
  - exists k.
    set (c' := ("init", X0)
               :: combine (map fst steps') (chain ft (map snd steps') X0)).
    set (d := ft e (apply_prefix ft (map snd steps') X0)).
    assert (Hc : c = c' ++ [(k, d)]).
    { unfold c, c', d. rewrite !map_app. simpl map. rewrite chain_app.
      simpl chain.
      rewrite combine_app by (now rewrite length_chain, !length_map).
      reflexivity. }
    assert (Hd : apply_prefix ft (map snd (steps' ++ [(k, e)])) X0 = d).
    { rewrite map_app, apply_prefix_app. reflexivity. }
    rewrite Hc, Hd. split.
    + unfold OrderedDict.keys. rewrite map_app. apply last_item_app.
    + apply getitem_app_fresh.
      rewrite map_app in Hnd. rewrite app_comm_cons in Hnd.
      apply NoDup_remove_2 in Hnd. rewrite app_nil_r in Hnd.
      intros Hin. apply Hnd. unfold c', OrderedDict.keys in Hin.
      simpl in Hin. destruct Hin as [Hin | Hin]; [now left | right].
      rewrite fst_combine_firstn in Hin. eapply In_firstn. exact Hin.
Qed.

End CacheLineage.

Section CacheEquivalence.

Context {SK : Sklearn}.
Import OrderedDictFacts.

Variable ft : Estimator -> Data -> Data.
Hypothesis stages_pure : pure_stages ft.

Lemma build_steps_row (row_keys : list string) (cols : list string)
    (steps : list (string * Estimator)) (s : state) :
  length cols = length row_keys ->
  build_steps (PyList.zip row_keys cols) s = Ok steps s ->
  map fst steps = row_keys /\ length steps = length row_keys.
Proof.
  intros Hlen H. apply build_steps_keys in H.
  unfold PyList.zip in H. rewrite fst_combine_firstn, Hlen, firstn_all in H.
  split; [exact H|]. rewrite <- H. now rewrite length_map.
Qed.

(** From a cache that is the lineage of the first [q] stages of a row,
    extending it by the remaining stages and reading the last entry gives
    the whole prefix applied from scratch and the lineage of the row. *)
Lemma finish_from_prefix (X0 : Data) (y : Labels) (row_keys : list string)
    (steps : list (string * Estimator)) (q : nat) (s1 : state) :
  let cols := firstn (length row_keys) (columns (plan_table (self s1))) in
  NoDup ("init" :: row_keys) ->
  length row_keys <= length (columns (plan_table (self s1))) ->
  build_steps (PyList.zip row_keys cols) s1 = Ok steps s1 ->
  q <= length row_keys ->
  _cached_X (self s1)
  = ("init", X0) :: combine (map fst (firstn q steps))
                            (chain ft (map snd (firstn q steps)) X0) ->
  exists s',
    (transform_X_from_last_cached (skipn q row_keys) (skipn q cols) ;;;
     s <- get ;;
     last_cached_key <- last_of (OrderedDict.keys (_cached_X (self s))) ;;
     Xc <- subscript last_cached_key (_cached_X (self s)) ;;
     ret (Xc, y)) s1
    = Ok (apply_prefix ft (map snd steps) X0, y) s' /\
    lineage ft X0 steps s'.
Proof.
  intros cols Hnd Hlen Hsteps Hq Hcache.
  assert (Hcols : length cols = length row_keys).
  { unfold cols. rewrite length_firstn. lia. }
  destruct (build_steps_row _ _ Hcols Hsteps) as [Hkeys Hlsteps].
  set (sa := firstn q steps) in *. set (sb := skipn q steps).
  assert (Hsplit : steps = sa ++ sb).
  { unfold sa, sb. now rewrite firstn_skipn. }
  assert (Hka : map fst sa = firstn q row_keys).
  { unfold sa. now rewrite <- firstn_map, Hkeys. }
  assert (Hkb : map fst sb = skipn q row_keys).
  { unfold sb. now rewrite <- skipn_map, Hkeys. }
  assert (Hnda : NoDup ("init" :: map fst sa)).
  { rewrite Hka. pose proof Hnd as Hnd'.
    apply NoDup_cons_iff in Hnd' as [Hi Hn]. constructor.
    - intros Hin. apply Hi. eapply In_firstn. exact Hin.
    - now apply NoDup_firstn. }
  destruct (@lineage_last _ ft X0 sa Hnda) as (k & Hlast & Hget).
  rewrite <- Hcache in Hlast, Hget.
  assert (Hsb : build_steps (PyList.zip (skipn q row_keys) (skipn q cols)) s1
                = Ok sb s1).
  { unfold PyList.zip. rewrite <- combine_skipn.
    now apply build_steps_skipn. }
  assert (Hpairs : map fst (PyList.zip (skipn q row_keys) (skipn q cols))
                   = skipn q row_keys).
  { unfold PyList.zip. rewrite fst_combine_firstn.
    apply firstn_all2. rewrite !length_skipn. lia. }
  destruct (@extend_cache_lineage _ ft stages_pure
              (PyList.zip (skipn q row_keys) (skipn q cols)) sb k
              (apply_prefix ft (map snd sa) X0) s1 Hsb Hget)
    as [w' Hrun].
  { rewrite Hcache, Hpairs. simpl.
    unfold OrderedDict.keys. rewrite fst_combine_firstn, length_chain.
    rewrite length_map, <- (length_map fst), firstn_all, Hka.
    rewrite firstn_skipn. exact Hnd. }
  rewrite Hpairs, Hcache in Hrun.
  set (c2 := ("init", X0)
             :: combine (map fst steps) (chain ft (map snd steps) X0)).
  assert (Hc2 : (("init", X0) :: combine (map fst sa) (chain ft (map snd sa) X0))
                ++ combine (skipn q row_keys)
                           (chain ft (map snd sb)
                                  (apply_prefix ft (map snd sa) X0))
                = c2).
  { unfold c2.
    replace (map fst steps) with (map fst sa ++ map fst sb)
      by (now rewrite <- map_app, <- Hsplit).
    replace (map snd steps) with (map snd sa ++ map snd sb)
      by (now rewrite <- map_app, <- Hsplit).
    rewrite chain_app.
    rewrite combine_app by (now rewrite length_chain, !length_map).
    now rewrite Hkb. }
  rewrite Hc2 in Hrun.
  set (s2 := {| self := set_cached_X c2 (self s1); world := w' |}) in *.
  assert (Hnds : NoDup ("init" :: map fst steps)) by now rewrite Hkeys.
  destruct (@lineage_last _ ft X0 steps Hnds) as (k2 & Hlast2 & Hget2).
  fold c2 in Hlast2, Hget2.
  exists s2. split.
  - unfold bind at 1. unfold transform_X_from_last_cached.
    unfold bind at 1. unfold get at 1.
    unfold bind at 1. unfold last_of at 1. rewrite Hlast. unfold ret at 1.
    rewrite Hrun.
    unfold bind at 1. unfold get at 1.
    unfold bind at 1. unfold last_of.
    change (_cached_X (self s2)) with c2. rewrite Hlast2. unfold ret at 1.
    unfold bind, subscript. rewrite Hget2. reflexivity.
  - unfold lineage. change (_cached_X (self s2)) with c2.
    change (plan_table (self s2)) with (plan_table (self s1)).
    split; [reflexivity|]. split; [|split; [exact Hnds | lia]].
    rewrite Hkeys, Hlsteps. fold cols.
    eapply build_steps_frame; [|exact Hsteps]. reflexivity.
Qed.

(** The first call establishes the lineage of its row, in any namespace. *)
Lemma first_call_lineage (G : odict binding) (X : Data) (y : Labels)
    (row_keys : list string) (steps : list (string * Estimator)) (s : state) :
  _cached_X (self s) = OrderedDict.empty ->
  NoDup ("init" :: row_keys) ->
  length row_keys <= length (columns (plan_table (self s))) ->
  build_steps
    (PyList.zip row_keys
       (firstn (length row_keys) (columns (plan_table (self s))))) s
  = Ok steps s ->
  exists s',
    transform_with_caching_in G X y row_keys s
    = Ok (apply_prefix ft (map snd steps) X, y) s' /\
    lineage ft X steps s'.
Proof.
  intros Hempty Hnd Hlen Hsteps.
  set (s1 := with_cache [("init", X)] s).
  destruct (@finish_from_prefix X y row_keys steps 0 s1) as (s' & Hrun & Hlin).
  - exact Hnd.
  - exact Hlen.
  - eapply build_steps_frame; [|exact Hsteps]. reflexivity.
  - lia.
  - reflexivity.
  - exists s'. split; [|exact Hlin]. rewrite <- Hrun.
    unfold transform_with_caching_in.
    unfold bind at 1. unfold get at 1. rewrite Hempty. simpl negb. cbv iota.
    unfold bind at 1. unfold bind at 1. unfold modify_self at 1.
    rewrite Hempty. reflexivity.
Qed.

Variable G : odict binding.
Hypothesis cp_bound : OrderedDict.getitem "cp" G = Some (PyModule "copy").

(** With [cp] bound, a later call returns the row's prefix applied from
    scratch to the input the cache was started with, and leaves the
    lineage of the row. *)
Theorem later_call_lineage (X0 X : Data) (y : Labels)
    (prev steps : list (string * Estimator)) (row_keys : list string)
    (s : state) :
  lineage ft X0 prev s ->
  NoDup ("init" :: row_keys) ->
  length row_keys <= length (columns (plan_table (self s))) ->
  build_steps
    (PyList.zip row_keys
       (firstn (length row_keys) (columns (plan_table (self s))))) s
  = Ok steps s ->
  exists s',
    transform_with_caching_in G X y row_keys s
    = Ok (apply_prefix ft (map snd steps) X0, y) s' /\
    lineage ft X0 steps s'.
Proof.
  intros (Hc & Hprev & Hndp & Hlenp) Hnd Hlen Hsteps.
  set (plan_cols := columns (plan_table (self s))) in *.
  set (cols := firstn (length row_keys) plan_cols) in *.
  set (ksp := map fst prev) in *.
  set (q := common_prefix_length row_keys ksp).
  assert (Hcols : length cols = length row_keys).
  { unfold cols. rewrite length_firstn. lia. }
  destruct (build_steps_row _ _ Hcols Hsteps) as [Hkeys Hlsteps].
  assert (Hkcache : OrderedDict.keys (_cached_X (self s)) = "init" :: ksp).
  { rewrite Hc. simpl. f_equal. unfold OrderedDict.keys.
    rewrite fst_combine_firstn, length_chain.
    rewrite length_map, <- (length_map fst). apply firstn_all. }
  assert (Hq : q <= length row_keys /\ q <= length prev).
  { destruct (common_prefix_length_le row_keys ksp) as [H1 H2].
    unfold ksp in H2. rewrite length_map in H2. auto. }
  destruct Hq as [Hq1 Hq2].
  (* the stages of the common prefix are those of the previous row *)
  assert (Hsame : firstn q prev = firstn q steps).
  { pose proof Hprev as Hp. pose proof Hsteps as Hs.
    apply (build_steps_firstn q) in Hp. apply (build_steps_firstn q) in Hs.
    unfold PyList.zip, cols in Hp, Hs.
    rewrite combine_firstn, firstn_firstn in Hp, Hs.
    replace (Init.Nat.min q (length prev)) with q in Hp by lia.
    replace (Init.Nat.min q (length row_keys)) with q in Hs by lia.
    assert (Hk : firstn q ksp = firstn q row_keys).
    { unfold q. symmetry. apply common_prefix_firstn. }
    rewrite Hk, Hs in Hp. now inversion Hp. }
  rewrite (@transform_with_caching_resolves _ G cp_bound X y row_keys s X0 _ Hc);
    [| rewrite Hkcache; exact Hndp | exact Hlen].
  unfold resolve.
  unfold bind at 1. unfold get at 1. cbv beta zeta.
  unfold bind at 1. unfold put at 1.
  rewrite Hkcache.
  change (common_prefix_length ("init" :: row_keys) ("init" :: ksp))
    with (S q).
  replace (S q - 1) with q by lia.
  fold plan_cols cols.
  set (s1 := with_cache (firstn (S q) (_cached_X (self s))) s).
  apply (@finish_from_prefix X0 y row_keys steps q s1).
  - exact Hnd.
  - exact Hlen.
  - eapply build_steps_frame; [|exact Hsteps]. reflexivity.
  - exact Hq1.
  - change (_cached_X (self s1)) with (firstn (S q) (_cached_X (self s))).
    rewrite Hc, firstn_cons. f_equal.
    rewrite combine_firstn, chain_firstn. unfold ksp.
    rewrite !firstn_map, Hsame. reflexivity.
Qed.

End CacheEquivalence.

(** * When the constructor returns *)

Section Construction.

Context {SK : Sklearn}.
Import OrderedDictFacts.

Lemma filter_absent_self (l : list string) :
  filter (fun c => negb (PyList.mem c l)) l = [].
Proof.
  assert (H : forall l', (forall c, In c l' -> In c l) ->
                         filter (fun c => negb (PyList.mem c l)) l' = []).
  { induction l' as [|c l' IH]; intros Hin; simpl; [reflexivity|].
    assert (Hc : PyList.mem c l = true) by (apply mem_In, Hin; now left).
    rewrite Hc. simpl. apply IH. intros c' Hc'. apply Hin. now right. }
  apply H. auto.
Qed.

(** The constructor returns an object as soon as one candidate row
    survives the banned combos. *)
Lemma init_returns (steps : list (string * list (string * Estimator)))
    (gcv ecv : CV) (pg : odict (odict PyVal))
    (banned : list (string * string)) :
  filter (fun r => negb (existsb (both_present r) banned))
         (PyList.product (column_keys_of (ordered_steps steps))) <> [] ->
  exists p, __init__ steps gcv ecv pg banned = inr p.
Proof.
  intros Hkept. unfold __init__. rewrite plan_rows_of_spec.
  set (st := ordered_steps steps) in *.
  set (kept := filter _ _) in *.
  destruct kept as [|r kept'] eqn:Ek; [congruence|].
  assert (Hr : In r (PyList.product (column_keys_of st))).
  { assert (Hin : In r (r :: kept')) by now left.
    rewrite <- Ek in Hin. unfold kept in Hin. now apply filter_In in Hin. }
  apply product_row_length in Hr. rewrite column_keys_length in Hr.
  unfold Frame.getitem_columns. simpl.
  rewrite row_of_plan_zip by apply NoDup_step_names.
  rewrite keys_combine by congruence.
  rewrite filter_absent_self. eauto.
Qed.

(** With every candidate row banned (or a step without variant) and at
    least one step, selecting the step columns of the empty frame is a
    KeyError: no object is built. *)
Lemma init_raises (steps : list (string * list (string * Estimator)))
    (gcv ecv : CV) (pg : odict (odict PyVal))
    (banned : list (string * string)) :
  filter (fun r => negb (existsb (both_present r) banned))
         (PyList.product (column_keys_of (ordered_steps steps))) = [] ->
  ordered_steps steps <> [] ->
  exists c, __init__ steps gcv ecv pg banned = inl (KeyError c).
Proof.
  intros Hkept Hsteps. unfold __init__. rewrite plan_rows_of_spec, Hkept.
  unfold Frame.getitem_columns. simpl.
  destruct (ordered_steps steps) as [|[c v] st]; [congruence|].
  simpl. eauto.
Qed.

End Construction.

(** * The properties on the test double *)

Section Scenarios.

Import Demo.

Lemma append_digit_pure : pure_stages append_digit.
Proof. intros e d w. eexists. reflexivity. Qed.

(** Scenario 1 of the specification: Scaler x Classifier with
    (standard, SVC) banned. *)
Lemma plan_table_scenario :
  exists p,
    __init__ two_steps (seeded 0) (seeded 1) [] [("standard", "SVC")] = inr p /\
    map (@OrderedDict.values string) (rows (plan_table p))
    = [["minmax"; "LR"]; ["minmax"; "SVC"]; ["standard"; "LR"]] /\
    length (rows (plan_table p)) <= 4.
Proof.
  eexists. split; [vm_compute; reflexivity|].
  edestruct (@plan_table_is_filtered_product counting two_steps (seeded 0)
               (seeded 1) [] [("standard", "SVC")])
    as (_ & _ & _ & Htable & _ & Hle & _); [vm_compute; reflexivity|].
  split; [rewrite Htable; vm_compute; reflexivity|].
  rewrite length_map in Hle. exact Hle.
Defined.

(** SVC declares no grid in [pipe3]. *)
Lemma grid_search_sentinel_scenario :
  PyList.last_item ["SVC"] = Some "SVC" /\
  OrderedDict.contains "SVC" (param_grid (self (fresh pipe3))) = false /\
  exists results s',
    get_grid_search_results 7%Z 0%Z ["SVC"] "accuracy" (fresh pipe3)
    = Ok results s' /\
    results = [("grid_accuracy_mean", CStr "NaN");
               ("grid_accuracy_std", CStr "NaN");
               ("grid_accuracy_best_params", CStr "NaN")] /\
    OrderedDict.getitem "SVCaccuracy" (best_params (self s')) = Some [].
Proof.
  split; [reflexivity|]. split; [reflexivity|].
  destruct (@grid_search_sentinel counting 7%Z 0%Z ["SVC"] "accuracy" "SVC"
              (fresh pipe3))
    as (results & s' & Hrun & Hres & _ & Hstore & _);
    [reflexivity | reflexivity |].
  exists results, s'. split; [exact Hrun|]. split; [exact Hres|]. exact Hstore.
Defined.

(** Scenario 4 of the specification: three repeats. *)
Lemma get_scores_restores_seed_scenario :
  (0 < 3)%Z /\
  exists v s',
    get_scores 71%Z 0%Z ["LR"] "accuracy" (Some 3%Z) searched = Ok v s' /\
    eval_cv (self s') = eval_cv (self searched).
Proof.
  split; [lia|]. eexists. eexists. split; [vm_compute; reflexivity|].
  eapply (@get_scores_restores_seed counting 71%Z 0%Z ["LR"] "accuracy" 3%Z);
    [lia | vm_compute; reflexivity].
Defined.

Lemma get_scores_repeat_scores_scenario :
  (0 < 3)%Z /\
  exists v s',
    get_scores 71%Z 0%Z ["LR"] "accuracy" (Some 3%Z) searched = Ok v s' /\
    exists l, v = ScoreList l /\ length l = 3.
Proof.
  split; [lia|]. eexists. eexists. split; [vm_compute; reflexivity|].
  edestruct (@get_scores_repeat_scores counting 71%Z 0%Z ["LR"] "accuracy" 3%Z
               searched)
    as (l & _ & _ & _ & _ & Hv & Hlen & _); [lia | vm_compute; reflexivity |].
  exists l. split; [exact Hv | exact Hlen].
Defined.

(** The first row of [pipe3] resolves; the next call stops. *)
Lemma calls_after_the_first_raise_scenario :
  exists r,
    transform_with_caching 7%Z 0%Z ["minmax"; "pca"] (fresh pipe3)
    = Ok r resolved /\
    transform_with_caching 7%Z 0%Z ["minmax"; "kbest"] resolved
    = Raise (NameError "cp") resolved.
Proof.
  eexists. split; [vm_compute; reflexivity|].
  eapply (@calls_after_the_first_raise counting 7%Z 0%Z ["minmax"; "pca"]
            _ (fresh pipe3) resolved).
  vm_compute. reflexivity.
Defined.

Lemma first_call_equals_from_scratch_scenario :
  exists s',
    transform_with_caching 7%Z 0%Z ["minmax"; "pca"] (fresh pipe3)
    = Ok (713%Z, 0%Z) s'.
Proof.
  apply (@first_call_equals_from_scratch counting append_digit 7%Z 0%Z
           ["minmax"; "pca"]
           [("minmax", ("minmax", 1%Z)); ("pca", ("pca", 3%Z))] (fresh pipe3)).
  - exact append_digit_pure.
  - reflexivity.
  - repeat constructor; simpl; intuition discriminate.
  - simpl; intuition discriminate.
  - vm_compute. reflexivity.
Defined.

(** C2. Rows (minmax, pca) and (minmax, kbest) share the cacheable prefix
    of length 1. Processed in order, the first resolves with one
    [fit_transform] of minmax and one of pca; the second raises the
    NameError of [cp.copy] before any stage is touched, so kbest, at
    position 1 of the second row, is not invoked for it. *)
Theorem second_row_stage_not_invoked :
  exists s1,
    transform_with_caching 7%Z 0%Z ["minmax"; "pca"] (fresh pipe3)
    = Ok (713%Z, 0%Z) s1 /\
    world s1 = [Fitted "minmax"; Fitted "pca"] /\
    transform_with_caching 7%Z 0%Z ["minmax"; "kbest"] s1
    = Raise (NameError "cp") s1 /\
    ~ In (Fitted "kbest") (world s1).
Proof.
  eexists. split; [vm_compute; reflexivity|].
  split; [reflexivity|]. split; [vm_compute; reflexivity|].
  simpl. intuition discriminate.
Qed.

(** C3 as stated fails already on an empty cache: in [pipe_aba] the first
    and the third step both have a variant [a]; the third stage's output
    overwrites the entry of the first in place, and the call returns the
    entry of [b], the output of the second stage. *)
Lemma repeated_name_returns_inner_entry :
  pure_stages append_digit /\
  exists steps d s',
    build_steps (PyList.zip ["a"; "b"; "a"] (columns (plan_table pipe_aba)))
                (fresh pipe_aba) = Ok steps (fresh pipe_aba) /\
    transform_with_caching 7%Z 0%Z ["a"; "b"; "a"] (fresh pipe_aba)
    = Ok (d, 0%Z) s' /\
    d <> apply_prefix append_digit (map snd steps) 7%Z.
Proof.
  split; [exact append_digit_pure|].
  eexists. eexists. eexists.
  split; [vm_compute; reflexivity|]. split; [vm_compute; reflexivity|].
  vm_compute. discriminate.
Qed.

(** Banning the only candidate row: the constructor raises. *)
Example everything_banned :
  __init__ [("Scaler", [("minmax", ("minmax", 1%Z))]);
            ("Classifier", [("LR", ("LR", 5%Z))])]
           (seeded 0) (seeded 1) [] [("minmax", "LR")]
  = inl (KeyError "Scaler").
Proof. reflexivity. Qed.

Lemma cp_bound_with_cp :
  OrderedDict.getitem "cp" globals_with_cp = Some (PyModule "copy").
Proof. reflexivity. Qed.

(** Scenario 2 of the specification in the namespace with [cp] bound:
    the second row reuses the entry of minmax and applies kbest only. *)
Example shared_prefix_reused_when_cp_bound :
  exists s2,
    transform_with_caching_in globals_with_cp 7%Z 0%Z ["minmax"; "kbest"]
                              resolved
    = Ok (714%Z, 0%Z) s2 /\
    world s2 = [Fitted "minmax"; Fitted "pca"; Fitted "kbest"] /\
    OrderedDict.keys (_cached_X (self s2)) = ["init"; "minmax"; "kbest"].
Proof. eexists. split; [vm_compute; reflexivity|]. split; reflexivity. Qed.

(** Scenario 3 in the same namespace: a different first name evicts the
    whole chain and both positions are recomputed. *)
Example changed_prefix_recomputed_when_cp_bound :
  exists s2,
    transform_with_caching_in globals_with_cp 7%Z 0%Z ["standard"; "pca"]
                              resolved
    = Ok (723%Z, 0%Z) s2 /\
    world s2 = [Fitted "minmax"; Fitted "pca"; Fitted "standard"; Fitted "pca"] /\
    OrderedDict.keys (_cached_X (self s2)) = ["init"; "standard"; "pca"].
Proof. eexists. split; [vm_compute; reflexivity|]. split; reflexivity. Qed.

(** The colliding keys of [pipe_abc]: the search for the suffix [ab], [c]
    stores under 'abcaccuracy', and [get_scores] for the suffix [a], [bc]
    sets these parameters on the stage [bc]. *)
Example colliding_suffixes_share_parameters :
  exists r s1 v s2,
    get_grid_search_results 7%Z 0%Z ["ab"; "c"] "accuracy" (fresh pipe_abc)
    = Ok r s1 /\
    best_params (self s1) = [("abcaccuracy", [("C", 9%Z)])] /\
    get_scores 7%Z 0%Z ["a"; "bc"] "accuracy" None s1 = Ok v s2 /\
    world s2 = [ParamsSet "bc" [("C", 9%Z)]].
Proof.
  eexists. eexists. eexists. eexists.
  split; [vm_compute; reflexivity|]. split; [reflexivity|].
  split; [vm_compute; reflexivity|]. reflexivity.
Qed.

End Scenarios.

(** * Further properties of the plan builder *)

Lemma NoDup_flat_map_disjoint {A B} (f : A -> list B) (l : list A) :
  NoDup l ->
  (forall x, In x l -> NoDup (f x)) ->
  (forall x y b, In x l -> In y l -> In b (f x) -> In b (f y) -> x = y) ->
  NoDup (flat_map f l).
Proof.
  induction l as [|x l IH]; intros Hnd Hf Hdis; simpl; [constructor|].
  inversion Hnd as [|? ? Hx Hnd']; subst.
  apply NoDup_app.
  - apply Hf. now left.
  - apply IH; [assumption | |].
    + intros y Hy. apply Hf. now right.
    + intros y z b Hy Hz. apply Hdis; now right.
  - intros b Hb Hb'. apply in_flat_map in Hb' as (y & Hy & Hby).
    assert (x = y) by (apply (Hdis x y b); [now left | now right | assumption | assumption]).
    subst y. contradiction.
Qed.

Lemma product_NoDup {A} (ls : list (list A)) :
  Forall (@NoDup A) ls -> NoDup (PyList.product ls).
Proof.
  induction 1 as [|l ls Hl Hls IH]; simpl.
  - constructor; [intros [] | constructor].
  - apply NoDup_flat_map_disjoint; [exact Hl | |].
    + intros x _. clear -IH. induction IH as [|r rs Hr _ IHrs]; simpl;
        constructor; [|exact IHrs].
      intros Hin. apply in_map_iff in Hin as (r' & E & Hr').
      inversion E; subst. contradiction.
    + intros x y b _ _ Hx Hy.
      apply in_map_iff in Hx as (r & <- & _).
      apply in_map_iff in Hy as (r' & E & _). now inversion E.
Qed.

Section PlanBuilderMore.

Context {SK : Sklearn}.
Import OrderedDictFacts.

Lemma column_keys_NoDup (steps : list (string * list (string * Estimator))) :
  Forall (@NoDup string) (column_keys_of (ordered_steps steps)).
Proof.
  unfold column_keys_of, ordered_steps. apply Forall_forall. intros ks Hks.
  apply in_map_iff in Hks as (c & <- & _).
  rewrite getitem_map_values.
  destruct (OrderedDict.getitem c (OrderedDict.of_pairs steps)); simpl;
    [apply NoDup_keys_of_pairs | constructor].
Qed.

(** X1. The constructor returns an object exactly when some candidate row
    survives the banned combos; when none does, it raises the KeyError of
    selecting the step columns from the frame of no record. *)
Theorem constructor_returns_iff_row_survives
    (steps : list (string * list (string * Estimator)))
    (gcv ecv : CV) (pg : odict (odict PyVal))
    (banned : list (string * string)) :
  let survivors :=
    filter (fun r => negb (existsb (both_present r) banned))
           (PyList.product (column_keys_of (ordered_steps steps))) in
  ((exists p, __init__ steps gcv ecv pg banned = inr p) <-> survivors <> []) /\
  (survivors = [] -> exists c, __init__ steps gcv ecv pg banned = inl (KeyError c)).
Proof.
  intros survivors.
  assert (Hraise : survivors = [] ->
                   exists c, __init__ steps gcv ecv pg banned = inl (KeyError c)).
  { intros Hnone. apply init_raises; [exact Hnone|].
    intros Hempty. unfold survivors in Hnone. rewrite Hempty in Hnone.
    simpl in Hnone. destruct (existsb (both_present []) banned) eqn:E;
      [|discriminate].
    apply existsb_exists in E as (bc & _ & E). discriminate. }
  split; [|exact Hraise]. split.
  - intros [p Hp] Hnone. destruct (Hraise Hnone) as [c Hc]. congruence.
  - apply init_returns.
Qed.

Lemma build_steps_columns (s : state) (cols : list string) :
  forall (names : list string),
    Forall2 (@In string) names
            (map (fun column =>
                    match OrderedDict.getitem column (named_steps (self s)) with
                    | Some d => OrderedDict.keys d
                    | None => []
                    end) cols) ->
    exists stages,
      build_steps (PyList.zip names cols) s = Ok stages s /\
      map fst stages = names.
Proof.
  induction cols as [|c cols IH]; intros names H; simpl in H.
  - inversion H; subst. exists []. split; reflexivity.
  - inversion H as [|name ks names' kss Hin Hrest]; subst.
    destruct (OrderedDict.getitem c (named_steps (self s))) as [d|] eqn:Ed;
      [|destruct Hin].
    apply In_getitem in Hin as [e He].
    destruct (IH names' Hrest) as (stages & Hb & Hk).
    exists ((name, e) :: stages). split; [|simpl; now rewrite Hk].
    simpl. unfold bind, named_step, bind, get, subscript.
    rewrite Ed. unfold ret. rewrite He. now rewrite Hb.
Qed.

(** X2. Every row of the plan table of a constructed object resolves: for
    each column the row's name is a variant of that column's step, so
    looking up the stages of the whole row, of any leading part of it
    under the leading columns, and of any trailing part under the
    trailing columns, raises no KeyError. *)
Theorem plan_rows_resolve
    (steps : list (string * list (string * Estimator)))
    (gcv ecv : CV) (pg : odict (odict PyVal))
    (banned : list (string * string)) (p : Pipeliner) (s : state)
    (row : odict string) :
  __init__ steps gcv ecv pg banned = inr p ->
  named_steps (self s) = named_steps p ->
  plan_table (self s) = plan_table p ->
  In row (rows (plan_table p)) ->
  let names := OrderedDict.values row in
  let cols := columns (plan_table p) in
  exists stages,
    build_steps (PyList.zip names cols) s = Ok stages s /\
    map fst stages = names /\
    length names = length cols /\
    forall k, k <= length names ->
      build_steps
        (PyList.zip (firstn k names)
                    (firstn (length (firstn k names))
                            (columns (plan_table (self s))))) s
      = Ok (firstn k stages) s /\
      (k < length names ->
       build_steps
         (PyList.zip (skipn k names)
                     (PyList.last_n (length (skipn k names))
                                    (columns (plan_table (self s))))) s
       = Ok (skipn k stages) s).
Proof.
  intros Hinit Hns Hpt Hrow names cols.
  destruct (init_plan_table _ _ _ _ _ Hinit) as (_ & Hcols & Hrows).
  fold cols in Hcols. rewrite <- Hcols in Hrows.
  rewrite Hrows in Hrow. apply in_map_iff in Hrow as (rk & <- & Hrk).
  apply filter_In in Hrk as [Hrk _].
  pose proof (product_row_length _ _ Hrk) as Hlen.
  rewrite column_keys_length, <- Hcols in Hlen.
  assert (Hnames : names = rk).
  { unfold names. apply values_combine. now rewrite Hlen. }
  apply product_In in Hrk. unfold column_keys_of in Hrk.
  rewrite <- Hcols, <- Hns in Hrk.
  apply (build_steps_columns s) in Hrk as (stages & Hb & Hk).
  exists stages. rewrite Hnames.
  split; [exact Hb|]. split; [exact Hk|]. split; [exact Hlen|].
  intros k Hk'. rewrite Hpt. fold cols. split.
  - rewrite length_firstn, Nat.min_l by exact Hk'.
    unfold PyList.zip. rewrite <- combine_firstn.
    now apply build_steps_firstn.
  - intros Hlt. rewrite length_skipn. unfold PyList.last_n.
    destruct (length rk - k) eqn:E; [lia|]. rewrite <- E.
    replace (length cols - (length rk - k)) with k by lia.
    unfold PyList.zip. rewrite <- combine_skipn.
    now apply build_steps_skipn.
Qed.

Lemma combine_inj_r {A B} (a : list A) (b b' : list B) :
  length a = length b -> length a = length b' ->
  combine a b = combine a b' -> b = b'.
Proof.
  revert b b'. induction a as [|x a IH]; intros [|y b] [|y' b']; simpl;
    try discriminate; [reflexivity|].
  intros H H' E. inversion E; subst. f_equal. apply IH; lia || assumption.
Qed.

(** X3. In the plan table of a constructed object the column names are
    pairwise distinct and so are the rows: no pipeline is planned twice. *)
Theorem plan_rows_distinct
    (steps : list (string * list (string * Estimator)))
    (gcv ecv : CV) (pg : odict (odict PyVal))
    (banned : list (string * string)) (p : Pipeliner) :
  __init__ steps gcv ecv pg banned = inr p ->
  NoDup (columns (plan_table p)) /\ NoDup (rows (plan_table p)).
Proof.
  intros Hinit.
  destruct (init_plan_table _ _ _ _ _ Hinit) as (Hns & Hcols & Hrows).
  split.
  - rewrite Hcols, Hns. apply NoDup_step_names.
  - rewrite Hrows.
    assert (Hnd : NoDup (filter (fun r => negb (existsb (both_present r) banned))
                                (PyList.product (column_keys_of (named_steps p))))).
    { apply NoDup_filter. rewrite Hns. apply product_NoDup, column_keys_NoDup. }
    assert (Hlen : forall r,
               In r (filter (fun r => negb (existsb (both_present r) banned))
                            (PyList.product (column_keys_of (named_steps p)))) ->
               length (OrderedDict.keys (named_steps p)) = length r).
    { intros r Hr. apply filter_In in Hr as [Hr _].
      apply product_row_length in Hr. now rewrite Hr, column_keys_length. }
    revert Hnd Hlen.
    generalize (filter (fun r => negb (existsb (both_present r) banned))
                       (PyList.product (column_keys_of (named_steps p)))).
    intros l Hnd Hlen. induction Hnd as [|r l Hr Hnd IH]; simpl; constructor.
    + intros Hin. apply in_map_iff in Hin as (r' & E & Hr').
      apply Hr. apply combine_inj_r in E.
      * now subst.
      * apply Hlen. now right.
      * apply Hlen. now left.
    + apply IH. intros r' Hr'. apply Hlen. now right.
Qed.

Lemma init_ext (steps : list (string * list (string * Estimator)))
    (gcv ecv : CV) (pg : odict (odict PyVal))
    (banned banned' : list (string * string)) :
  (forall r, In r (PyList.product (column_keys_of (ordered_steps steps))) ->
             existsb (both_present r) banned = existsb (both_present r) banned') ->
  __init__ steps gcv ecv pg banned = __init__ steps gcv ecv pg banned'.
Proof.
  intros H. unfold __init__. rewrite !plan_rows_of_spec.
  rewrite (filter_ext_in _ (fun r => negb (existsb (both_present r) banned'))).
  - reflexivity.
  - intros r Hr. now rewrite H.
Qed.

(** X4. A banned combo is unordered: writing every combo with its two
    names swapped builds the same object. *)
Theorem banned_combos_unordered
    (steps : list (string * list (string * Estimator)))
    (gcv ecv : CV) (pg : odict (odict PyVal))
    (banned : list (string * string)) :
  __init__ steps gcv ecv pg (map (fun bc => (snd bc, fst bc)) banned)
  = __init__ steps gcv ecv pg banned.
Proof.
  apply init_ext. intros r _.
  induction banned as [|[a b] banned IH]; simpl; [reflexivity|].
  rewrite IH. f_equal. unfold both_present. simpl. apply andb_comm.
Qed.

(** X5. A banned combo one of whose names is no variant of any step never
    matches: it can be added anywhere in the list without changing the
    object built, and without an error. *)
Theorem unknown_banned_name_is_ignored
    (steps : list (string * list (string * Estimator)))
    (gcv ecv : CV) (pg : odict (odict PyVal))
    (before after : list (string * string)) (bc : string * string) :
  (~ In (fst bc) (concat (column_keys_of (ordered_steps steps))) \/
   ~ In (snd bc) (concat (column_keys_of (ordered_steps steps)))) ->
  __init__ steps gcv ecv pg (before ++ bc :: after)
  = __init__ steps gcv ecv pg (before ++ after).
Proof.
  intros Hunknown. apply init_ext. intros r Hr.
  rewrite !existsb_app. simpl.
  assert (Hsub : forall x, In x r ->
                           In x (concat (column_keys_of (ordered_steps steps)))).
  { apply product_In in Hr. clear Hunknown.
    induction Hr as [|y ks r' kss Hy Hrest IH]; intros x Hx; [destruct Hx|].
    simpl. apply in_or_app. destruct Hx as [<- | Hx]; [now left | right; auto]. }
  assert (Hno : both_present r bc = false).
  { unfold both_present.
    destruct (PyList.mem (fst bc) r) eqn:Ea; [|reflexivity].
    destruct (PyList.mem (snd bc) r) eqn:Eb; [|reflexivity].
    apply mem_In in Ea, Eb. exfalso.
    destruct Hunknown as [H | H]; apply H; now apply Hsub. }
  now rewrite Hno.
Qed.

End PlanBuilderMore.

(** * Invariants of a run, returned or raised *)

Lemma preserves_bind {S A B} (I : S -> Prop) (m : M S A) (k : A -> M S B) :
  preserves I m -> (forall a, preserves I (k a)) -> preserves I (bind m k).
Proof.
  intros Hm Hk s Hs. unfold bind. specialize (Hm s Hs).
  destruct (m s) as [a s1|e s1]; simpl in *; [now apply Hk | exact Hm].
Qed.

Lemma reads_only_preserves {S A} (I : S -> Prop) (m : M S A) :
  reads_only m -> preserves I m.
Proof. intros H s Hs. now rewrite H. Qed.

Lemma reads_only_bind {S A B} (m : M S A) (k : A -> M S B) :
  reads_only m -> (forall a, reads_only (k a)) -> reads_only (bind m k).
Proof.
  intros Hm Hk s. unfold bind. specialize (Hm s).
  destruct (m s) as [a s1|e s1]; simpl in *; subst; [apply Hk | reflexivity].
Qed.

Lemma reads_only_ret {S A} (a : A) : reads_only (@ret S A a).
Proof. intros s. reflexivity. Qed.

Lemma reads_only_raise {S A} (e : exn) : reads_only (@raise S A e).
Proof. intros s. reflexivity. Qed.

Lemma reads_only_get {S} : reads_only (@get S).
Proof. intros s. reflexivity. Qed.

Lemma reads_only_subscript {S V} (k : string) (d : odict V) :
  reads_only (@subscript S V k d).
Proof. intros s. unfold subscript. now destruct (OrderedDict.getitem k d). Qed.

Lemma reads_only_last_of {S A} (l : list A) : reads_only (@last_of S A l).
Proof. intros s. unfold last_of. now destruct (PyList.last_item l). Qed.

Lemma reads_only_item {S A} (i : nat) (a : list A) : reads_only (@item S A i a).
Proof. intros s. unfold item. now destruct (nth_error a i). Qed.

Lemma reads_only_call_copy {S A} (G : odict binding) (name : string)
    (l : list A) :
  reads_only (@call_copy S A G name l).
Proof.
  intros s. unfold call_copy.
  destruct (OrderedDict.getitem name G) as [[m|o]|]; try reflexivity.
  now destruct (String.eqb m "copy").
Qed.

Create HintDb frame.

#[export] Hint Resolve reads_only_ret reads_only_raise reads_only_get
  reads_only_subscript reads_only_last_of reads_only_item
  reads_only_call_copy : frame.

Ltac reads_only_steps :=
  repeat first
    [ apply reads_only_bind; [|intros]
    | solve [auto with frame] ].

Ltac preserves_steps :=
  repeat first
    [ solve [apply reads_only_preserves; auto with frame]
    | solve [auto with frame]
    | apply preserves_bind; [|intros] ].

Section RunInvariants.

Context {SK : Sklearn} {PD : Pandas}.
Import OrderedDictFacts.

Lemma preserves_modify_self (I : state -> Prop) (f : Pipeliner -> Pipeliner) :
  (forall s, I s -> I {| self := f (self s); world := world s |}) ->
  preserves I (modify_self f).
Proof. intros H s Hs. simpl. now apply H. Qed.

Lemma preserves_lift_world {A} (I : state -> Prop) (m : M World A) :
  (forall s w, I s -> I {| self := self s; world := w |}) ->
  preserves I (lift_world m).
Proof.
  intros H s Hs. unfold lift_world.
  destruct (m (world s)); simpl; now apply H.
Qed.

Lemma reads_only_named_step (column row_key : string) :
  reads_only (named_step column row_key).
Proof. unfold named_step. reads_only_steps. Qed.

Hint Resolve reads_only_named_step : frame.

Lemma reads_only_build_steps (pairs : list (string * string)) :
  reads_only (build_steps pairs).
Proof.
  induction pairs as [|[rk c] pairs IH]; simpl; reads_only_steps.
Qed.

Lemma reads_only_row_values (labels : list string) (row : odict string) :
  reads_only (row_values labels row).
Proof. induction labels as [|c labels IH]; simpl; reads_only_steps. Qed.

Lemma reads_only_strike_matched (pairs : list (string * string)) :
  forall u, reads_only (strike_matched pairs u).
Proof.
  induction pairs as [|[rk ck] pairs IH]; intros u; simpl; auto with frame.
  destruct (negb (rk =? ck)%string); auto with frame.
  destruct (PyList.remove rk u); auto with frame.
Qed.

Lemma reads_only_del_heads (n : nat) :
  forall row_keys cols, reads_only (del_heads n row_keys cols).
Proof.
  induction n as [|n IH]; intros [|r row_keys] [|c cols]; simpl;
    auto with frame.
Qed.

Lemma reads_only_best_rows (params_list : list (odict PyVal))
    (grid_clf : GridSearchCV PyVal Num) (scoring : string) (best : odict PyVal) :
  forall i results,
    reads_only (best_rows i params_list grid_clf scoring best results).
Proof.
  induction params_list as [|params rest IH]; intros i results; simpl;
    auto with frame.
  destruct (dict_eqb params (best_params_ grid_clf)); [|apply IH].
  reads_only_steps.
Qed.

Lemma reads_only_write_cell (idx : nat) (key : string) (value : cell)
    (results : DataFrame cell) :
  reads_only (write_cell idx key value results).
Proof.
  unfold write_cell. destruct loc_row.
  - destruct (Frame.set_cell idx key value results); auto with frame.
  - destruct (Frame.loc idx results); auto with frame.
Qed.

Hint Resolve reads_only_build_steps reads_only_row_values
  reads_only_strike_matched reads_only_del_heads reads_only_best_rows
  reads_only_write_cell : frame.

Lemma reads_only_write_items (idx : nat) (items : list (string * cell)) :
  forall results, reads_only (write_items idx items results).
Proof.
  induction items as [|[k v] items IH]; intros results; simpl;
    reads_only_steps.
Qed.

Hint Resolve reads_only_write_items : frame.

(** **** The cache: what each part may change *)

Section CacheFrames.

Variable G : odict binding.

(** An invariant of the state that looks at the object only, and that no
    assignment to the cache disturbs. *)
Variable I : state -> Prop.
Hypothesis I_world : forall s w, I s -> I {| self := self s; world := w |}.
Hypothesis I_cache :
  forall s c, I s -> I {| self := set_cached_X c (self s); world := world s |}.

Lemma preserves_set_cache (f : Pipeliner -> odict Data) :
  preserves I (modify_self (fun p => set_cached_X (f p) p)).
Proof. apply preserves_modify_self. intros s Hs. now apply I_cache. Qed.

Lemma preserves_set_cache_const (c : odict Data) :
  preserves I (modify_self (set_cached_X c)).
Proof. apply preserves_modify_self. intros s Hs. now apply I_cache. Qed.

Lemma preserves_fit_transform (e : Estimator) (X : Data) :
  preserves I (lift_world (fit_transform e X)).
Proof. apply preserves_lift_world, I_world. Qed.

Hint Resolve preserves_set_cache preserves_set_cache_const
  preserves_fit_transform : frame.

Lemma preserves_evict (keys : list string) : preserves I (evict keys).
Proof.
  induction keys as [|k keys IH]; simpl; preserves_steps.
  match goal with
  | |- context [OrderedDict.delitem ?k ?c] => destruct (OrderedDict.delitem k c)
  end; preserves_steps.
Qed.

Lemma preserves_extend_cache (pairs : list (string * string)) :
  forall prev, preserves I (extend_cache pairs prev).
Proof.
  induction pairs as [|[rk c] pairs IH]; intros prev; simpl; preserves_steps.
Qed.

Hint Resolve preserves_evict preserves_extend_cache : frame.

Lemma preserves_transform_X_from_last_cached (row_keys cols : list string) :
  preserves I (transform_X_from_last_cached row_keys cols).
Proof. unfold transform_X_from_last_cached. preserves_steps. Qed.

Lemma preserves_remove_unmatched (row_keys : list string) :
  preserves I (remove_unmatched_caching_X_in G row_keys).
Proof. unfold remove_unmatched_caching_X_in. preserves_steps. Qed.

Hint Resolve preserves_transform_X_from_last_cached
  preserves_remove_unmatched : frame.

Lemma preserves_transform_with_caching (X : Data) (y : Labels)
    (row_keys : list string) :
  preserves I (transform_with_caching_in G X y row_keys).
Proof.
  unfold transform_with_caching_in.
  apply preserves_bind; [preserves_steps|]. intros s0.
  apply preserves_bind; [|intros; preserves_steps].
  destruct (negb (OrderedDict.contains "init" (_cached_X (self s0))));
    preserves_steps.
Qed.

End CacheFrames.

End RunInvariants.

#[export] Hint Resolve reads_only_named_step reads_only_build_steps
  reads_only_row_values reads_only_strike_matched reads_only_del_heads
  reads_only_best_rows reads_only_write_cell reads_only_write_items : frame.

(** * Further properties of the prefix cache *)

Section CacheMore.

Context {SK : Sklearn}.
Import OrderedDictFacts.

Lemma cache_only_refl (p : Pipeliner) : cache_only p p.
Proof. unfold cache_only. now destruct p. Qed.

Lemma cache_only_fields (p p' : Pipeliner) :
  cache_only p p' ->
  plan_table p' = plan_table p /\ named_steps p' = named_steps p /\
  eval_cv p' = eval_cv p /\ grid_cv p' = grid_cv p /\
  param_grid p' = param_grid p /\ best_params p' = best_params p /\
  scores p' = scores p /\ asdf p' = asdf p /\ asdfasdf p' = asdfasdf p.
Proof. unfold cache_only. intros ->. simpl. repeat split. Qed.

Lemma root_kept_by_extend_cache (pairs : list (string * string)) :
  forall prev,
    preserves (fun s => OrderedDict.contains "init" (_cached_X (self s)) = true)
              (extend_cache pairs prev).
Proof.
  induction pairs as [|[rk c] pairs IH]; intros prev; simpl; preserves_steps.
  - apply preserves_lift_world. auto.
  - apply preserves_modify_self. intros s Hs. simpl.
    apply contains_In, In_keys_setitem. right. now apply contains_In.
Qed.

(** X6. Whatever a call of the cache does, return or raise, it leaves the
    root entry in the cache; so every call made after it, a retry after a
    failed first call included, stops at the unbound name [cp] and changes
    nothing. *)
Theorem every_call_after_any_call_raises (X : Data) (y : Labels)
    (row_keys : list string) (s : state) :
  let s1 := final_state (transform_with_caching X y row_keys s) in
  OrderedDict.contains "init" (_cached_X (self s1)) = true /\
  forall X' y' row_keys',
    transform_with_caching X' y' row_keys' s1 = Raise (NameError "cp") s1.
Proof.
  intros s1.
  assert (Hroot : OrderedDict.contains "init" (_cached_X (self s1)) = true).
  { unfold s1.
    destruct (OrderedDict.contains "init" (_cached_X (self s))) eqn:Hinit.
    { now rewrite transform_with_caching_raises by assumption. }
    unfold transform_with_caching, transform_with_caching_in.
    unfold bind at 1. unfold get at 1. rewrite Hinit. simpl negb. cbv iota.
    unfold bind at 1. unfold bind at 1. unfold modify_self at 1.
    set (s0 := {| self := set_cached_X
                            (OrderedDict.setitem "init" X (_cached_X (self s)))
                            (self s);
                  world := world s |}).
    assert (H0 : OrderedDict.contains "init" (_cached_X (self s0)) = true).
    { simpl. apply contains_In, In_keys_setitem. now left. }
    assert (H1 : OrderedDict.contains "init"
                   (_cached_X (self (final_state
                      (transform_X_from_last_cached row_keys
                         (firstn (length row_keys)
                                 (columns (plan_table (self s)))) s0))))
                 = true).
    { revert H0. generalize s0.
      change (preserves
                (fun s => OrderedDict.contains "init" (_cached_X (self s)) = true)
                (transform_X_from_last_cached row_keys
                   (firstn (length row_keys) (columns (plan_table (self s)))))).
      unfold transform_X_from_last_cached. preserves_steps.
      apply root_kept_by_extend_cache. }
    destruct (transform_X_from_last_cached row_keys
                (firstn (length row_keys) (columns (plan_table (self s)))) s0)
      as [u sa|e sa]; simpl in H1; [|exact H1].
    revert H1. generalize sa.
    change (preserves
              (fun s => OrderedDict.contains "init" (_cached_X (self s)) = true)
              (s2 <- get ;;
               last_cached_key <-
                 last_of (OrderedDict.keys (_cached_X (self s2))) ;;
               Xc <- subscript last_cached_key (_cached_X (self s2)) ;;
               ret (Xc, y))).
    preserves_steps. }
  split; [exact Hroot|].
  intros X' y' row_keys'. now apply transform_with_caching_raises.
Qed.

(** X7. A call of the cache, returning or raising, and whatever the
    module binds, changes nothing of the object but the cache: the plan,
    the steps, both cross-validation objects, the grids and the recorded
    best parameters are as before. *)
Theorem cache_call_changes_only_the_cache (G : odict binding)
    (X : Data) (y : Labels) (row_keys : list string) (s : state) :
  let p' := self (final_state (transform_with_caching_in G X y row_keys s)) in
  cache_only (self s) p' /\
  plan_table p' = plan_table (self s) /\
  named_steps p' = named_steps (self s) /\
  eval_cv p' = eval_cv (self s) /\
  grid_cv p' = grid_cv (self s) /\
  param_grid p' = param_grid (self s) /\
  best_params p' = best_params (self s).
Proof.
  intros p'.
  assert (H : cache_only (self s) p').
  { unfold p'.
    apply (@preserves_transform_with_caching SK G
             (fun s' => cache_only (self s) (self s'))).
    - intros s0 w Hs. exact Hs.
    - intros s0 c Hs. simpl. unfold cache_only in *. rewrite Hs. reflexivity.
    - apply cache_only_refl. }
  split; [exact H|].
  apply cache_only_fields in H. tauto.
Qed.

(** X8. A first call with no name to resolve returns the input itself:
    the root entry is recorded under [init], no stage is fitted and the
    world is untouched. *)
Theorem first_call_without_names_returns_input (G : odict binding)
    (X : Data) (y : Labels) (s : state) :
  OrderedDict.contains "init" (_cached_X (self s)) = false ->
  transform_with_caching_in G X y [] s
  = Ok (X, y)
       {| self := set_cached_X (_cached_X (self s) ++ [("init", X)]) (self s);
          world := world s |}.
Proof.
  intros Hinit.
  assert (Hfresh : ~ In "init" (OrderedDict.keys (_cached_X (self s)))).
  { intros Hin. apply contains_In in Hin. congruence. }
  unfold transform_with_caching_in.
  unfold bind at 1. unfold get at 1. rewrite Hinit. simpl negb. cbv iota.
  unfold bind at 1. unfold bind at 1. unfold modify_self at 1.
  rewrite setitem_fresh by exact Hfresh.
  unfold transform_X_from_last_cached.
  unfold bind at 1. unfold get at 1.
  cbn [self _cached_X set_cached_X].
  assert (Hlast : PyList.last_item
                    (OrderedDict.keys (_cached_X (self s) ++ [("init", X)]))
                  = Some "init").
  { unfold OrderedDict.keys. rewrite map_app. apply last_item_app. }
  unfold bind at 1. unfold last_of at 1. rewrite Hlast.
  unfold ret at 1. simpl extend_cache. unfold ret at 1.
  unfold bind at 1. unfold get at 1. cbn [self _cached_X set_cached_X].
  unfold bind at 1. unfold last_of at 1. rewrite Hlast. unfold ret at 1.
  unfold bind at 1. unfold subscript.
  rewrite getitem_app_fresh by exact Hfresh. reflexivity.
Qed.

End CacheMore.

Lemma last_cons_default {A} (l : list A) :
  forall x d, last (x :: l) d = last l x.
Proof.
  induction l as [|y l IH]; intros x d; [reflexivity|].
  change (last (y :: l) d = last (y :: l) x). now rewrite !IH.
Qed.

Section CacheErrors.

Context {SK : Sklearn}.
Import OrderedDictFacts.

Lemma extend_cache_app (p1 p2 : list (string * string)) :
  forall (prev : string) (s : state),
    extend_cache (p1 ++ p2) prev s
    = (extend_cache p1 prev ;;; extend_cache p2 (last (map fst p1) prev)) s.
Proof.
  induction p1 as [|[rk c] p1 IH]; intros prev s.
  - reflexivity.
  - assert (Hlast : last (map fst ((rk, c) :: p1)) prev = last (map fst p1) rk).
    { cbn [map fst]. apply last_cons_default. }
    rewrite Hlast. cbn [app extend_cache]. unfold bind.
    destruct (named_step c rk s) as [e sa|ex sa]; [|reflexivity].
    unfold get.
    destruct (subscript prev (_cached_X (self sa)) sa) as [Xp sc|ex sc];
      [|reflexivity].
    destruct (lift_world (fit_transform e Xp) sc) as [X' sd|ex sd];
      [|reflexivity].
    unfold modify_self. rewrite IH. reflexivity.
Qed.

(** X9. A name that is no variant of its step is found late: on a first
    call the stages before it are fitted and cached, then the lookup of
    the unknown name raises its KeyError, and the cache is left holding
    the root and the entries of the names before it. *)
Theorem unknown_variant_raises_after_caching_prefix
    (ft : Estimator -> Data -> Data) (X : Data) (y : Labels)
    (good rest : list string) (bad c : string) (cgood crest : list string)
    (variants : odict Estimator) (steps : list (string * Estimator))
    (s : state) :
  pure_stages ft ->
  _cached_X (self s) = OrderedDict.empty ->
  columns (plan_table (self s)) = cgood ++ c :: crest ->
  length cgood = length good ->
  NoDup ("init" :: good) ->
  build_steps (PyList.zip good cgood) s = Ok steps s ->
  OrderedDict.getitem c (named_steps (self s)) = Some variants ->
  OrderedDict.getitem bad variants = None ->
  exists s',
    transform_with_caching X y (good ++ bad :: rest) s
    = Raise (KeyError bad) s' /\
    _cached_X (self s')
    = ("init", X) :: combine good (chain ft (map snd steps) X).
Proof.
  intros Hpure Hempty Hcols Hlen Hnd Hsteps Hvar Hbad.
  set (s0 := {| self := set_cached_X [("init", X)] (self s);
                world := world s |}).
  assert (Hsteps0 : build_steps (PyList.zip good cgood) s0 = Ok steps s0).
  { eapply build_steps_frame; [|exact Hsteps]. reflexivity. }
  assert (Hkeys : map fst (PyList.zip good cgood) = good).
  { unfold PyList.zip. clear -Hlen. revert cgood Hlen.
    induction good as [|g good IH]; intros [|cg cgood] Hlen; simpl in *;
      try discriminate; [reflexivity|]. f_equal. apply IH. lia. }
  destruct (@extend_cache_lineage SK ft Hpure (PyList.zip good cgood) steps
              "init" X s0 Hsteps0) as [w' Hext].
  { reflexivity. }
  { rewrite Hkeys. exact Hnd. }
  rewrite Hkeys in Hext. cbn [self _cached_X set_cached_X s0] in Hext.
  eexists. split.
  - unfold transform_with_caching, transform_with_caching_in.
    unfold bind at 1. unfold get at 1. rewrite Hempty. simpl negb. cbv iota.
    unfold bind at 1. unfold bind at 1. unfold modify_self at 1.
    rewrite Hempty. cbn [OrderedDict.setitem OrderedDict.empty].
    fold s0. unfold transform_X_from_last_cached.
    unfold bind at 1. unfold get at 1.
    unfold bind at 1. unfold last_of at 1.
    change (PyList.last_item (OrderedDict.keys (_cached_X (self s0))))
      with (Some "init").
    unfold ret at 1.
    assert (Hzip : PyList.zip (good ++ bad :: rest)
                     (firstn (length (good ++ bad :: rest))
                             (columns (plan_table (self s))))
                   = PyList.zip good cgood
                     ++ (bad, c) :: PyList.zip rest
                                      (firstn (length rest) crest)).
    { rewrite Hcols, length_app. cbn [length].
      rewrite firstn_app, <- Hlen.
      rewrite firstn_all2 by lia.
      replace (length cgood + S (length rest) - length cgood)
        with (S (length rest)) by lia.
      cbn [firstn]. unfold PyList.zip. rewrite combine_app by lia.
      reflexivity. }
    rewrite Hzip, extend_cache_app. unfold bind at 1. rewrite Hext.
    cbn [extend_cache]. unfold bind at 1.
    unfold named_step. unfold bind at 1. unfold get at 1.
    cbn [self named_steps set_cached_X].
    unfold bind at 1. unfold subscript at 1. rewrite Hvar. unfold ret at 1.
    unfold subscript at 1. rewrite Hbad. unfold raise. reflexivity.
  - reflexivity.
Qed.

End CacheErrors.

(** * Further properties of the hyperparameter search *)

Lemma append_inv_head (a x y : string) : (a ++ x = a ++ y)%string -> x = y.
Proof.
  induction a as [|c a IH]; simpl; [auto|]. intros H. inversion H. auto.
Qed.

Lemma drop_prefix (a k : string) :
  PyStr.drop (String.length a + 2) (a ++ "__" ++ k)%string = k.
Proof. induction a as [|c a IH]; simpl; [reflexivity | exact IH]. Qed.

Lemma fold_left_map_arg {A B C} (f : A -> B -> A) (h : C -> B) (l : list C) :
  forall a, fold_left (fun acc x => f acc (h x)) l a = fold_left f (map h l) a.
Proof. induction l as [|x l IH]; intros a; simpl; [reflexivity | apply IH]. Qed.

Lemma NoDup_map_inj {A B} (f : A -> B) (l : list A) :
  (forall x y, f x = f y -> x = y) -> NoDup l -> NoDup (map f l).
Proof.
  intros Hinj Hnd. induction Hnd as [|x l Hx Hnd IH]; simpl; constructor;
    [|exact IH].
  intros Hin. apply in_map_iff in Hin as (y & E & Hy).
  apply Hinj in E. now subst.
Qed.

Section SearchMore.

Context {SK : Sklearn}.
Import OrderedDictFacts.

Lemma prefixed_map (classifier_key : string) (declared : odict PyVal) :
  NoDup (OrderedDict.keys declared) ->
  prefixed classifier_key declared
  = map (fun kv => ((classifier_key ++ "__" ++ fst kv)%string, snd kv)) declared.
Proof.
  intros Hnd. unfold prefixed.
  etransitivity.
  { exact (fold_left_map_arg
             (fun g kv => OrderedDict.setitem (fst kv) (snd kv) g)
             (fun kv => ((classifier_key ++ "__" ++ fst kv)%string, snd kv))
             declared OrderedDict.empty). }
  apply (of_pairs_NoDup
           (map (fun kv => ((classifier_key ++ "__" ++ fst kv)%string, snd kv))
                declared)).
  rewrite map_map. cbn [fst].
  rewrite <- (map_map fst (fun k => (classifier_key ++ "__" ++ k)%string)).
  apply NoDup_map_inj; [|exact Hnd].
  intros x y E. do 2 apply append_inv_head in E. exact E.
Qed.

Lemma stripped_prefixed (classifier_key : string) (chosen : odict PyVal) :
  NoDup (OrderedDict.keys chosen) ->
  stripped classifier_key
           (map (fun kv => ((classifier_key ++ "__" ++ fst kv)%string, snd kv))
                chosen)
  = chosen.
Proof.
  intros Hnd. unfold stripped.
  etransitivity.
  { exact (fold_left_map_arg
             (fun g kv => OrderedDict.setitem (fst kv) (snd kv) g)
             (fun kv => (PyStr.drop (String.length classifier_key + 2) (fst kv),
                         snd kv))
             _ OrderedDict.empty). }
  rewrite map_map. cbn [fst snd].
  rewrite (map_ext _ (fun kv => kv)).
  - rewrite map_id. now apply (of_pairs_NoDup chosen).
  - intros [k v]. cbn [fst snd]. now rewrite drop_prefix.
Qed.

(** With a grid declared for the final stage, the search comes down to
    the loop over the candidates, run in the state in which the grids and
    the best parameters are recorded. *)
Lemma search_declared (X : Data) (y : Labels) (row_keys : list string)
    (scoring classifier_key : string) (declared : odict PyVal)
    (steps : list (string * Estimator)) (grid_clf : GridSearchCV PyVal Num)
    (w' : World) (s : state) :
  PyList.last_item row_keys = Some classifier_key ->
  OrderedDict.getitem classifier_key (param_grid (self s)) = Some declared ->
  build_steps
    (PyList.zip row_keys
       (PyList.last_n (length row_keys) (columns (plan_table (self s))))) s
  = Ok steps s ->
  grid_search_fit steps (prefixed classifier_key declared) scoring
                  (grid_cv (self s)) X y (world s) = Ok grid_clf w' ->
  get_grid_search_results X y row_keys scoring s
  = best_rows 0 (cv_results_params grid_clf) grid_clf scoring
              (stripped classifier_key (best_params_ grid_clf))
              OrderedDict.empty
              (after_search row_keys scoring classifier_key declared
                            (best_params_ grid_clf) w' s).
Proof.
  intros Hlast Hdecl Hsteps Hfit.
  unfold get_grid_search_results.
  unfold bind at 1. unfold last_of at 1. rewrite Hlast. unfold ret at 1.
  unfold bind at 1. unfold get at 1.
  assert (Hcont : OrderedDict.contains classifier_key (param_grid (self s))
                  = true).
  { apply contains_In. eapply getitem_Some_In. exact Hdecl. }
  rewrite Hcont.
  unfold bind at 1. rewrite Hsteps.
  unfold bind at 1. unfold subscript at 1. rewrite Hdecl. unfold ret at 1.
  unfold bind at 1. unfold modify_self at 1.
  unfold bind at 1. unfold get at 1.
  unfold bind at 1. unfold lift_world at 1.
  cbn [self world set_asdf grid_cv].
  fold (prefixed classifier_key declared). rewrite Hfit.
  unfold bind at 1. unfold modify_self at 1.
  reflexivity.
Qed.

(** X11. The prefix put on the parameter names for the search is taken
    off again: with a grid declared for the final stage, the names handed
    to the search are the declared names behind the stage's name and two
    underscores, the best parameters are recorded under the declared
    names, and that record is what a following evaluation passes to the
    final stage's [set_params]. *)
Theorem search_records_declared_names
    (X : Data) (y : Labels) (row_keys : list string)
    (scoring classifier_key : string) (declared chosen : odict PyVal)
    (steps : list (string * Estimator)) (grid_clf : GridSearchCV PyVal Num)
    (w' : World) (s : state) :
  PyList.last_item row_keys = Some classifier_key ->
  OrderedDict.getitem classifier_key (param_grid (self s)) = Some declared ->
  build_steps
    (PyList.zip row_keys
       (PyList.last_n (length row_keys) (columns (plan_table (self s))))) s
  = Ok steps s ->
  grid_search_fit steps (prefixed classifier_key declared) scoring
                  (grid_cv (self s)) X y (world s) = Ok grid_clf w' ->
  NoDup (OrderedDict.keys declared) ->
  NoDup (OrderedDict.keys chosen) ->
  best_params_ grid_clf
  = map (fun kv => ((classifier_key ++ "__" ++ fst kv)%string, snd kv)) chosen ->
  let s' := final_state (get_grid_search_results X y row_keys scoring s) in
  prefixed classifier_key declared
  = map (fun kv => ((classifier_key ++ "__" ++ fst kv)%string, snd kv)) declared /\
  OrderedDict.getitem (param_key row_keys scoring) (best_params (self s'))
  = Some chosen /\
  forall X2 y2 collect_n v s2,
    get_scores X2 y2 row_keys scoring collect_n s' = Ok v s2 ->
    exists final w2,
      PyList.last_item steps = Some final /\
      set_params (snd final) chosen (world s') = Ok tt w2.
Proof.
  intros Hlast Hdecl Hsteps Hfit Hnd Hndc Hbest s'.
  assert (Hs' : s' = after_search row_keys scoring classifier_key declared
                                  (best_params_ grid_clf) w' s).
  { unfold s'. erewrite search_declared by eassumption.
    apply reads_only_best_rows. }
  assert (Hrec : OrderedDict.getitem (param_key row_keys scoring)
                                     (best_params (self s')) = Some chosen).
  { rewrite Hs'. cbn [after_search self best_params set_best_params].
    rewrite getitem_setitem_eq, Hbest. f_equal. now apply stripped_prefixed. }
  split; [now apply prefixed_map|]. split; [exact Hrec|].
  intros X2 y2 collect_n v s2 Hev.
  apply get_scores_reads in Hev
    as (steps' & final & params & w2 & Hsteps' & Hfinal & Hparams & Hset).
  assert (Hsame : build_steps
                    (PyList.zip row_keys
                       (PyList.last_n (length row_keys)
                                      (columns (plan_table (self s'))))) s'
                  = Ok steps s').
  { assert (Hplan : plan_table (self s') = plan_table (self s))
      by (rewrite Hs'; reflexivity).
    assert (Hns : named_steps (self s') = named_steps (self s))
      by (rewrite Hs'; reflexivity).
    rewrite Hplan. eapply build_steps_frame; [exact Hns | exact Hsteps]. }
  rewrite Hsame in Hsteps'. inversion Hsteps'; subst steps'.
  rewrite Hrec in Hparams. inversion Hparams; subst params.
  eauto.
Qed.

Lemma three_entries_again (scoring : string) (m sd m' sd' : Num) (b b' : string)
    (R : odict cell) :
  R = OrderedDict.empty \/ R = three_entries scoring m' sd' b' ->
  OrderedDict.setitem (grid_best_params_key scoring) (CStr b)
    (OrderedDict.setitem (grid_std_key scoring) (CNum sd)
       (OrderedDict.setitem (grid_mean_key scoring) (CNum m) R))
  = three_entries scoring m sd b.
Proof.
  pose proof (@grid_mean_std scoring scoring) as H1.
  pose proof (@grid_mean_best scoring scoring) as H2.
  pose proof (@grid_std_best scoring scoring) as H3.
  intros [-> | ->]; unfold three_entries; cbn [OrderedDict.setitem OrderedDict.empty].
  - destruct (String.eqb_spec (grid_std_key scoring) (grid_mean_key scoring));
      [congruence|].
    cbn [OrderedDict.setitem].
    destruct (String.eqb_spec (grid_best_params_key scoring) (grid_mean_key scoring));
      [congruence|].
    destruct (String.eqb_spec (grid_best_params_key scoring) (grid_std_key scoring));
      [congruence|].
    reflexivity.
  - rewrite String.eqb_refl. cbn [OrderedDict.setitem].
    destruct (String.eqb_spec (grid_std_key scoring) (grid_mean_key scoring));
      [congruence|].
    rewrite String.eqb_refl. cbn [OrderedDict.setitem].
    destruct (String.eqb_spec (grid_best_params_key scoring) (grid_mean_key scoring));
      [congruence|].
    destruct (String.eqb_spec (grid_best_params_key scoring) (grid_std_key scoring));
      [congruence|].
    rewrite String.eqb_refl. reflexivity.
Qed.

End SearchMore.

Section SearchResult.

Context {SK : Sklearn}.
Import OrderedDictFacts.

Lemma last_best_index_range (best : odict PyVal) :
  forall (params_list : list (odict PyVal)) (i j : nat),
    last_best_index i params_list best = Some j ->
    i <= j < i + length params_list.
Proof.
  induction params_list as [|params rest IH]; intros i j H; simpl in H;
    [discriminate|].
  destruct (last_best_index (S i) rest best) as [j'|] eqn:E.
  - inversion H; subst. apply IH in E. simpl. lia.
  - destruct (dict_eqb params best); inversion H; subst. simpl. lia.
Qed.

Lemma best_rows_last_best (grid_clf : GridSearchCV PyVal Num)
    (scoring : string) (best : odict PyVal) :
  forall (params_list : list (odict PyVal)) (i : nat) (R : odict cell)
         (s : state),
    i + length params_list <= length (cv_results_mean_test_score grid_clf) ->
    i + length params_list <= length (cv_results_std_test_score grid_clf) ->
    (R = OrderedDict.empty \/
     exists m sd b, R = three_entries scoring m sd b) ->
    best_rows i params_list grid_clf scoring best R s
    = Ok match last_best_index i params_list (best_params_ grid_clf) with
         | Some j =>
             match nth_error (cv_results_mean_test_score grid_clf) j,
                   nth_error (cv_results_std_test_score grid_clf) j with
             | Some m, Some sd => three_entries scoring m sd (str_params best)
             | _, _ => R
             end
         | None => R
         end s.
Proof.
  induction params_list as [|params rest IH]; intros i R s Hm Hs HR.
  - reflexivity.
  - cbn [best_rows last_best_index]. cbn [length] in Hm, Hs.
    destruct (dict_eqb params (best_params_ grid_clf)) eqn:E.
    + destruct (nth_error (cv_results_mean_test_score grid_clf) i) as [m|] eqn:Em.
      2:{ apply nth_error_None in Em. lia. }
      destruct (nth_error (cv_results_std_test_score grid_clf) i) as [sd|] eqn:Esd.
      2:{ apply nth_error_None in Esd. lia. }
      unfold bind at 1. unfold item at 1. rewrite Em. unfold ret at 1.
      unfold bind at 1. unfold item at 1. rewrite Esd. unfold ret at 1.
      assert (H3 : OrderedDict.setitem (grid_best_params_key scoring)
                     (CStr (str_params best))
                     (OrderedDict.setitem (grid_std_key scoring) (CNum sd)
                        (OrderedDict.setitem (grid_mean_key scoring) (CNum m) R))
                   = three_entries scoring m sd (str_params best)).
      { destruct HR as [-> | (m' & sd' & b' & ->)].
        - apply three_entries_again with (m' := m) (sd' := sd) (b' := "").
          now left.
        - eapply three_entries_again. right. reflexivity. }
      rewrite H3. rewrite IH; [|lia|lia|right; eauto].
      destruct (last_best_index (S i) rest (best_params_ grid_clf)) as [j|]
        eqn:Ej.
      * apply last_best_index_range in Ej.
        destruct (nth_error (cv_results_mean_test_score grid_clf) j) eqn:Emj.
        2:{ apply nth_error_None in Emj. lia. }
        destruct (nth_error (cv_results_std_test_score grid_clf) j) eqn:Esj.
        2:{ apply nth_error_None in Esj. lia. }
        reflexivity.
      * rewrite Em, Esd. reflexivity.
    + rewrite IH; [|lia|lia|exact HR].
      destruct (last_best_index (S i) rest (best_params_ grid_clf));
        reflexivity.
Qed.

(** X12. What the search reports is all or nothing: when no candidate of
    the search equals its best parameters the result mapping is empty,
    otherwise it holds exactly the mean, the deviation and the printed
    best parameters, read at the position of the last candidate that
    equals them. *)
Theorem search_reports_last_best_candidate
    (X : Data) (y : Labels) (row_keys : list string)
    (scoring classifier_key : string) (declared : odict PyVal)
    (steps : list (string * Estimator)) (grid_clf : GridSearchCV PyVal Num)
    (w' : World) (s : state) :
  PyList.last_item row_keys = Some classifier_key ->
  OrderedDict.getitem classifier_key (param_grid (self s)) = Some declared ->
  build_steps
    (PyList.zip row_keys
       (PyList.last_n (length row_keys) (columns (plan_table (self s))))) s
  = Ok steps s ->
  grid_search_fit steps (prefixed classifier_key declared) scoring
                  (grid_cv (self s)) X y (world s) = Ok grid_clf w' ->
  length (cv_results_params grid_clf)
  <= length (cv_results_mean_test_score grid_clf) ->
  length (cv_results_params grid_clf)
  <= length (cv_results_std_test_score grid_clf) ->
  get_grid_search_results X y row_keys scoring s
  = Ok match last_best_index 0 (cv_results_params grid_clf)
                             (best_params_ grid_clf) with
       | Some j =>
           match nth_error (cv_results_mean_test_score grid_clf) j,
                 nth_error (cv_results_std_test_score grid_clf) j with
           | Some m, Some sd =>
               three_entries scoring m sd
                 (str_params (stripped classifier_key (best_params_ grid_clf)))
           | _, _ => OrderedDict.empty
           end
       | None => OrderedDict.empty
       end
       (after_search row_keys scoring classifier_key declared
                     (best_params_ grid_clf) w' s).
Proof.
  intros Hlast Hdecl Hsteps Hfit Hm Hs.
  erewrite search_declared by eassumption.
  apply best_rows_last_best; [exact Hm | exact Hs | now left].
Qed.

(** **** What the search may change *)

Section SearchFrames.

Variable I : state -> Prop.
Hypothesis I_world : forall s w, I s -> I {| self := self s; world := w |}.
Hypothesis I_best :
  forall s b, I s -> I {| self := set_best_params b (self s); world := world s |}.
Hypothesis I_asdf :
  forall s a b, I s -> I {| self := set_asdf a b (self s); world := world s |}.

Lemma preserves_set_best (f : Pipeliner -> odict (odict PyVal)) :
  preserves I (modify_self (fun p => set_best_params (f p) p)).
Proof. apply preserves_modify_self. intros s Hs. now apply I_best. Qed.

Lemma preserves_set_asdf (a b : odict PyVal) :
  preserves I (modify_self (set_asdf a b)).
Proof. apply preserves_modify_self. intros s Hs. now apply I_asdf. Qed.

Lemma preserves_grid_search_fit {A} (m : M World A) :
  preserves I (lift_world m).
Proof. apply preserves_lift_world, I_world. Qed.

Hint Resolve preserves_set_best preserves_set_asdf preserves_grid_search_fit
  : frame.

Lemma preserves_get_grid_search_results (X : Data) (y : Labels)
    (row_keys : list string) (scoring : string) :
  preserves I (get_grid_search_results X y row_keys scoring).
Proof.
  unfold get_grid_search_results.
  apply preserves_bind; [preserves_steps|]. intros classifier_key.
  apply preserves_bind; [preserves_steps|]. intros s0.
  destruct (OrderedDict.contains classifier_key (param_grid (self s0)));
    preserves_steps.
Qed.

End SearchFrames.

Lemma search_keeps_plan_and_steps
    (X : Data) (y : Labels) (row_keys : list string) (scoring : string)
    (s : state) :
  let p' := self (final_state (get_grid_search_results X y row_keys scoring s)) in
  plan_table p' = plan_table (self s) /\
  named_steps p' = named_steps (self s).
Proof.
  intros p'. unfold p'.
  apply (@preserves_get_grid_search_results
           (fun s' => plan_table (self s') = plan_table (self s) /\
                      named_steps (self s') = named_steps (self s)));
    auto.
Qed.

(** X13. A search, returning or raising, changes nothing of the object
    but the recorded best parameters and the two recorded grids: the
    cache, the plan, the steps and both cross-validation objects are as
    before. *)
Theorem search_changes_only_its_records
    (X : Data) (y : Labels) (row_keys : list string) (scoring : string)
    (s : state) :
  let p' := self (final_state (get_grid_search_results X y row_keys scoring s)) in
  search_only (self s) p' /\
  _cached_X p' = _cached_X (self s) /\
  plan_table p' = plan_table (self s) /\
  named_steps p' = named_steps (self s) /\
  eval_cv p' = eval_cv (self s) /\
  grid_cv p' = grid_cv (self s) /\
  param_grid p' = param_grid (self s).
Proof.
  intros p'.
  assert (H : search_only (self s) p').
  { unfold p'.
    apply (@preserves_get_grid_search_results
             (fun s' => search_only (self s) (self s'))).
    - intros s0 w Hs. exact Hs.
    - intros s0 b Hs. simpl. unfold search_only in *. rewrite Hs. reflexivity.
    - intros s0 a b Hs. simpl. unfold search_only in *. rewrite Hs. reflexivity.
    - unfold search_only. now destruct (self s). }
  split; [exact H|].
  unfold search_only in H. rewrite H. simpl. repeat split.
Qed.

End SearchResult.

(** * Further properties of the evaluator *)

Lemma bind_raise {S A B} (m : M S A) (k : A -> M S B) (e : exn) (s s1 : S) :
  m s = Raise e s1 -> bind m k s = Raise e s1.
Proof. intros H. unfold bind. now rewrite H. Qed.

Section EvaluatorMore.

Context {SK : Sklearn}.
Import OrderedDictFacts.

Lemma lift_world_raise {A} (m : M World A) (e : exn) (w : World) (s : state) :
  m (world s) = Raise e w ->
  lift_world m s = Raise e {| self := self s; world := w |}.
Proof. intros H. unfold lift_world. now rewrite H. Qed.

Lemma get_scores_without_record (X : Data) (y : Labels)
    (row_keys : list string) (scoring : string) (collect_n : option Z)
    (steps : list (string * Estimator)) (final : string * Estimator)
    (s : state) :
  build_steps
    (PyList.zip row_keys
       (PyList.last_n (length row_keys) (columns (plan_table (self s))))) s
  = Ok steps s ->
  PyList.last_item steps = Some final ->
  OrderedDict.getitem (param_key row_keys scoring) (best_params (self s))
  = None ->
  get_scores X y row_keys scoring collect_n s
  = Raise (KeyError (param_key row_keys scoring)) s.
Proof.
  intros Hsteps Hfinal Hnone. unfold get_scores.
  run_pure. run_with Hsteps.
  unfold last_of at 1. rewrite Hfinal. run_pure.
  unfold subscript at 1. rewrite Hnone. reflexivity.
Qed.

(** X14. An evaluation needs the record of a search under the same names
    and metric: without it [get_scores] raises the KeyError of the
    missing record before anything is called on the stages, and a search
    under another key does not help. *)
Theorem evaluation_without_search_raises_key_error
    (X : Data) (y : Labels) (row_keys : list string) (scoring : string)
    (collect_n : option Z) (steps : list (string * Estimator))
    (final : string * Estimator) (s : state) :
  build_steps
    (PyList.zip row_keys
       (PyList.last_n (length row_keys) (columns (plan_table (self s))))) s
  = Ok steps s ->
  PyList.last_item steps = Some final ->
  OrderedDict.getitem (param_key row_keys scoring) (best_params (self s))
  = None ->
  get_scores X y row_keys scoring collect_n s
  = Raise (KeyError (param_key row_keys scoring)) s /\
  forall X' y' row_keys' scoring' r s1,
    param_key row_keys' scoring' <> param_key row_keys scoring ->
    get_grid_search_results X' y' row_keys' scoring' s = Ok r s1 ->
    get_scores X y row_keys scoring collect_n s1
    = Raise (KeyError (param_key row_keys scoring)) s1.
Proof.
  intros Hsteps Hfinal Hnone.
  split; [now apply get_scores_without_record with (steps := steps) (final := final)|].
  intros X' y' row_keys' scoring' r s1 Hne Hsearch.
  pose proof (search_keeps_plan_and_steps X' y' row_keys' scoring' s)
    as Hframe.
  rewrite Hsearch in Hframe. simpl in Hframe.
  destruct Hframe as (Hplan & Hns).
  apply get_grid_search_results_Ok in Hsearch as (_ & found & Hbest).
  apply get_scores_without_record with (steps := steps) (final := final).
  - rewrite Hplan. eapply build_steps_frame; [exact Hns | exact Hsteps].
  - exact Hfinal.
  - rewrite Hbest, getitem_setitem_neq by (intros E; apply Hne; now symmetry).
    exact Hnone.
Qed.

(** X15. A negative repeat count is not refused: the loop body never
    runs, no cross-validation pass is made, and the empty list of scores
    is returned with the object unchanged. *)
Theorem negative_repeat_count_returns_no_score
    (X : Data) (y : Labels) (row_keys : list string) (scoring : string)
    (N : Z) (steps : list (string * Estimator)) (final : string * Estimator)
    (params : odict PyVal) (g : Splitter) (rs : option Z) (w' : World)
    (s : state) :
  (N < 0)%Z ->
  build_steps
    (PyList.zip row_keys
       (PyList.last_n (length row_keys) (columns (plan_table (self s))))) s
  = Ok steps s ->
  PyList.last_item steps = Some final ->
  OrderedDict.getitem (param_key row_keys scoring) (best_params (self s))
  = Some params ->
  set_params (snd final) params (world s) = Ok tt w' ->
  eval_cv (self s) = CvGenerator g rs ->
  get_scores X y row_keys scoring (Some N) s
  = Ok (ScoreList []) {| self := self s; world := w' |}.
Proof.
  intros HN Hsteps Hfinal Hparams Hset Hcv. unfold get_scores.
  run_pure. run_with Hsteps.
  unfold last_of at 1. rewrite Hfinal. run_pure.
  unfold subscript at 1. rewrite Hparams. run_pure.
  run_lifted Hset.
  assert (Hf : falsy (Some N) = false).
  { unfold falsy. apply Z.eqb_neq. lia. }
  rewrite Hf.
  set (s1 := {| self := self s; world := w' |}).
  assert (Hcv1 : eval_cv (self s1) = CvGenerator g rs) by exact Hcv.
  erewrite bind_intro by (eapply get_random_state_intro; exact Hcv1).
  replace (Z.to_nat N) with 0 by lia.
  cbn [repeat_scores]. run_pure.
  erewrite bind_intro by (eapply set_random_state_intro; exact Hcv1).
  unfold ret. f_equal. unfold s1. cbn [self world]. f_equal.
  rewrite <- Hcv. apply set_eval_cv_same.
Qed.

(** X16. Repeating needs an integer seed on the evaluation
    cross-validation object. With a positive count and a plain object
    that has no [random_state], [get_scores] raises AttributeError in the
    very state [set_params] left: nothing else has been called. With a
    generator whose seed is None it raises TypeError in the state left by
    [set_params], one whole prediction pass and its scoring, that is at
    the increment of the seed. The object is unchanged in both cases. *)
Theorem repeat_without_integer_seed_raises
    (X : Data) (y : Labels) (row_keys : list string) (scoring : string)
    (N : Z) (steps : list (string * Estimator)) (final : string * Estimator)
    (params : odict PyVal) (w1 : World) (s : state) :
  (0 < N)%Z ->
  build_steps
    (PyList.zip row_keys
       (PyList.last_n (length row_keys) (columns (plan_table (self s))))) s
  = Ok steps s ->
  PyList.last_item steps = Some final ->
  OrderedDict.getitem (param_key row_keys scoring) (best_params (self s))
  = Some params ->
  set_params (snd final) params (world s) = Ok tt w1 ->
  (forall c,
      eval_cv (self s) = CvPlain c ->
      get_scores X y row_keys scoring (Some N) s
      = Raise (AttributeError "random_state")
              {| self := self s; world := w1 |}) /\
  (forall g pred w2 metric w3 sc w4,
      eval_cv (self s) = CvGenerator g None ->
      cross_val_predict steps X y (CvGenerator g None) w1 = Ok pred w2 ->
      score_func (snd final) scoring w2 = Ok metric w3 ->
      metric y pred w3 = Ok sc w4 ->
      get_scores X y row_keys scoring (Some N) s
      = Raise TypeError {| self := self s; world := w4 |}).
Proof.
  intros HN Hsteps Hfinal Hparams E1.
  set (s1 := {| self := self s; world := w1 |}).
  assert (Hf : falsy (Some N) = false).
  { unfold falsy. apply Z.eqb_neq. lia. }
  assert (Hhead : forall k : M state score_values,
             (forall t, t = s1 ->
                (if falsy (Some N)
                 then s0 <- get ;;
                      a <- lift_world
                             (cross_val_score steps X y scoring
                                              (eval_cv (self s0))) ;;
                      ret (ScoreArray a)
                 else init_random_state <- get_random_state ;;
                      l <- repeat_scores (Z.to_nat N) steps X y scoring [] ;;
                      set_random_state init_random_state ;;;
                      ret (ScoreList l)) t = k t) ->
             get_scores X y row_keys scoring (Some N) s = k s1).
  { intros k Hk. unfold get_scores.
    run_pure. run_with Hsteps.
    unfold last_of at 1. rewrite Hfinal. run_pure.
    unfold subscript at 1. rewrite Hparams. run_pure.
    run_lifted E1. fold s1. now apply Hk. }
  split.
  - intros c Hcv.
    rewrite (Hhead (fun t => Raise (AttributeError "random_state") t));
      [reflexivity|].
    intros t ->. rewrite Hf.
    apply bind_raise. unfold get_random_state, bind, get.
    change (eval_cv (self s1)) with (eval_cv (self s)). now rewrite Hcv.
  - intros g pred w2 metric w3 sc w4 Hcv E2 E3 E4.
    assert (Hcv1 : eval_cv (self s1) = CvGenerator g None) by exact Hcv.
    rewrite (Hhead (fun t => Raise TypeError
                                   {| self := self t; world := w4 |}));
      [reflexivity|].
    intros t ->. rewrite Hf.
    erewrite bind_intro by (eapply get_random_state_intro; exact Hcv1).
    destruct (Z.to_nat N) as [|n] eqn:En; [lia|].
    cbn [repeat_scores].
    apply bind_raise.
    run_pure. rewrite Hcv1. run_lifted E2.
    unfold last_of at 1. rewrite Hfinal. run_pure.
    run_lifted E3. run_lifted E4.
    apply bind_raise. unfold bump_random_state.
    erewrite bind_intro by (eapply get_random_state_intro; exact Hcv1).
    reflexivity.
Qed.

Lemma repeat_scores_fails (steps : list (string * Estimator))
    (final : string * Estimator) (X : Data) (y : Labels) (scoring : string)
    (g : Splitter) (e : exn) :
  PyList.last_item steps = Some final ->
  (forall w, exists metric w',
      score_func (snd final) scoring w = Ok metric w' /\
      forall y pred w2, exists sc w3, metric y pred w2 = Ok sc w3) ->
  forall (k n : nat) (acc : list Num) (s : state) (z : Z),
    eval_cv (self s) = CvGenerator g (Some z) ->
    k < n ->
    (forall j w, j < k ->
       exists pred w',
         cross_val_predict steps X y
           (CvGenerator g (Some (z + Z.of_nat j)%Z)) w = Ok pred w') ->
    (forall w, exists w',
       cross_val_predict steps X y
         (CvGenerator g (Some (z + Z.of_nat k)%Z)) w = Raise e w') ->
    exists s',
      repeat_scores n steps X y scoring acc s = Raise e s' /\
      self s' = set_eval_cv (CvGenerator g (Some (z + Z.of_nat k)%Z)) (self s).
Proof.
  intros Hfinal Hscore.
  induction k as [|k IH]; intros n acc s z Hcv Hkn Hbefore Hfail;
    (destruct n as [|n]; [lia|]); cbn [repeat_scores].
  - destruct (Hfail (world s)) as (w' & E).
    exists {| self := self s; world := w' |}. split.
    + run_pure. apply bind_raise. apply lift_world_raise.
      rewrite Hcv. replace z with (z + Z.of_nat 0)%Z at 1 by lia. exact E.
    + cbn [self]. replace (z + Z.of_nat 0)%Z with z by lia.
      rewrite <- Hcv. symmetry. apply set_eval_cv_same.
  - destruct (Hbefore 0 (world s)) as (pred & w1 & E1); [lia|].
    replace (z + Z.of_nat 0)%Z with z in E1 by lia.
    destruct (Hscore w1) as (metric & w2 & E2 & Hmetric).
    destruct (Hmetric y pred w2) as (sc & w3 & E3).
    set (s3 := {| self := self s; world := w3 |}).
    set (s4 := {| self := set_eval_cv (CvGenerator g (Some (z + 1)%Z)) (self s3);
                  world := world s3 |}).
    destruct (IH n (acc ++ [sc]) s4 (z + 1)%Z) as (s' & Hrun & Hself).
    + reflexivity.
    + lia.
    + intros j w Hj. destruct (Hbefore (S j) w) as (p & w' & E); [lia|].
      exists p, w'. rewrite <- E. do 3 f_equal. lia.
    + intros w. destruct (Hfail w) as (w' & E).
      exists w'. rewrite <- E. do 3 f_equal. lia.
    + exists s'. split.
      * run_pure. rewrite Hcv. run_lifted E1.
        unfold last_of at 1. rewrite Hfinal. run_pure.
        run_lifted E2. run_lifted E3. fold s3.
        erewrite bind_intro
          by (eapply bump_random_state_intro; exact Hcv).
        exact Hrun.
      * rewrite Hself. unfold s4, s3. cbn [self].
        rewrite set_eval_cv_twice. do 3 f_equal. lia.
Qed.

(** X17. The seed is put back only on the way out of a complete loop:
    when the prediction pass of iteration [i] raises, after the passes
    before it returned, [get_scores] raises the same exception and leaves
    the evaluation generator's seed at the initial seed plus [i]. *)
Theorem failed_pass_leaves_seed_shifted
    (X : Data) (y : Labels) (row_keys : list string) (scoring : string)
    (N : Z) (steps : list (string * Estimator)) (final : string * Estimator)
    (params : odict PyVal) (g : Splitter) (z : Z) (i : nat) (e : exn)
    (s : state) :
  build_steps
    (PyList.zip row_keys
       (PyList.last_n (length row_keys) (columns (plan_table (self s))))) s
  = Ok steps s ->
  PyList.last_item steps = Some final ->
  OrderedDict.getitem (param_key row_keys scoring) (best_params (self s))
  = Some params ->
  (forall w, exists w', set_params (snd final) params w = Ok tt w') ->
  (forall w, exists metric w',
      score_func (snd final) scoring w = Ok metric w' /\
      forall y pred w2, exists sc w3, metric y pred w2 = Ok sc w3) ->
  eval_cv (self s) = CvGenerator g (Some z) ->
  i < Z.to_nat N ->
  (forall j w, j < i ->
     exists pred w',
       cross_val_predict steps X y
         (CvGenerator g (Some (z + Z.of_nat j)%Z)) w = Ok pred w') ->
  (forall w, exists w',
     cross_val_predict steps X y
       (CvGenerator g (Some (z + Z.of_nat i)%Z)) w = Raise e w') ->
  exists s',
    get_scores X y row_keys scoring (Some N) s = Raise e s' /\
    eval_cv (self s') = CvGenerator g (Some (z + Z.of_nat i)%Z) /\
    self s' = set_eval_cv (eval_cv (self s')) (self s).
Proof.
  intros Hsteps Hfinal Hparams Hset Hscore Hcv Hi Hbefore Hfail.
  destruct (Hset (world s)) as (w1 & E1).
  set (s1 := {| self := self s; world := w1 |}).
  assert (Hcv1 : eval_cv (self s1) = CvGenerator g (Some z)) by exact Hcv.
  destruct (@repeat_scores_fails steps final X y scoring g e Hfinal Hscore
              i (Z.to_nat N) [] s1 z Hcv1 Hi Hbefore Hfail)
    as (s' & Hrun & Hself).
  assert (Hf : falsy (Some N) = false).
  { unfold falsy. apply Z.eqb_neq. lia. }
  exists s'. split; [|split].
  - unfold get_scores.
    run_pure. run_with Hsteps.
    unfold last_of at 1. rewrite Hfinal. run_pure.
    unfold subscript at 1. rewrite Hparams. run_pure.
    run_lifted E1. fold s1. rewrite Hf.
    erewrite bind_intro by (eapply get_random_state_intro; exact Hcv1).
    apply bind_raise. exact Hrun.
  - rewrite Hself. reflexivity.
  - rewrite Hself. reflexivity.
Qed.

(** **** What the evaluator may change *)

Section EvalFrames.

Variable I : state -> Prop.
Hypothesis I_world : forall s w, I s -> I {| self := self s; world := w |}.
Hypothesis I_seed :
  forall s c, I s -> I {| self := set_eval_cv c (self s); world := world s |}.

Lemma preserves_lifted {A} (m : M World A) : preserves I (lift_world m).
Proof. apply preserves_lift_world, I_world. Qed.

Lemma preserves_set_eval_cv (c : CV) : preserves I (modify_self (set_eval_cv c)).
Proof. apply preserves_modify_self. intros s Hs. now apply I_seed. Qed.

Lemma reads_only_get_random_state : reads_only get_random_state.
Proof.
  unfold get_random_state. apply reads_only_bind; [auto with frame|].
  intros s. destruct (eval_cv (self s)); auto with frame.
Qed.

Hint Resolve preserves_lifted preserves_set_eval_cv
  reads_only_get_random_state : frame.

Lemma preserves_set_random_state (v : option Z) :
  preserves I (set_random_state v).
Proof.
  unfold set_random_state. apply preserves_bind; [preserves_steps|].
  intros s. destruct (eval_cv (self s)); preserves_steps.
Qed.

Hint Resolve preserves_set_random_state : frame.

Lemma preserves_bump_random_state : preserves I bump_random_state.
Proof.
  unfold bump_random_state. apply preserves_bind; [preserves_steps|].
  intros [z|]; preserves_steps.
Qed.

Hint Resolve preserves_bump_random_state : frame.

Lemma preserves_repeat_scores (steps : list (string * Estimator))
    (X : Data) (y : Labels) (scoring : string) :
  forall n scores, preserves I (repeat_scores n steps X y scoring scores).
Proof.
  induction n as [|n IH]; intros scores; cbn [repeat_scores]; preserves_steps.
Qed.

Hint Resolve preserves_repeat_scores : frame.

Lemma preserves_get_scores (X : Data) (y : Labels) (row_keys : list string)
    (scoring : string) (collect_n : option Z) :
  preserves I (get_scores X y row_keys scoring collect_n).
Proof.
  unfold get_scores.
  do 5 (apply preserves_bind; [preserves_steps|]; intros).
  destruct (falsy collect_n); preserves_steps.
Qed.

End EvalFrames.

(** X18. An evaluation, returning or raising, changes no attribute of
    the object other than the cross-validation objects, whose seed it
    moves: the cache, the recorded best parameters, the plan, the steps
    and the declared grids are as before. Nothing is said of the search
    object, which may be the evaluation object itself. When the
    evaluation returns, the object is as a whole what it was. *)
Theorem evaluation_changes_only_the_seed
    (X : Data) (y : Labels) (row_keys : list string) (scoring : string)
    (collect_n : option Z) (s : state) :
  let r := get_scores X y row_keys scoring collect_n s in
  let p' := self (final_state r) in
  cvs_only (self s) p' /\
  _cached_X p' = _cached_X (self s) /\
  best_params p' = best_params (self s) /\
  plan_table p' = plan_table (self s) /\
  named_steps p' = named_steps (self s) /\
  param_grid p' = param_grid (self s) /\
  (forall v s', r = Ok v s' -> p' = self s).
Proof.
  intros r p'.
  assert (H : cvs_only (self s) p').
  { unfold p', r.
    apply (@preserves_get_scores (fun s' => cvs_only (self s) (self s'))).
    - intros s0 w Hs. exact Hs.
    - intros s0 c Hs. simpl. unfold cvs_only in *. rewrite Hs. reflexivity.
    - unfold cvs_only. now destruct (self s). }
  split; [exact H|].
  unfold cvs_only in H.
  repeat (split; [rewrite H; reflexivity|]).
  intros v s' Hr. unfold p'. rewrite Hr. simpl.
  unfold r in Hr. now apply get_scores_self in Hr.
Qed.

End EvaluatorMore.

(** * Further properties of the orchestration *)

Section OrchestrationMore.

Context {SK : Sklearn} {PD : Pandas}.
Import OrderedDictFacts.

(** **** What the modeling part of a row may change *)

Section ModelingFrames.

Variable I : state -> Prop.
Hypothesis I_world : forall s w, I s -> I {| self := self s; world := w |}.
Hypothesis I_best :
  forall s b, I s -> I {| self := set_best_params b (self s); world := world s |}.
Hypothesis I_asdf :
  forall s a b, I s -> I {| self := set_asdf a b (self s); world := world s |}.
Hypothesis I_seed :
  forall s c, I s -> I {| self := set_eval_cv c (self s); world := world s |}.

Lemma preserves_score_metrics (idx : nat) (row : odict string)
    (without_caching : list string) (X_featured : Data) (y : Labels)
    (collect_n : option Z) :
  forall metrics results,
    preserves I (score_metrics metrics idx row without_caching X_featured y
                               collect_n results).
Proof.
  induction metrics as [|metric rest IH]; intros results; cbn [score_metrics];
    [preserves_steps|].
  apply preserves_bind; [preserves_steps|]. intros ml_keys.
  apply preserves_bind;
    [now apply preserves_get_grid_search_results|]. intros grid_res.
  apply preserves_bind; [preserves_steps|]. intros results1.
  apply preserves_bind; [now apply preserves_get_scores|]. intros scores.
  preserves_steps.
Qed.

End ModelingFrames.

Lemma score_metrics_keeps_cache (metrics : list string) (idx : nat)
    (row : odict string) (without_caching : list string) (X_featured : Data)
    (y : Labels) (collect_n : option Z) (T T' : DataFrame cell)
    (s s' : state) :
  score_metrics metrics idx row without_caching X_featured y collect_n T s
  = Ok T' s' ->
  _cached_X (self s') = _cached_X (self s) /\
  plan_table (self s') = plan_table (self s).
Proof.
  intros H.
  pose proof (@preserves_score_metrics
                (fun s0 => _cached_X (self s0) = _cached_X (self s) /\
                           plan_table (self s0) = plan_table (self s))) as P.
  specialize (P (fun s0 w Hs => Hs) (fun s0 b Hs => Hs)
                (fun s0 a b Hs => Hs) (fun s0 c Hs => Hs)
                idx row without_caching X_featured y collect_n metrics T s
                (conj eq_refl eq_refl)).
  rewrite H in P. exact P.
Qed.

Lemma get_results_unfold (X : Data) (y : Labels) (caching_steps : list string)
    (scoring : scoring_arg) (collect_n : option Z) (s : state) :
  exists without_caching metrics T,
    without_caching
    = filter (fun step => negb (PyList.mem step caching_steps))
             (columns (plan_table (self s))) /\
    metrics = match scoring with
              | ScoringName m => [m]
              | ScoringList l => l
              end /\
    get_results X y caching_steps scoring collect_n s
    = run_rows module_globals (seq 0 (length (rows (plan_table (self s)))))
               X y caching_steps without_caching metrics collect_n T s.
Proof. do 3 eexists. split; [reflexivity|]. split; reflexivity. Qed.

(** A row cannot be run on a cache that holds the root entry. *)
Lemma run_rows_on_used_cache (X : Data)
    (caching_steps without_caching metrics : list string)
    (collect_n : option Z) (idx : nat) (rest : list nat) (y : Labels)
    (T T' : DataFrame cell) (s s' : state) :
  OrderedDict.contains "init" (_cached_X (self s)) = true ->
  run_rows module_globals (idx :: rest) X y caching_steps without_caching
           metrics collect_n T s <> Ok T' s'.
Proof.
  intros Hroot H. cbn [run_rows] in H.
  bind_inv H as s0 sa E. apply get_Ok in E as [-> ->].
  bind_inv H as row sb E.
  assert (sb = s) as ->.
  { destruct (Frame.loc idx (plan_table (self s)));
      [now apply ret_Ok in E | discriminate]. }
  bind_inv H as ck sc E'. apply row_values_Ok in E' as ->.
  bind_inv H as Xy sd E'.
  fold (transform_with_caching X y ck) in E'.
  rewrite transform_with_caching_raises in E' by exact Hroot. discriminate.
Qed.

(** A run that returns has gone through at most one row, and has left
    the root entry in the cache if it has gone through one. *)
Lemma get_results_Ok_inv (X : Data) (y : Labels) (caching_steps : list string)
    (scoring : scoring_arg) (collect_n : option Z) (results : DataFrame cell)
    (s s' : state) :
  get_results X y caching_steps scoring collect_n s = Ok results s' ->
  plan_table (self s') = plan_table (self s) /\
  (rows (plan_table (self s)) = [] \/
   (exists row, rows (plan_table (self s)) = [row]) /\
   OrderedDict.contains "init" (_cached_X (self s')) = true).
Proof.
  intros H.
  destruct (get_results_unfold X y caching_steps scoring collect_n s)
    as (wc & metrics & T & _ & _ & Hrun).
  rewrite Hrun in H. clear Hrun.
  destruct (rows (plan_table (self s))) as [|row more] eqn:Hrows.
  { simpl in H. apply ret_Ok in H as [_ ->]. auto. }
  cbn [length seq run_rows] in H.
  bind_inv H as s0 sa E. apply get_Ok in E as [-> ->].
  bind_inv H as row0 sb E.
  assert (sb = s) as ->.
  { destruct (Frame.loc 0 (plan_table (self s)));
      [now apply ret_Ok in E | discriminate]. }
  bind_inv H as ck sc E'. apply row_values_Ok in E' as ->.
  bind_inv H as Xy s1 Hcache.
  fold (transform_with_caching X y ck) in Hcache.
  pose proof (transform_with_caching_plan _ _ _ _ Hcache) as Hplan1.
  apply transform_with_caching_Ok in Hcache as (_ & Hroot & _).
  bind_inv H as T1 s2 Hmodel.
  apply score_metrics_keeps_cache in Hmodel as (Hc2 & Hplan2).
  destruct more as [|row' more].
  - simpl in H. apply ret_Ok in H as [_ ->].
    split; [congruence|]. right. split; [eauto|]. now rewrite Hc2.
  - exfalso. cbn [length seq] in H.
    eapply run_rows_on_used_cache; [|exact H]. now rewrite Hc2.
Qed.

(** X19. [get_results] returns only for a plan of at most one row: the
    second row's features are asked of a cache that holds the root entry,
    which stops at the unbound name [cp]. *)
Theorem get_results_returns_only_for_one_row
    (X : Data) (y : Labels) (caching_steps : list string)
    (scoring : scoring_arg) (collect_n : option Z) (results : DataFrame cell)
    (s s' : state) :
  get_results X y caching_steps scoring collect_n s = Ok results s' ->
  length (rows (plan_table (self s))) <= 1.
Proof.
  intros H. apply get_results_Ok_inv in H as (_ & [Hnone | [[row Hone] _]]).
  - rewrite Hnone. simpl. lia.
  - rewrite Hone. simpl. lia.
Qed.

(** X20. An object serves one run: once [get_results] has returned for a
    plan that has a row, no later [get_results] on the object returns,
    whatever its arguments. *)
Theorem get_results_returns_once
    (X : Data) (y : Labels) (caching_steps : list string)
    (scoring : scoring_arg) (collect_n : option Z) (results : DataFrame cell)
    (s s' : state) :
  get_results X y caching_steps scoring collect_n s = Ok results s' ->
  rows (plan_table (self s)) <> [] ->
  forall X2 y2 caching_steps2 scoring2 collect_n2 results2 s2,
    get_results X2 y2 caching_steps2 scoring2 collect_n2 s'
    <> Ok results2 s2.
Proof.
  intros H Hrows X2 y2 caching_steps2 scoring2 collect_n2 results2 s2 H2.
  apply get_results_Ok_inv in H as (Hplan & [Hnone | [[row Hone] Hroot]]);
    [contradiction|].
  destruct (get_results_unfold X2 y2 caching_steps2 scoring2 collect_n2 s')
    as (wc & metrics & T & _ & _ & Hrun).
  rewrite Hrun, Hplan, Hone in H2. cbn [length seq] in H2.
  eapply run_rows_on_used_cache; [exact Hroot | exact H2].
Qed.

(** X21. Caching every step leaves nothing to model: when all the plan's
    columns are caching steps and a metric is asked for, the run computes
    the first row's features and then raises IndexError, the search being
    handed an empty list of names. *)
Theorem caching_every_step_raises_index_error
    (X : Data) (y : Labels) (caching_steps : list string)
    (scoring : scoring_arg) (collect_n : option Z)
    (row : odict string) (more : list (odict string))
    (caching_keys : list string) (r : Data * Labels) (s s1 : state) :
  rows (plan_table (self s)) = row :: more ->
  (forall c, In c (columns (plan_table (self s))) -> In c caching_steps) ->
  match scoring with
  | ScoringName _ => True
  | ScoringList l => l <> []
  end ->
  row_values caching_steps row s = Ok caching_keys s ->
  transform_with_caching X y caching_keys s = Ok r s1 ->
  get_results X y caching_steps scoring collect_n s = Raise IndexError s1.
Proof.
  intros Hrows Hall Hmetric Hkeys Hcache.
  destruct (get_results_unfold X y caching_steps scoring collect_n s)
    as (wc & metrics & T & Hwc & Hmetrics & Hrun).
  rewrite Hrun, Hrows. clear Hrun.
  assert (Hnone : wc = []).
  { rewrite Hwc. clear -Hall.
    induction (columns (plan_table (self s))) as [|c cols IH];
      [reflexivity|].
    simpl. assert (Hc : PyList.mem c caching_steps = true).
    { apply mem_In. apply Hall. now left. }
    rewrite Hc. simpl. apply IH. intros c' Hc'. apply Hall. now right. }
  assert (Hsome : exists m ms, metrics = m :: ms).
  { rewrite Hmetrics. destruct scoring as [m|[|m ms]]; eauto.
    contradiction. }
  destruct Hsome as (m & ms & ->). subst wc.
  cbn [length seq run_rows].
  unfold bind at 1. unfold get at 1.
  unfold Frame.loc. rewrite Hrows. cbn [nth_error].
  unfold bind at 1. unfold ret at 1.
  unfold bind at 1. rewrite Hkeys.
  unfold bind at 1.
  fold (transform_with_caching X y caching_keys). rewrite Hcache.
  apply bind_raise. cbn [score_metrics]. rewrite Hnone. cbn [row_values].
  unfold bind at 1. unfold ret at 1.
  apply bind_raise. reflexivity.
Qed.

End OrchestrationMore.

(** * The result table of a run *)

Section ResultTableRun.

Context {SK : Sklearn} {PD : Pandas}.
Import OrderedDictFacts.


(** Under a pandas whose [loc] hands out a copy of the row, no cell of
    the table is ever written: a run that returns hands back the table
    as it was before the first row, the plan's cells and NaN elsewhere. *)
Lemma write_cell_copied (idx : nat) (key : string) (value : cell)
    (T T' : DataFrame cell) (s s' : state) :
  loc_row = CopiesRow ->
  write_cell idx key value T s = Ok T' s' -> T' = T.
Proof.
  intros Hcopy. unfold write_cell. rewrite Hcopy.
  destruct (Frame.loc idx T); unfold ret, raise; intros H; now inversion H.
Qed.

Lemma write_items_copied (idx : nat) (items : list (string * cell)) :
  forall (T T' : DataFrame cell) (s s' : state),
    loc_row = CopiesRow ->
    write_items idx items T s = Ok T' s' -> T' = T.
Proof.
  induction items as [|[k v] items IH]; intros T T' s s' Hcopy H; simpl in H.
  - now apply ret_Ok in H.
  - bind_inv H as T1 s1 E. apply write_cell_copied in E; [|exact Hcopy]. subst T1.
    now apply IH in H.
Qed.

Lemma score_metrics_copied (idx : nat) (row : odict string)
    (without_caching : list string) (X_featured : Data) (y : Labels)
    (collect_n : option Z) :
  forall (metrics : list string) (T T' : DataFrame cell) (s s' : state),
    loc_row = CopiesRow ->
    score_metrics metrics idx row without_caching X_featured y collect_n T s
    = Ok T' s' ->
    T' = T.
Proof.
  induction metrics as [|m rest IH]; intros T T' s s' Hcopy H; simpl in H.
  - now apply ret_Ok in H.
  - bind_inv H as ml sa E. bind_inv H as gr sb Egs.
    bind_inv H as Tg sc Eg. apply write_items_copied in Eg; [|exact Hcopy].
    bind_inv H as scores sd Esc.
    bind_inv H as Ta se Ea. apply write_cell_copied in Ea; [|exact Hcopy].
    bind_inv H as Tb sf Eb. apply write_cell_copied in Eb; [|exact Hcopy].
    bind_inv H as Tc sg Ec. apply write_cell_copied in Ec; [|exact Hcopy].
    apply IH in H; [congruence | exact Hcopy].
Qed.

Lemma run_rows_copied (G : odict binding) (X : Data)
    (caching_steps without_caching metrics : list string)
    (collect_n : option Z) :
  forall (index : list nat) (y : Labels) (T T' : DataFrame cell)
         (s s' : state),
    loc_row = CopiesRow ->
    run_rows G index X y caching_steps without_caching metrics collect_n T s
    = Ok T' s' ->
    T' = T.
Proof.
  induction index as [|idx rest IH]; intros y T T' s s' Hcopy H; simpl in H.
  - now apply ret_Ok in H.
  - bind_inv H as s0 sa E. bind_inv H as row sb Erow.
    bind_inv H as ck sc Eck. bind_inv H as Xy sd Ecache.
    bind_inv H as T1 se Emodel.
    apply score_metrics_copied in Emodel; [|exact Hcopy]. subst T1.
    now apply IH in H.
Qed.

Lemma get_results_without_write_through (X : Data) (y : Labels)
    (caching_steps : list string) (scoring : scoring_arg)
    (collect_n : option Z) (results : DataFrame cell) (s s' : state) :
  loc_row = CopiesRow ->
  get_results X y caching_steps scoring collect_n s = Ok results s' ->
  let metrics := match scoring with
                 | ScoringName m => [m]
                 | ScoringList l => l
                 end in
  let plan := plan_table (self s) in
  results
  = Frame.assign_columns CNaN CStr (columns plan) plan
      (Frame.with_columns (columns plan ++ metric_columns metrics)).
Proof.
  intros Hcopy H metrics plan.
  unfold get_results, get_results_in in H.
  bind_inv H as s0 sa E. apply get_Ok in E as [-> ->].
  fold metrics plan in H. rewrite all_columns_app in H.
  now apply run_rows_copied in H.
Qed.

End ResultTableRun.

(** * The function transformers *)

Section Transformers.

Variables Item Out Params W : Type.

Lemma transform_items_Ok (self : MatrixTransformer.t Item Out Params W) :
  forall (X : list Item) (acc out : list Out) (w w' : W),
    MatrixTransformer.transform_items self X acc w = Ok out w' ->
    exists out', out = acc ++ out' /\ Forall2 (MatrixTransformer.applied self) X out'.
Proof.
  induction X as [|x X IH]; intros acc out w w' H; simpl in H.
  - apply ret_Ok in H as [-> _]. exists []. split; [now rewrite app_nil_r|].
    constructor.
  - bind_inv H as o w1 E. apply IH in H as (out' & -> & Hall).
    exists (o :: out'). split; [now rewrite <- app_assoc|].
    constructor; [|exact Hall]. now exists w, w1.
Qed.

Lemma transform_items_pure (self : MatrixTransformer.t Item Out Params W) (f : Item -> Out) :
  (forall x w,
      MatrixTransformer.func self x (MatrixTransformer.params self) w
      = Ok (f x) w) ->
  forall (X : list Item) (acc : list Out) (w : W),
    MatrixTransformer.transform_items self X acc w = Ok (acc ++ map f X) w.
Proof.
  intros Hf. induction X as [|x X IH]; intros acc w; simpl.
  - now rewrite app_nil_r.
  - unfold bind. rewrite Hf, IH, <- app_assoc. reflexivity.
Qed.

Variable Arr : Type.
Variable array : list Out -> exn + Arr.

(** X22. [MatrixTransformer.transform] works item by item and hands the
    list of results to numpy's [array]: what it returns is the array of
    a list that has one entry per item of the input, each a value the
    function returned on the item at the same position; and for a
    function that only computes, the call is [array] of the function
    mapped over the input, returned when [array] accepts that list and
    raising its exception when it refuses it. *)
Theorem matrix_transform_is_elementwise
    (self : MatrixTransformer.t Item Out Params W)
    (X : list Item) (w : W) :
  (forall a w',
      MatrixTransformer.transform array self X w = Ok a w' ->
      exists out,
        length out = length X /\
        Forall2 (MatrixTransformer.applied self) X out /\
        array out = inr a) /\
  (forall f : Item -> Out,
      (forall x w0,
          MatrixTransformer.func self x (MatrixTransformer.params self) w0
          = Ok (f x) w0) ->
      MatrixTransformer.transform array self X w
      = match array (map f X) with
        | inr a => Ok a w
        | inl e => Raise e w
        end).
Proof.
  split.
  - intros a w' H. unfold MatrixTransformer.transform in H.
    bind_inv H as out w1 E.
    apply transform_items_Ok in E as (out' & -> & Hall).
    exists out'. split; [symmetry; eapply Forall2_length; exact Hall|].
    split; [exact Hall|].
    simpl in H. destruct (array out') as [e|a0]; [discriminate|].
    apply ret_Ok in H as [-> _]. reflexivity.
  - intros f Hf. unfold MatrixTransformer.transform, bind.
    rewrite (transform_items_pure self f Hf). simpl.
    destruct (array (map f X)); reflexivity.
Qed.

Lemma transform_items_raise (self : MatrixTransformer.t Item Out Params W) (f : Item -> Out) (e : exn)
    (bad : Item) (rest : list Item) (w w' : W) :
  MatrixTransformer.func self bad (MatrixTransformer.params self) w
  = Raise e w' ->
  forall (good : list Item) (acc : list Out),
    (forall x w0, In x good ->
        MatrixTransformer.func self x (MatrixTransformer.params self) w0
        = Ok (f x) w0) ->
    MatrixTransformer.transform_items self (good ++ bad :: rest) acc w
    = Raise e w'.
Proof.
  intros Hbad. induction good as [|x good IH]; intros acc Hgood; simpl.
  - unfold bind. now rewrite Hbad.
  - unfold bind. rewrite Hgood by now left.
    apply IH. intros x' w0 Hx'. apply Hgood. now right.
Qed.

(** X23. [MatrixTransformer.transform] stops at the first item the
    function fails on: its exception is the call's exception, no result
    is returned for the items before it, and the function is not called
    on the items after it. *)
Theorem matrix_transform_stops_at_first_failure (self : MatrixTransformer.t Item Out Params W)
    (f : Item -> Out) (e : exn) (good rest : list Item) (bad : Item)
    (w w' : W) :
  (forall x w0, In x good ->
      MatrixTransformer.func self x (MatrixTransformer.params self) w0
      = Ok (f x) w0) ->
  MatrixTransformer.func self bad (MatrixTransformer.params self) w
  = Raise e w' ->
  MatrixTransformer.transform array self (good ++ bad :: rest) w
  = Raise e w' /\
  forall rest',
    MatrixTransformer.transform array self (good ++ bad :: rest') w
    = MatrixTransformer.transform array self (good ++ bad :: rest) w.
Proof.
  intros Hgood Hbad. unfold MatrixTransformer.transform, bind.
  split; [|intros rest'];
    now rewrite !(@transform_items_raise self f e bad _ w w' Hbad good [] Hgood).
Qed.

End Transformers.

(** * Histories of calls when [cp] is bound *)

Section CacheHistories.

Context {SK : Sklearn}.
Import OrderedDictFacts.

Variable ft : Estimator -> Data -> Data.
Hypothesis stages_pure : pure_stages ft.

Variable G : odict binding.
Hypothesis cp_bound : OrderedDict.getitem "cp" G = Some (PyModule "copy").

Lemma cache_call_keeps_plan_and_steps (X : Data) (y : Labels)
    (row_keys : list string) (s : state) :
  let s' := final_state (transform_with_caching_in G X y row_keys s) in
  plan_table (self s') = plan_table (self s) /\
  named_steps (self s') = named_steps (self s).
Proof.
  intros s'. unfold s'.
  apply (@preserves_transform_with_caching SK G
           (fun s0 => plan_table (self s0) = plan_table (self s) /\
                      named_steps (self s0) = named_steps (self s))); auto.
Qed.

Lemma call_sequence_lineage (X0 : Data) (y : Labels) (s0 : state) :
  forall (calls : list (Data * list string)) (s : state)
         (prev : list (string * Estimator)),
    lineage ft X0 prev s ->
    plan_table (self s) = plan_table (self s0) ->
    named_steps (self s) = named_steps (self s0) ->
    Forall (fun call => resolvable s0 (snd call)) calls ->
    Forall2 (from_scratch ft s0 X0 y) calls (fst (call_sequence G y calls s)).
Proof.
  induction calls as [|[X row_keys] calls IH]; intros s prev Hlin Hplan Hns Hall.
  - constructor.
  - inversion Hall as [|? ? Hcall Hrest]; subst.
    destruct Hcall as (Hnd & Hlen & steps & Hsteps). cbn [snd] in *.
    assert (Hsteps' : build_steps
                        (PyList.zip row_keys
                           (firstn (length row_keys)
                                   (columns (plan_table (self s))))) s
                      = Ok steps s).
    { rewrite Hplan. eapply build_steps_frame; [exact Hns | exact Hsteps]. }
    destruct (@later_call_lineage SK ft stages_pure G cp_bound X0 X y prev
                steps row_keys s Hlin Hnd) as (s' & Hcall & Hlin');
      [now rewrite Hplan | exact Hsteps' |].
    pose proof (cache_call_keeps_plan_and_steps X y row_keys s) as Hkeep.
    cbn [call_sequence]. rewrite Hcall in *. cbn [final_state] in *.
    destruct Hkeep as (Hplan' & Hns').
    specialize (IH s' steps Hlin').
    destruct (call_sequence G y calls s') as [rs s2] eqn:Eseq.
    cbn [fst] in *. constructor.
    + exists steps, s'. cbn [snd]. split; [exact Hsteps | reflexivity].
    + apply IH; [congruence | congruence | exact Hrest].
Qed.

(** X10. Were [cp] bound to the [copy] module, the cache would be
    transparent over any history: on an object with an empty cache,
    every call of a sequence of calls with resolvable names returns the
    stages of its own names applied from scratch to the input of the
    first call; the input handed to a later call is not looked at. *)
Theorem any_history_returns_from_scratch_data
    (y : Labels) (X1 : Data) (row_keys1 : list string)
    (more : list (Data * list string)) (s : state) :
  _cached_X (self s) = OrderedDict.empty ->
  Forall (fun call => resolvable s (snd call)) ((X1, row_keys1) :: more) ->
  Forall2 (from_scratch ft s X1 y) ((X1, row_keys1) :: more)
          (fst (call_sequence G y ((X1, row_keys1) :: more) s)).
Proof.
  intros Hempty Hall.
  inversion Hall as [|? ? Hcall Hrest]; subst.
  destruct Hcall as (Hnd & Hlen & steps & Hsteps). cbn [snd] in *.
  destruct (@first_call_lineage SK ft stages_pure G X1 y row_keys1 steps s
              Hempty Hnd Hlen Hsteps) as (s' & Hcall & Hlin).
  pose proof (cache_call_keeps_plan_and_steps X1 y row_keys1 s) as Hkeep.
  cbn [call_sequence]. rewrite Hcall in *. cbn [final_state] in *.
  destruct Hkeep as (Hplan & Hns).
  pose proof (@call_sequence_lineage X1 y s more s' steps Hlin Hplan Hns Hrest)
    as Hmore.
  destruct (call_sequence G y more s') as [rs s2].
  cbn [fst] in *. constructor; [|exact Hmore].
  exists steps, s'. cbn [snd]. split; [exact Hsteps | reflexivity].
Qed.

End CacheHistories.

(** * The further properties on the test doubles *)

Section MoreScenarios.

Import Demo.

Lemma counting_returns : evaluation_returns.
Proof.
  repeat split.
  - intros e params w. eexists. reflexivity.
  - intros steps X y scoring c w. do 2 eexists. reflexivity.
  - intros steps X y c w. do 2 eexists. reflexivity.
  - intros e scoring w. do 2 eexists. split; [reflexivity|].
    intros y pred w2. do 2 eexists. reflexivity.
Qed.

(** The row (minmax, pca, LR) of [pipe3] resolves. *)
Lemma plan_rows_resolve_scenario :
  exists stages,
    build_steps (PyList.zip ["minmax"; "pca"; "LR"]
                            (columns (plan_table pipe3))) (fresh pipe3)
    = Ok stages (fresh pipe3) /\
    map fst stages = ["minmax"; "pca"; "LR"].
Proof.
  destruct (@plan_rows_resolve counting three_steps (seeded 0) (seeded 1)
              [("LR", [("penalty", 7%Z)])] [] pipe3 (fresh pipe3)
              [("Scaler", "minmax"); ("Selector", "pca"); ("Classifier", "LR")])
    as (stages & Hb & Hk & _).
  - vm_compute. reflexivity.
  - reflexivity.
  - reflexivity.
  - vm_compute. left. reflexivity.
  - exists stages. split; [exact Hb | exact Hk].
Defined.

Lemma plan_rows_distinct_scenario :
  NoDup (columns (plan_table pipe3)) /\ NoDup (rows (plan_table pipe3)).
Proof.
  apply (@plan_rows_distinct counting three_steps (seeded 0) (seeded 1)
           [("LR", [("penalty", 7%Z)])] [] pipe3).
  vm_compute. reflexivity.
Defined.

(** XGB is no variant of a step of [two_steps]. *)
Lemma unknown_banned_name_is_ignored_scenario :
  ~ In "XGB" (concat (column_keys_of (ordered_steps two_steps))) /\
  __init__ two_steps (seeded 0) (seeded 1) []
           [("standard", "SVC"); ("minmax", "XGB")]
  = __init__ two_steps (seeded 0) (seeded 1) [] [("standard", "SVC")].
Proof.
  assert (H : ~ In "XGB" (concat (column_keys_of (ordered_steps two_steps)))).
  { vm_compute. intuition discriminate. }
  split; [exact H|].
  apply (@unknown_banned_name_is_ignored counting two_steps (seeded 0)
           (seeded 1) [] [("standard", "SVC")] [] ("minmax", "XGB")).
  right. exact H.
Defined.

Lemma first_call_without_names_scenario :
  transform_with_caching 7%Z 0%Z [] (fresh pipe3)
  = Ok (7%Z, 0%Z)
       {| self := set_cached_X [("init", 7%Z)] pipe3; world := [] |}.
Proof.
  apply (@first_call_without_names_returns_input counting module_globals
           7%Z 0%Z (fresh pipe3)).
  reflexivity.
Defined.

(** [nope] is asked for as a selector of [pipe3]. *)
Lemma unknown_variant_scenario :
  exists s',
    transform_with_caching 7%Z 0%Z ["minmax"; "nope"; "LR"] (fresh pipe3)
    = Raise (KeyError "nope") s' /\
    _cached_X (self s') = [("init", 7%Z); ("minmax", 71%Z)].
Proof.
  apply (@unknown_variant_raises_after_caching_prefix counting append_digit
           7%Z 0%Z ["minmax"] ["LR"] "nope" "Selector" ["Scaler"]
           ["Classifier"] selectors [("minmax", ("minmax", 1%Z))]
           (fresh pipe3)).
  - exact append_digit_pure.
  - reflexivity.
  - reflexivity.
  - reflexivity.
  - repeat constructor; simpl; intuition discriminate.
  - vm_compute. reflexivity.
  - reflexivity.
  - reflexivity.
Defined.

(** Three calls on [pipe3] in the namespace with [cp] bound: the second
    and the third are handed other inputs and still return the data of
    the first. *)
Lemma any_history_scenario :
  let calls := [(7%Z, ["minmax"; "pca"]); (9%Z, ["minmax"; "kbest"]);
                (5%Z, ["standard"])] in
  map (fun r => match r with
                | Ok (d, _) _ => Some d
                | Raise _ _ => None
                end)
      (fst (call_sequence globals_with_cp 0%Z calls (fresh pipe3)))
  = [Some 713%Z; Some 714%Z; Some 72%Z] /\
  Forall2 (from_scratch append_digit (fresh pipe3) 7%Z 0%Z) calls
          (fst (call_sequence globals_with_cp 0%Z calls (fresh pipe3))).
Proof.
  split; [vm_compute; reflexivity|].
  apply (@any_history_returns_from_scratch_data counting append_digit
           append_digit_pure globals_with_cp cp_bound_with_cp 0%Z 7%Z
           ["minmax"; "pca"]
           [(9%Z, ["minmax"; "kbest"]); (5%Z, ["standard"])] (fresh pipe3)).
  - reflexivity.
  - apply Forall_cons;
      [|apply Forall_cons; [|apply Forall_cons; [|apply Forall_nil]]];
      (split;
       [ repeat constructor; simpl; intuition discriminate
       | split; [vm_compute; lia | eexists; vm_compute; reflexivity] ]).
Defined.

(** The search of [pipe1] for its only row. *)
Lemma search_records_declared_names_scenario :
  prefixed "LR" [("penalty", 7%Z)] = [("LR__penalty", 7%Z)] /\
  OrderedDict.getitem "LRaccuracy" (best_params (self searched))
  = Some [("penalty", 7%Z)].
Proof.
  destruct (@search_records_declared_names counting 71%Z 0%Z ["LR"]
              "accuracy" "LR" [("penalty", 7%Z)] [("penalty", 7%Z)]
              [("LR", ("LR", 5%Z))]
              {| best_params_ := [("LR__penalty", 7%Z)];
                 cv_results_params := [[("LR__penalty", 7%Z)]];
                 cv_results_mean_test_score := [71%Z];
                 cv_results_std_test_score := [1%Z] |}
              [] (fresh pipe1))
    as (Hgrid & Hrec & _).
  - reflexivity.
  - reflexivity.
  - vm_compute. reflexivity.
  - vm_compute. reflexivity.
  - repeat constructor; simpl; intuition.
  - repeat constructor; simpl; intuition.
  - reflexivity.
  - split; [exact Hgrid | exact Hrec].
Defined.

Lemma search_reports_scenario :
  get_grid_search_results 71%Z 0%Z ["LR"] "accuracy" (fresh pipe1)
  = Ok [("grid_accuracy_mean", CNum 71%Z); ("grid_accuracy_std", CNum 1%Z);
        ("grid_accuracy_best_params", CStr "penalty")] searched.
Proof.
  etransitivity.
  - apply (@search_reports_last_best_candidate counting 71%Z 0%Z ["LR"]
             "accuracy" "LR" [("penalty", 7%Z)] [("LR", ("LR", 5%Z))]
             {| best_params_ := [("LR__penalty", 7%Z)];
                cv_results_params := [[("LR__penalty", 7%Z)]];
                cv_results_mean_test_score := [71%Z];
                cv_results_std_test_score := [1%Z] |}
             [] (fresh pipe1)).
    + reflexivity.
    + reflexivity.
    + vm_compute. reflexivity.
    + vm_compute. reflexivity.
    + simpl. lia.
    + simpl. lia.
  - vm_compute. reflexivity.
Defined.

(** No search has run on the fresh [pipe1]. *)
Lemma evaluation_without_search_scenario :
  get_scores 71%Z 0%Z ["LR"] "accuracy" None (fresh pipe1)
  = Raise (KeyError "LRaccuracy") (fresh pipe1).
Proof.
  apply (@evaluation_without_search_raises_key_error counting 71%Z 0%Z
           ["LR"] "accuracy" None [("LR", ("LR", 5%Z))] ("LR", ("LR", 5%Z))
           (fresh pipe1)).
  - vm_compute. reflexivity.
  - reflexivity.
  - reflexivity.
Defined.

Lemma negative_repeat_count_scenario :
  (-2 < 0)%Z /\
  get_scores 71%Z 0%Z ["LR"] "accuracy" (Some (-2)%Z) searched
  = Ok (ScoreList [])
       {| self := self searched;
          world := [ParamsSet "LR" [("penalty", 7%Z)]] |}.
Proof.
  split; [lia|].
  apply (@negative_repeat_count_returns_no_score counting 71%Z 0%Z ["LR"]
           "accuracy" (-2)%Z [("LR", ("LR", 5%Z))] ("LR", ("LR", 5%Z))
           [("penalty", 7%Z)] tt (Some 1%Z)
           [ParamsSet "LR" [("penalty", 7%Z)]] searched).
  - lia.
  - vm_compute. reflexivity.
  - reflexivity.
  - vm_compute. reflexivity.
  - vm_compute. reflexivity.
  - vm_compute. reflexivity.
Defined.


(** The same run under a pandas that hands out copies of rows: the
    metric cells are as they were created. *)
Example metric_cells_lost_when_rows_are_copied :
  exists results s',
    @get_results counting {| loc_row := CopiesRow |} 7%Z 0%Z ["Scaler"]
                 (ScoringName "accuracy") None (fresh pipe1)
    = Ok results s' /\
    rows results
    = [[("Scaler", CStr "minmax"); ("Classifier", CStr "LR");
        ("grid_accuracy_mean", CNaN); ("grid_accuracy_std", CNaN);
        ("grid_accuracy_best_params", CNaN);
        ("eval_accuracy_mean", CNaN); ("eval_accuracy_std", CNaN);
        ("eval_accuracy_scores", CNaN)]].
Proof. eexists. eexists. split; [vm_compute; reflexivity | reflexivity]. Qed.

Lemma get_results_one_row_scenario :
  exists results s',
    get_results 7%Z 0%Z ["Scaler"] (ScoringName "accuracy") None (fresh pipe1)
    = Ok results s' /\
    length (rows (plan_table (self (fresh pipe1)))) <= 1.
Proof.
  eexists. eexists. split; [vm_compute; reflexivity|].
  eapply (@get_results_returns_only_for_one_row counting shared_rows 7%Z 0%Z ["Scaler"]
            (ScoringName "accuracy") None _ (fresh pipe1) _).
  vm_compute. reflexivity.
Defined.

(** A second run on the object of the first stops. *)
Lemma get_results_once_scenario :
  exists results s',
    get_results 7%Z 0%Z ["Scaler"] (ScoringName "accuracy") None (fresh pipe1)
    = Ok results s' /\
    forall results2 s2,
      get_results 7%Z 0%Z ["Scaler"] (ScoringName "accuracy") None s'
      <> Ok results2 s2.
Proof.
  eexists. eexists. split; [vm_compute; reflexivity|].
  intros results2 s2.
  eapply (@get_results_returns_once counting shared_rows 7%Z 0%Z ["Scaler"]
            (ScoringName "accuracy") None _ (fresh pipe1) _).
  - vm_compute. reflexivity.
  - vm_compute. discriminate.
Defined.

Lemma caching_every_step_scenario :
  exists s1,
    get_results 7%Z 0%Z ["Scaler"; "Classifier"] (ScoringName "accuracy") None
                (fresh pipe1)
    = Raise IndexError s1 /\
    world s1 = [Fitted "minmax"; Fitted "LR"].
Proof.
  eexists. split.
  - eapply (@caching_every_step_raises_index_error counting shared_rows 7%Z 0%Z
              ["Scaler"; "Classifier"] (ScoringName "accuracy") None
              [("Scaler", "minmax"); ("Classifier", "LR")] []
              ["minmax"; "LR"] _ (fresh pipe1) _).
    + vm_compute. reflexivity.
    + intros c Hc. vm_compute in Hc. simpl. tauto.
    + exact I.
    + vm_compute. reflexivity.
    + vm_compute. reflexivity.
  - reflexivity.
Defined.

(** Adding 10 to each item, refusing negative items; [array] takes any
    list of numbers. *)
Lemma matrix_transform_failure_scenario :
  MatrixTransformer.transform (@inr exn (list Z))
    (MatrixTransformer.__init__
       (fun (x p : Z) (w : unit) =>
          if (x <? 0)%Z then Raise ValueError w else Ok (x + p)%Z w)
       10%Z)
    [1%Z; 2%Z; (-3)%Z; 4%Z] tt
  = Raise ValueError tt.
Proof.
  apply (@matrix_transform_stops_at_first_failure Z Z Z unit (list Z)
           (@inr exn (list Z))
           (MatrixTransformer.__init__
              (fun (x p : Z) (w : unit) =>
                 if (x <? 0)%Z then Raise ValueError w else Ok (x + p)%Z w)
              10%Z)
           (fun x => (x + 10)%Z) ValueError [1%Z; 2%Z] [4%Z] (-3)%Z tt tt).
  - intros x w0 [<- | [<- | []]]; reflexivity.
  - reflexivity.
Defined.

(** The first [p] numbers of each item, handed to an [array] that, as
    numpy does, refuses rows of different lengths: rows long enough give
    the array of their heads, a short row makes [array] raise. *)
Lemma matrix_transform_elementwise_scenario :
  let array := fun l : list (list Z) =>
                 match l with
                 | [] => inr l
                 | r :: rest =>
                     if forallb (fun r' => Nat.eqb (length r') (length r)) rest
                     then inr l else inl ValueError
                 end in
  let heads := MatrixTransformer.__init__
                 (fun (x : list Z) (p : nat) (w : unit) => Ok (firstn p x) w)
                 2 in
  MatrixTransformer.transform array heads
    [[1%Z; 2%Z; 3%Z]; [4%Z; 5%Z]; [6%Z; 7%Z; 8%Z]] tt
  = Ok [[1%Z; 2%Z]; [4%Z; 5%Z]; [6%Z; 7%Z]] tt /\
  MatrixTransformer.transform array heads
    [[1%Z; 2%Z; 3%Z]; [4%Z]] tt
  = Raise ValueError tt.
Proof.
  intros array heads. split.
  - apply (proj2 (@matrix_transform_is_elementwise (list Z) (list Z) nat unit
                    (list (list Z)) array heads
                    [[1%Z; 2%Z; 3%Z]; [4%Z; 5%Z]; [6%Z; 7%Z; 8%Z]] tt)
                 (firstn 2)).
    reflexivity.
  - apply (proj2 (@matrix_transform_is_elementwise (list Z) (list Z) nat unit
                    (list (list Z)) array heads
                    [[1%Z; 2%Z; 3%Z]; [4%Z]] tt)
                 (firstn 2)).
    reflexivity.
Defined.

End MoreScenarios.

Section FlakyScenarios.

Import Flaky.

(** The evaluation of [ready] starts at seed 1; the pass at seed 2, the
    second of three, fails. *)
Lemma failed_pass_scenario :
  1 < Z.to_nat 3 /\
  exists s',
    get_scores 71%Z 0%Z ["LR"] "accuracy" (Some 3%Z) ready
    = Raise (LibraryError "fold") s' /\
    eval_cv (self ready) = CvGenerator tt (Some 1%Z) /\
    eval_cv (self s') = CvGenerator tt (Some 2%Z).
Proof.
  split; [vm_compute; lia|].
  destruct (@failed_pass_leaves_seed_shifted flaky 71%Z 0%Z ["LR"] "accuracy"
              3%Z [("LR", ("LR", 5%Z))] ("LR", ("LR", 5%Z)) [] tt 1%Z 1
              (LibraryError "fold") ready) as (s' & Hrun & Hseed & _).
  - vm_compute. reflexivity.
  - reflexivity.
  - reflexivity.
  - intros w. eexists. reflexivity.
  - intros w. do 2 eexists. split; [reflexivity|].
    intros y pred w2. do 2 eexists. reflexivity.
  - reflexivity.
  - vm_compute. lia.
  - intros j w Hj. assert (j = 0) as -> by lia. do 2 eexists. reflexivity.
  - intros w. eexists. reflexivity.
  - exists s'. split; [exact Hrun|]. split; [reflexivity | exact Hseed].
Defined.

(** [ready] with a plain cross-validation object, and with a generator
    without seed: the log shows how far each run got. *)
Lemma repeat_without_integer_seed_scenario :
  (0 < 3)%Z /\
  get_scores 71%Z 0%Z ["LR"] "accuracy" (Some 3%Z)
             {| self := @set_eval_cv flaky (CvPlain tt) (self ready);
                world := [] |}
  = Raise (AttributeError "random_state")
          {| self := @set_eval_cv flaky (CvPlain tt) (self ready);
             world := ["set_params LR"] |} /\
  get_scores 71%Z 0%Z ["LR"] "accuracy" (Some 3%Z)
             {| self := @set_eval_cv flaky (CvGenerator tt None) (self ready);
                world := [] |}
  = Raise TypeError
          {| self := @set_eval_cv flaky (CvGenerator tt None) (self ready);
             world := ["set_params LR"; "predict"] |}.
Proof.
  split; [lia|]. split.
  - apply (proj1 (@repeat_without_integer_seed_raises flaky 71%Z 0%Z ["LR"]
                    "accuracy" 3%Z [("LR", ("LR", 5%Z))] ("LR", ("LR", 5%Z))
                    [] ["set_params LR"]
                    {| self := @set_eval_cv flaky (CvPlain tt) (self ready);
                       world := [] |}
                    ltac:(lia) eq_refl eq_refl eq_refl eq_refl) tt).
    reflexivity.
  - apply (proj2 (@repeat_without_integer_seed_raises flaky 71%Z 0%Z ["LR"]
                    "accuracy" 3%Z [("LR", ("LR", 5%Z))] ("LR", ("LR", 5%Z))
                    [] ["set_params LR"]
                    {| self := @set_eval_cv flaky (CvGenerator tt None)
                                            (self ready);
                       world := [] |}
                    ltac:(lia) eq_refl eq_refl eq_refl eq_refl)
                 tt 71%Z ["set_params LR"; "predict"]
                 (fun (y pred : Z) (w : list string) => Ok (100 * y + pred)%Z w)
                 ["set_params LR"; "predict"] 71%Z
                 ["set_params LR"; "predict"]);
      reflexivity.
Defined.

End FlakyScenarios.
